(** * IS31FL3235A 28-channel LED driver: register cache, update trigger,
      shutdown flags and initialisation sequence.

    The development embeds [driver/is31fl3235a.c] (with the constants of
    [driver/is31fl3235a_regs.h] and the enum of [include/is31fl3235a.h])
    as state-passing functions over the driver's runtime data and a
    mock of the platform services it calls (I2C transport, SDB pin,
    sleeping), and states the properties of the specification on it. *)

From Stdlib Require Import ZArith Lia Bool List.
From stdpp Require Import base list.
Import ListNotations.

Local Open Scope Z_scope.

(** ** Constants of [is31fl3235a_regs.h] *)

Module Regs.

(** Modelled from the spec: Zephyr's [BIT(n)] macro is not part of the
    sources; by the control byte layout of the specification, bit 0 is
    the output enable, so [BIT(0)] is 1. *)
Definition BIT (n : Z) : Z := Z.shiftl 1 n.

Definition IS31FL3235A_REG_SHUTDOWN : Z := 0x00.
Definition IS31FL3235A_REG_PWM_BASE : Z := 0x05.
Definition IS31FL3235A_REG_UPDATE : Z := 0x25.
Definition IS31FL3235A_REG_CTRL_BASE : Z := 0x2A.
Definition IS31FL3235A_REG_FREQ : Z := 0x4B.
Definition IS31FL3235A_REG_RESET : Z := 0x4F.

Definition IS31FL3235A_PWM_REG (ch : Z) : Z := IS31FL3235A_REG_PWM_BASE + ch.
Definition IS31FL3235A_CTRL_REG (ch : Z) : Z := IS31FL3235A_REG_CTRL_BASE + ch.

Definition IS31FL3235A_NUM_CHANNELS : Z := 28.

Definition IS31FL3235A_SHUTDOWN_MODE : Z := 0x00.
Definition IS31FL3235A_SHUTDOWN_NORMAL : Z := 0x01.

Definition IS31FL3235A_UPDATE_TRIGGER : Z := 0x00.

Definition IS31FL3235A_CTRL_SL_SHIFT : Z := 1.
Definition IS31FL3235A_CTRL_SL_MASK : Z := 0x06.
Definition IS31FL3235A_CTRL_OUT_ENABLE : Z := BIT 0.
Definition IS31FL3235A_CTRL_SL_1X : Z := Z.shiftl 0 IS31FL3235A_CTRL_SL_SHIFT.
Definition IS31FL3235A_CTRL_SL_HALF : Z := Z.shiftl 1 IS31FL3235A_CTRL_SL_SHIFT.
Definition IS31FL3235A_CTRL_ENABLE_1X : Z :=
  Z.lor IS31FL3235A_CTRL_OUT_ENABLE IS31FL3235A_CTRL_SL_1X.

Definition IS31FL3235A_FREQ_3KHZ : Z := 0x00.
Definition IS31FL3235A_FREQ_22KHZ : Z := 0x01.

Definition IS31FL3235A_RESET_TRIGGER : Z := 0x00.

Definition IS31FL3235A_RESET_DELAY_MS : Z := 1.
Definition IS31FL3235A_STARTUP_DELAY_MS : Z := 1.

Definition IS31FL3235A_PWM_MIN : Z := 0x00.
Definition IS31FL3235A_PWM_MAX : Z := 0xFF.

(** [enum is31fl3235a_current_scale], by its integer values. *)
Definition IS31FL3235A_SCALE_1X : Z := 0.
Definition IS31FL3235A_SCALE_1_2X : Z := 1.
Definition IS31FL3235A_SCALE_1_3X : Z := 2.
Definition IS31FL3235A_SCALE_1_4X : Z := 3.

End Regs.
Export Regs.

(** Modelled from the spec: the errno constants come from the platform's
    [errno.h], which is not part of the sources; the specification only
    says that failures are negative integer codes, one per failure kind
    (InvalidArgument, Unsupported, NotReady).  The usual values are used. *)
Definition EINVAL : Z := 22.
Definition ENOTSUP : Z := 134.
Definition ENODEV : Z := 19.

(** ** Machine integers *)

(** Conversion to [uint8_t] and wrap-around of [uint32_t] arithmetic. *)
Definition to_u8 (x : Z) : Z := x mod 2 ^ 8.
Definition to_u32 (x : Z) : Z := x mod 2 ^ 32.

Definition is_u8 (x : Z) : Prop := 0 <= x < 2 ^ 8.
Definition is_u32 (x : Z) : Prop := 0 <= x < 2 ^ 32.

(** ** Configuration and runtime data *)

(** [struct is31fl3235a_cfg]: the I2C address stands for the bus
    specification, [sdb_gpio_port] tells whether [sdb_gpio.port] is a
    non-null pointer. *)
Record is31fl3235a_cfg := mk_cfg {
  i2c_addr : Z;
  sdb_gpio_port : bool;
  pwm_freq_22khz : bool
}.

(** [struct is31fl3235a_data].  The mutex is its lock count. *)
Record is31fl3235a_data := mk_data {
  lock : nat;
  initialized : bool;
  sw_shutdown : bool;
  hw_shutdown : bool;
  pwm_cache : list Z;
  ctrl_cache : list Z
}.

(** ** The platform the driver talks to *)

(** What the driver did to the outside world, in order.  A bus or pin
    call is recorded with the code it returned. *)
Inductive event :=
| EvI2cWrite (addr : Z) (bytes : list Z) (ret : Z)
| EvGpioConfigure (ret : Z)
| EvGpioSet (value : Z) (ret : Z)
| EvSleep (ms : Z).

(** A scripted platform: the return codes of the coming bus and pin
    calls (a call beyond the end of its script succeeds with 0), the
    readiness of the two devices, and the trace so far. *)
Record platform := mk_platform {
  i2c_bus_ready : bool;
  sdb_port_ready : bool;
  i2c_results : list Z;
  gpio_results : list Z;
  trace : list event
}.

Record system := mk_system {
  data : is31fl3235a_data;
  plat : platform
}.

(** ** State monad *)

Definition M (A : Type) : Type := system -> A * system.

Definition ret {A} (x : A) : M A := fun s => (x, s).

Definition bind {A B} (m : M A) (k : A -> M B) : M B :=
  fun s => let (x, s') := m s in k x s'.

Notation "x <- c1 ;; c2" := (bind c1 (fun x => c2))
  (at level 100, c1 at next level, right associativity).
Notation "c1 ;; c2" := (bind c1 (fun _ => c2))
  (at level 100, right associativity).

Definition get_data : M is31fl3235a_data := fun s => (data s, s).

Definition modify_data (f : is31fl3235a_data -> is31fl3235a_data) : M unit :=
  fun s => (tt, mk_system (f (data s)) (plat s)).

Definition modify_plat (f : platform -> platform) : M unit :=
  fun s => (tt, mk_system (data s) (f (plat s))).

(** Field assignments on the runtime data. *)
Definition set_lock (n : nat) (d : is31fl3235a_data) : is31fl3235a_data :=
  mk_data n (initialized d) (sw_shutdown d) (hw_shutdown d) (pwm_cache d) (ctrl_cache d).
Definition set_initialized (b : bool) (d : is31fl3235a_data) : is31fl3235a_data :=
  mk_data (lock d) b (sw_shutdown d) (hw_shutdown d) (pwm_cache d) (ctrl_cache d).
Definition set_sw_shutdown (b : bool) (d : is31fl3235a_data) : is31fl3235a_data :=
  mk_data (lock d) (initialized d) b (hw_shutdown d) (pwm_cache d) (ctrl_cache d).
Definition set_hw_shutdown (b : bool) (d : is31fl3235a_data) : is31fl3235a_data :=
  mk_data (lock d) (initialized d) (sw_shutdown d) b (pwm_cache d) (ctrl_cache d).
Definition set_pwm_cache (l : list Z) (d : is31fl3235a_data) : is31fl3235a_data :=
  mk_data (lock d) (initialized d) (sw_shutdown d) (hw_shutdown d) l (ctrl_cache d).
Definition set_ctrl_cache (l : list Z) (d : is31fl3235a_data) : is31fl3235a_data :=
  mk_data (lock d) (initialized d) (sw_shutdown d) (hw_shutdown d) (pwm_cache d) l.

(** ** Platform services *)

Definition log_event (e : event) (p : platform) : platform :=
  mk_platform (i2c_bus_ready p) (sdb_port_ready p) (i2c_results p)
              (gpio_results p) (trace p ++ [e]).

Definition pop_i2c (p : platform) : platform :=
  mk_platform (i2c_bus_ready p) (sdb_port_ready p) (tail (i2c_results p))
              (gpio_results p) (trace p).

Definition pop_gpio (p : platform) : platform :=
  mk_platform (i2c_bus_ready p) (sdb_port_ready p) (i2c_results p)
              (tail (gpio_results p)) (trace p).

(** The platform after one bus transaction: the next scripted return
    code is consumed and the transaction is recorded with it. *)
Definition i2c_next (p : platform) : Z := hd 0 (i2c_results p).

Definition i2c_transfer (cfg : is31fl3235a_cfg) (buf : list Z) (p : platform)
    : platform :=
  log_event (EvI2cWrite (i2c_addr cfg) buf (i2c_next p)) (pop_i2c p).

(** [i2c_write_dt(&cfg->i2c, buf, len)]: one bus transaction. *)
Definition i2c_write_dt (cfg : is31fl3235a_cfg) (buf : list Z) : M Z :=
  fun s => (i2c_next (plat s), mk_system (data s) (i2c_transfer cfg buf (plat s))).

Definition gpio_pin_configure_dt : M Z :=
  fun s =>
    let r := hd 0 (gpio_results (plat s)) in
    (r, mk_system (data s) (log_event (EvGpioConfigure r) (pop_gpio (plat s)))).

Definition gpio_pin_set_dt (value : Z) : M Z :=
  fun s =>
    let r := hd 0 (gpio_results (plat s)) in
    (r, mk_system (data s) (log_event (EvGpioSet value r) (pop_gpio (plat s)))).

Definition k_msleep (ms : Z) : M unit := modify_plat (log_event (EvSleep ms)).

Definition k_mutex_init : M unit := modify_data (set_lock O).
Definition k_mutex_lock : M unit := modify_data (fun d => set_lock (S (lock d)) d).
Definition k_mutex_unlock : M unit := modify_data (fun d => set_lock (pred (lock d)) d).

(** ** Register access helpers *)

Definition is31fl3235a_write_reg (cfg : is31fl3235a_cfg) (reg value : Z) : M Z :=
  r <- i2c_write_dt cfg [reg; value] ;;
  if r <? 0 then ret r else ret 0.

(** [write_buf] has 256 bytes: the register address and up to 255
    values.  The caller's [buf] holds at least [len] bytes, of which the
    first [len] are sent. *)
Definition is31fl3235a_write_buffer (cfg : is31fl3235a_cfg)
    (start_reg : Z) (buf : list Z) (len : Z) : M Z :=
  if len >? 256 - 1 then ret (- EINVAL)
  else
    r <- i2c_write_dt cfg (start_reg :: take (Z.to_nat len) buf) ;;
    if r <? 0 then ret r else ret 0.

Definition is31fl3235a_trigger_update (cfg : is31fl3235a_cfg) : M Z :=
  is31fl3235a_write_reg cfg IS31FL3235A_REG_UPDATE IS31FL3235A_UPDATE_TRIGGER.

(** [memcpy(&cache[start], buf, n)] on a channel array, for a range
    within the array and a [buf] of at least [n] bytes (what the callers
    have checked when they reach it). *)
Definition memcpy (cache : list Z) (start : Z) (buf : list Z) (n : Z) : list Z :=
  list_inserts (Z.to_nat start) (take (Z.to_nat n) buf) cache.

(** ** Standard LED API *)

Definition is31fl3235a_led_set_brightness (cfg : is31fl3235a_cfg)
    (led value : Z) : M Z :=
  if led >=? IS31FL3235A_NUM_CHANNELS then ret (- EINVAL)
  else
    k_mutex_lock ;;
    r <- is31fl3235a_write_reg cfg (to_u8 (IS31FL3235A_PWM_REG led)) value ;;
    r <- (if r <? 0 then ret r
          else
            modify_data (fun d =>
              set_pwm_cache (<[Z.to_nat led := value]> (pwm_cache d)) d) ;;
            is31fl3235a_trigger_update cfg) ;;
    k_mutex_unlock ;;
    ret r.

Definition is31fl3235a_led_write_channels (cfg : is31fl3235a_cfg)
    (start_channel num_channels : Z) (buf : list Z) : M Z :=
  if start_channel >=? IS31FL3235A_NUM_CHANNELS then ret (- EINVAL)
  else if to_u32 (start_channel + num_channels) >? IS31FL3235A_NUM_CHANNELS
  then ret (- EINVAL)
  else
    k_mutex_lock ;;
    r <- is31fl3235a_write_buffer cfg
           (to_u8 (IS31FL3235A_PWM_REG start_channel)) buf num_channels ;;
    r <- (if r <? 0 then ret r
          else
            modify_data (fun d =>
              set_pwm_cache (memcpy (pwm_cache d) start_channel buf num_channels) d) ;;
            is31fl3235a_trigger_update cfg) ;;
    k_mutex_unlock ;;
    ret r.

Definition is31fl3235a_led_on (cfg : is31fl3235a_cfg) (led : Z) : M Z :=
  is31fl3235a_led_set_brightness cfg led IS31FL3235A_PWM_MAX.

Definition is31fl3235a_led_off (cfg : is31fl3235a_cfg) (led : Z) : M Z :=
  is31fl3235a_led_set_brightness cfg led IS31FL3235A_PWM_MIN.

(** ** Extended API *)

(** The two assignments [ctrl_val &= ~SL_MASK; ctrl_val |= scale << SL_SHIFT]
    on a [uint8_t] variable. *)
Definition apply_scale (ctrl_val scale : Z) : Z :=
  let ctrl_val := to_u8 (Z.land ctrl_val (Z.lnot IS31FL3235A_CTRL_SL_MASK)) in
  to_u8 (Z.lor ctrl_val (Z.shiftl scale IS31FL3235A_CTRL_SL_SHIFT)).

Definition is31fl3235a_set_current_scale (cfg : is31fl3235a_cfg)
    (channel scale : Z) : M Z :=
  if channel >=? IS31FL3235A_NUM_CHANNELS then ret (- EINVAL)
  else if scale >? IS31FL3235A_SCALE_1_4X then ret (- EINVAL)
  else
    k_mutex_lock ;;
    d <- get_data ;;
    let ctrl_val := nth (Z.to_nat channel) (ctrl_cache d) 0 in
    let ctrl_val := apply_scale ctrl_val scale in
    r <- is31fl3235a_write_reg cfg (to_u8 (IS31FL3235A_CTRL_REG channel)) ctrl_val ;;
    r <- (if r <? 0 then ret r
          else
            modify_data (fun d =>
              set_ctrl_cache (<[Z.to_nat channel := ctrl_val]> (ctrl_cache d)) d) ;;
            is31fl3235a_trigger_update cfg) ;;
    k_mutex_unlock ;;
    ret r.

(** The two branches on [enable], shared by the single and the batch
    operation: [ctrl_val |= OUT_ENABLE] and [ctrl_val &= ~OUT_ENABLE]. *)
Definition apply_enable (ctrl_val : Z) (enable : bool) : Z :=
  if enable then to_u8 (Z.lor ctrl_val IS31FL3235A_CTRL_OUT_ENABLE)
  else to_u8 (Z.land ctrl_val (Z.lnot IS31FL3235A_CTRL_OUT_ENABLE)).

Definition is31fl3235a_channel_enable (cfg : is31fl3235a_cfg)
    (channel : Z) (enable : bool) : M Z :=
  if channel >=? IS31FL3235A_NUM_CHANNELS then ret (- EINVAL)
  else
    k_mutex_lock ;;
    d <- get_data ;;
    let ctrl_val := nth (Z.to_nat channel) (ctrl_cache d) 0 in
    let ctrl_val := apply_enable ctrl_val enable in
    r <- is31fl3235a_write_reg cfg (to_u8 (IS31FL3235A_CTRL_REG channel)) ctrl_val ;;
    r <- (if r <? 0 then ret r
          else
            modify_data (fun d =>
              set_ctrl_cache (<[Z.to_nat channel := ctrl_val]> (ctrl_cache d)) d) ;;
            is31fl3235a_trigger_update cfg) ;;
    k_mutex_unlock ;;
    ret r.

(** The loop of [is31fl3235a_channels_enable] filling [ctrl_buf]:
    [todo] iterations are left and [i] is the loop counter.  The caller's
    [enable] array holds at least [num_channels] flags. *)
Fixpoint build_ctrl_buf (cache : list Z) (start_channel : Z) (enable : list bool)
    (todo : nat) (i : Z) (ctrl_buf : list Z) : list Z :=
  match todo with
  | O => ctrl_buf
  | S todo' =>
      let ctrl_val := nth (Z.to_nat (start_channel + i)) cache 0 in
      let ctrl_val := apply_enable ctrl_val (nth (Z.to_nat i) enable false) in
      build_ctrl_buf cache start_channel enable todo' (i + 1)
                     (<[Z.to_nat i := ctrl_val]> ctrl_buf)
  end.

Definition is31fl3235a_channels_enable (cfg : is31fl3235a_cfg)
    (start_channel num_channels : Z) (enable : list bool) : M Z :=
  if start_channel >=? IS31FL3235A_NUM_CHANNELS then ret (- EINVAL)
  else if start_channel + num_channels >? IS31FL3235A_NUM_CHANNELS
  then ret (- EINVAL)
  else
    k_mutex_lock ;;
    d <- get_data ;;
    let ctrl_buf :=
      build_ctrl_buf (ctrl_cache d) start_channel enable (Z.to_nat num_channels) 0
                     (replicate (Z.to_nat IS31FL3235A_NUM_CHANNELS) 0) in
    r <- is31fl3235a_write_buffer cfg
           (to_u8 (IS31FL3235A_CTRL_REG start_channel)) ctrl_buf num_channels ;;
    r <- (if r <? 0 then ret r
          else
            modify_data (fun d =>
              set_ctrl_cache
                (memcpy (ctrl_cache d) start_channel ctrl_buf num_channels) d) ;;
            is31fl3235a_trigger_update cfg) ;;
    k_mutex_unlock ;;
    ret r.

Definition is31fl3235a_sw_shutdown (cfg : is31fl3235a_cfg) (shutdown : bool) : M Z :=
  let value :=
    if shutdown then IS31FL3235A_SHUTDOWN_MODE else IS31FL3235A_SHUTDOWN_NORMAL in
  k_mutex_lock ;;
  r <- is31fl3235a_write_reg cfg IS31FL3235A_REG_SHUTDOWN value ;;
  (if r <? 0 then ret tt else modify_data (set_sw_shutdown shutdown)) ;;
  k_mutex_unlock ;;
  ret r.

Definition is31fl3235a_hw_shutdown (cfg : is31fl3235a_cfg) (shutdown : bool) : M Z :=
  if negb (sdb_gpio_port cfg) then ret (- ENOTSUP)
  else
    k_mutex_lock ;;
    r <- gpio_pin_set_dt (if shutdown then 0 else 1) ;;
    (if r <? 0 then ret tt
     else
       modify_data (set_hw_shutdown shutdown) ;;
       if negb shutdown then k_msleep IS31FL3235A_STARTUP_DELAY_MS else ret tt) ;;
    k_mutex_unlock ;;
    ret r.

Definition is31fl3235a_update (cfg : is31fl3235a_cfg) : M Z :=
  k_mutex_lock ;;
  r <- is31fl3235a_trigger_update cfg ;;
  k_mutex_unlock ;;
  ret r.

Definition is31fl3235a_set_brightness_no_update (cfg : is31fl3235a_cfg)
    (led value : Z) : M Z :=
  if led >=? IS31FL3235A_NUM_CHANNELS then ret (- EINVAL)
  else
    k_mutex_lock ;;
    r <- is31fl3235a_write_reg cfg (to_u8 (IS31FL3235A_PWM_REG led)) value ;;
    (if r <? 0 then ret tt
     else modify_data (fun d =>
            set_pwm_cache (<[Z.to_nat led := value]> (pwm_cache d)) d)) ;;
    k_mutex_unlock ;;
    ret r.

Definition is31fl3235a_write_channels_no_update (cfg : is31fl3235a_cfg)
    (start_channel num_channels : Z) (buf : list Z) : M Z :=
  if start_channel >=? IS31FL3235A_NUM_CHANNELS then ret (- EINVAL)
  else if to_u32 (start_channel + num_channels) >? IS31FL3235A_NUM_CHANNELS
  then ret (- EINVAL)
  else
    k_mutex_lock ;;
    r <- is31fl3235a_write_buffer cfg
           (to_u8 (IS31FL3235A_PWM_REG start_channel)) buf num_channels ;;
    (if r <? 0 then ret tt
     else modify_data (fun d =>
            set_pwm_cache (memcpy (pwm_cache d) start_channel buf num_channels) d)) ;;
    k_mutex_unlock ;;
    ret r.

(** ** Initialisation *)

Definition i2c_device_is_ready : M bool := fun s => (i2c_bus_ready (plat s), s).
Definition gpio_device_is_ready : M bool := fun s => (sdb_port_ready (plat s), s).

(** The block [if (cfg->sdb_gpio.port) { ... }] of [is31fl3235a_init]:
    [Some r] when the function returns [r] from inside the block. *)
Definition init_sdb_pin (cfg : is31fl3235a_cfg) : M (option Z) :=
  if sdb_gpio_port cfg then
    ready <- gpio_device_is_ready ;;
    if negb ready then ret (Some (- ENODEV))
    else
      r <- gpio_pin_configure_dt ;;
      if r <? 0 then ret (Some r)
      else
        r <- gpio_pin_set_dt 1 ;;
        if r <? 0 then ret (Some r)
        else
          modify_data (set_hw_shutdown false) ;;
          k_msleep IS31FL3235A_STARTUP_DELAY_MS ;;
          ret None
  else ret None.

(** The loop [for (int i = 0; i < IS31FL3235A_NUM_CHANNELS; i++)] of
    [is31fl3235a_init], with [todo] iterations left: [Some r] when the
    function returns [r] from inside the loop. *)
Fixpoint init_channels (cfg : is31fl3235a_cfg) (todo : nat) (i : Z) : M (option Z) :=
  match todo with
  | O => ret None
  | S todo' =>
      r <- is31fl3235a_write_reg cfg (to_u8 (IS31FL3235A_PWM_REG i)) 0 ;;
      if r <? 0 then ret (Some r)
      else
        modify_data (fun d => set_pwm_cache (<[Z.to_nat i := 0]> (pwm_cache d)) d) ;;
        let ctrl := IS31FL3235A_CTRL_ENABLE_1X in
        r <- is31fl3235a_write_reg cfg (to_u8 (IS31FL3235A_CTRL_REG i)) ctrl ;;
        if r <? 0 then ret (Some r)
        else
          modify_data (fun d =>
            set_ctrl_cache (<[Z.to_nat i := ctrl]> (ctrl_cache d)) d) ;;
          init_channels cfg todo' (i + 1)
  end.

Definition is31fl3235a_init (cfg : is31fl3235a_cfg) : M Z :=
  k_mutex_init ;;
  ready <- i2c_device_is_ready ;;
  if negb ready then ret (- ENODEV)
  else
    early <- init_sdb_pin cfg ;;
    match early with
    | Some r => ret r
    | None =>
        r <- is31fl3235a_write_reg cfg IS31FL3235A_REG_RESET IS31FL3235A_RESET_TRIGGER ;;
        if r <? 0 then ret r
        else
          k_msleep IS31FL3235A_RESET_DELAY_MS ;;
          r <- is31fl3235a_write_reg cfg IS31FL3235A_REG_SHUTDOWN
                 IS31FL3235A_SHUTDOWN_NORMAL ;;
          if r <? 0 then ret r
          else
            modify_data (set_sw_shutdown false) ;;
            let freq_val :=
              if pwm_freq_22khz cfg then IS31FL3235A_FREQ_22KHZ
              else IS31FL3235A_FREQ_3KHZ in
            r <- is31fl3235a_write_reg cfg IS31FL3235A_REG_FREQ freq_val ;;
            if r <? 0 then ret r
            else
              early <- init_channels cfg (Z.to_nat IS31FL3235A_NUM_CHANNELS) 0 ;;
              match early with
              | Some r => ret r
              | None =>
                  r <- is31fl3235a_trigger_update cfg ;;
                  if r <? 0 then ret r
                  else
                    modify_data (set_initialized true) ;;
                    ret 0
              end
    end.

(** ** Observations *)

(** The bus writes of a trace whose first byte is the register [reg]. *)
Definition writes_to (reg : Z) (e : event) : bool :=
  match e with
  | EvI2cWrite _ (r :: _) _ => r =? reg
  | _ => false
  end.

Definition is_i2c_write (e : event) : bool :=
  match e with
  | EvI2cWrite _ _ _ => true
  | _ => false
  end.

Definition trigger_writes (t : list event) : nat :=
  length (filter (fun e => writes_to IS31FL3235A_REG_UPDATE e = true) t).

Definition i2c_writes (t : list event) : list event :=
  filter (fun e => is_i2c_write e = true) t.

(** The two fields of a control byte: D0 and D2:D1. *)
Definition ctrl_enabled (b : Z) : bool := Z.testbit b 0.
Definition ctrl_scale (b : Z) : Z :=
  Z.shiftr (Z.land b IS31FL3235A_CTRL_SL_MASK) IS31FL3235A_CTRL_SL_SHIFT.

(** The two caches, which is all that the cache properties look at. *)
Definition caches (d : is31fl3235a_data) : list Z * list Z :=
  (pwm_cache d, ctrl_cache d).

(** The bytes of the trigger write. *)
Definition trigger_msg : list Z :=
  [IS31FL3235A_REG_UPDATE; IS31FL3235A_UPDATE_TRIGGER].

(** The outcome shared by the five operations that write, update the
    cache and trigger, once their arguments are accepted: the bus write
    [msg]; on failure its code, with the data as they were; otherwise
    the assignment [commit] to the data, the trigger write, and its code
    when negative, else 0.  The lock is back at its count. *)
Definition write_commit_trigger (cfg : is31fl3235a_cfg) (msg : list Z)
    (commit : is31fl3235a_data -> is31fl3235a_data) (s : system) : Z * system :=
  let p1 := i2c_transfer cfg msg (plat s) in
  if i2c_next (plat s) <? 0 then (i2c_next (plat s), mk_system (data s) p1)
  else ((if i2c_next p1 <? 0 then i2c_next p1 else 0),
        mk_system (commit (data s)) (i2c_transfer cfg trigger_msg p1)).

(** The same for the two no-update variants: no trigger write. *)
Definition write_commit (cfg : is31fl3235a_cfg) (msg : list Z)
    (commit : is31fl3235a_data -> is31fl3235a_data) (s : system) : Z * system :=
  let p1 := i2c_transfer cfg msg (plat s) in
  if i2c_next (plat s) <? 0 then (i2c_next (plat s), mk_system (data s) p1)
  else (0, mk_system (commit (data s)) p1).

(** A well-formed cache array: 28 [uint8_t] cells. *)
Definition cache_wf (l : list Z) : Prop :=
  length l = Z.to_nat IS31FL3235A_NUM_CHANNELS /\ Forall is_u8 l.

(** A concrete instance for the examples: no SDB pin, static data as
    the C runtime zero-initialises it, platform ready, empty scripts. *)
Definition cfg0 : is31fl3235a_cfg := mk_cfg 0x3C false false.
Definition cfg_sdb : is31fl3235a_cfg := mk_cfg 0x3C true true.
Definition data0 : is31fl3235a_data :=
  mk_data O false false false (replicate 28 0) (replicate 28 0).
Definition plat_script (i2c gpio : list Z) : platform :=
  mk_platform true true i2c gpio [].
Definition sys0 (i2c : list Z) : system := mk_system data0 (plat_script i2c []).

(** ** A mock of the chip's double-buffered registers *)

(** Modelled from the spec: the chip is hardware, outside the sources.
    Per the specification's sections 4.2 and 6, register writes land in
    staging storage, a write to the Update register (0x25) copies the
    staged values to the visible outputs, a write to the Reset register
    (0x4F) restores the power-on defaults, and a multi-byte write
    addresses consecutive registers.  A failed transaction changes
    nothing (the transport is all-or-nothing per call). *)
Record chip := mk_chip {
  staged : list Z;
  visible : list Z
}.

Definition chip_regs : nat := 80.
Definition chip_reset : chip := mk_chip (replicate chip_regs 0) (replicate chip_regs 0).

Definition chip_write_byte (c : chip) (reg value : Z) : chip :=
  if reg =? IS31FL3235A_REG_UPDATE then mk_chip (staged c) (staged c)
  else if reg =? IS31FL3235A_REG_RESET then chip_reset
  else mk_chip (<[Z.to_nat reg := value]> (staged c)) (visible c).

Fixpoint chip_write_bytes (c : chip) (reg : Z) (values : list Z) : chip :=
  match values with
  | [] => c
  | v :: values' => chip_write_bytes (chip_write_byte c reg v) (reg + 1) values'
  end.

Definition chip_step (c : chip) (e : event) : chip :=
  match e with
  | EvI2cWrite _ (reg :: values) r =>
      if r <? 0 then c else chip_write_bytes c reg values
  | _ => c
  end.

Definition chip_run (c : chip) (t : list event) : chip := fold_left chip_step t c.

(** ** Auxiliary notions the properties are stated with *)

(** A transport all of whose coming calls succeed. *)
Definition transport_ok (p : platform) : Prop :=
  Forall (fun r => 0 <= r) (i2c_results p).

(** The caches after an operation that returned an error.  Either no
    bus write succeeded (the call was turned down before the bus, or the
    data write [msg] failed with the returned code) and the caches are as
    before the call; or the trace shows that the data write succeeded and
    the trigger write failed with the returned code, and the caches hold
    the committed data. *)
Definition error_keeps_or_commits (cfg : is31fl3235a_cfg) (msg : list Z)
    (commit : is31fl3235a_data -> is31fl3235a_data) (s : system)
    (out : Z * system) : Prop :=
  fst out < 0 ->
  (caches (data (snd out)) = caches (data s)
   /\ (trace (plat (snd out)) = trace (plat s)
       \/ trace (plat (snd out))
          = trace (plat s) ++ [EvI2cWrite (i2c_addr cfg) msg (fst out)]))
  \/ exists r1,
       0 <= r1
       /\ trace (plat (snd out))
          = trace (plat s)
            ++ [EvI2cWrite (i2c_addr cfg) msg r1;
                EvI2cWrite (i2c_addr cfg) trigger_msg (fst out)]
       /\ caches (data (snd out)) = caches (commit (data s)).

(** The caches are as before the call whenever the data write fails. *)
Definition data_failure_keeps (s : system) (out : Z * system) : Prop :=
  i2c_next (plat s) < 0 -> caches (data (snd out)) = caches (data s).

(** An error of any kind leaves the caches as before the call. *)
Definition error_keeps (s : system) (out : Z * system) : Prop :=
  fst out < 0 -> caches (data (snd out)) = caches (data s).

(** What an operation that writes [msg], commits and triggers returns
    and leaves behind when the transport fails one of its two writes.
    When the data write fails, its code is returned, the caches are as
    before the call and the trigger write is not attempted.  When the
    data write succeeds and the trigger write fails, the trigger's code
    is returned, it is an error, and the caches hold the committed
    data. *)
Definition failure_outcomes (cfg : is31fl3235a_cfg) (msg : list Z)
    (commit : is31fl3235a_data -> is31fl3235a_data) (s : system)
    (out : Z * system) : Prop :=
  (i2c_next (plat s) < 0 ->
   fst out = i2c_next (plat s)
   /\ caches (data (snd out)) = caches (data s)
   /\ trace (plat (snd out))
      = trace (plat s) ++ [EvI2cWrite (i2c_addr cfg) msg (i2c_next (plat s))])
  /\ (0 <= i2c_next (plat s) ->
      i2c_next (i2c_transfer cfg msg (plat s)) < 0 ->
      fst out = i2c_next (i2c_transfer cfg msg (plat s))
      /\ fst out < 0
      /\ caches (data (snd out)) = caches (commit (data s))
      /\ trace (plat (snd out))
         = trace (plat s)
           ++ [EvI2cWrite (i2c_addr cfg) msg (i2c_next (plat s));
               EvI2cWrite (i2c_addr cfg) trigger_msg
                 (i2c_next (i2c_transfer cfg msg (plat s)))]).

(** The same for an operation that writes [msg] and commits without a
    trigger: a failed data write is the only error there is. *)
Definition staged_failure_outcomes (cfg : is31fl3235a_cfg) (msg : list Z)
    (s : system) (out : Z * system) : Prop :=
  (i2c_next (plat s) < 0 ->
   fst out = i2c_next (plat s)
   /\ caches (data (snd out)) = caches (data s)
   /\ trace (plat (snd out))
      = trace (plat s) ++ [EvI2cWrite (i2c_addr cfg) msg (i2c_next (plat s))])
  /\ (0 <= i2c_next (plat s) -> fst out = 0).

(** All the values of a [uint8_t], and the checks run on each of them to
    establish the facts on control bytes. *)
Definition u8_values : list Z := map Z.of_nat (seq 0 256).

(** The bits 0..7 of [x] and [y] agree, except maybe at the positions [skip]. *)
Definition bits_agree_except (skip : list Z) (x y : Z) : bool :=
  forallb (fun i => existsb (Z.eqb i) skip || Bool.eqb (Z.testbit x i) (Z.testbit y i))
          [0; 1; 2; 3; 4; 5; 6; 7].

Definition enable_check (enable : bool) (b : Z) : bool :=
  Bool.eqb (ctrl_enabled (apply_enable b enable)) enable
  && (ctrl_scale (apply_enable b enable) =? ctrl_scale b)
  && bits_agree_except [0] (apply_enable b enable) b.

Definition scale_check (scale : Z) (b : Z) : bool :=
  (ctrl_scale (apply_scale b scale) =? scale)
  && Bool.eqb (ctrl_enabled (apply_scale b scale)) (ctrl_enabled b)
  && bits_agree_except [1; 2] (apply_scale b scale) b.

(** ** Further observations *)

(** What the runtime data hold besides the two caches. *)
Definition outside_caches (d : is31fl3235a_data) : nat * bool * bool * bool :=
  (lock d, initialized d, sw_shutdown d, hw_shutdown d).

(** The reserved bits 3-7 of every cached control byte are zero. *)
Definition ctrl_reserved_zero (l : list Z) : Prop :=
  Forall (fun b => 0 <= b < 8) l.

(** The bytes of the bus writes of a trace, in order. *)
Definition i2c_msgs (t : list event) : list (list Z) :=
  flat_map (fun e => match e with
                     | EvI2cWrite _ bytes _ => [bytes]
                     | _ => []
                     end) t.

(** The last PWM and control registers ([is31fl3235a_regs.h]). *)
Definition IS31FL3235A_REG_PWM_OUT28 : Z := 0x20.
Definition IS31FL3235A_REG_CTRL_OUT28 : Z := 0x45.

(** The bus writes of an operation that sends [msg] and, when that
    write does not fail, the trigger: what it adds to the trace on a
    platform [p]. *)
Definition data_then_trigger (cfg : is31fl3235a_cfg) (msg : list Z) (p : platform)
    : list event :=
  EvI2cWrite (i2c_addr cfg) msg (i2c_next p)
  :: (if i2c_next p <? 0 then []
      else [EvI2cWrite (i2c_addr cfg) trigger_msg
              (i2c_next (i2c_transfer cfg msg p))]).

(** The bus writes of a successful initialisation, in order: reset,
    wake, frequency, then PWM and control register of each channel in
    index order, then the trigger. *)
Definition init_channel_msgs (i : Z) : list (list Z) :=
  [[IS31FL3235A_PWM_REG i; 0]; [IS31FL3235A_CTRL_REG i; IS31FL3235A_CTRL_ENABLE_1X]].

Definition init_msgs (cfg : is31fl3235a_cfg) : list (list Z) :=
  [[IS31FL3235A_REG_RESET; IS31FL3235A_RESET_TRIGGER];
   [IS31FL3235A_REG_SHUTDOWN; IS31FL3235A_SHUTDOWN_NORMAL];
   [IS31FL3235A_REG_FREQ;
    if pwm_freq_22khz cfg then IS31FL3235A_FREQ_22KHZ else IS31FL3235A_FREQ_3KHZ]]
  ++ flat_map init_channel_msgs
       (map Z.of_nat (seq 0 (Z.to_nat IS31FL3235A_NUM_CHANNELS)))
  ++ [trigger_msg].

(** The pin and timing events of a successful initialisation on a
    platform [p]: with a shutdown pin, its configuration, its drive to 1
    and the startup delay; then the reset delay. *)
Definition init_pin_events (cfg : is31fl3235a_cfg) (p : platform) : list event :=
  (if sdb_gpio_port cfg
   then [EvGpioConfigure (hd 0 (gpio_results p));
         EvGpioSet 1 (hd 0 (tail (gpio_results p)));
         EvSleep IS31FL3235A_STARTUP_DELAY_MS]
   else [])
  ++ [EvSleep IS31FL3235A_RESET_DELAY_MS].

(** A register file (the staged or the visible registers of the chip
    mock) agrees with the runtime data on the PWM and control register
    of every channel. *)
Definition regs_agree (regs : list Z) (d : is31fl3235a_data) : Prop :=
  forall i : nat, (i < Z.to_nat IS31FL3235A_NUM_CHANNELS)%nat ->
    regs !! (Z.to_nat IS31FL3235A_REG_PWM_BASE + i)%nat = pwm_cache d !! i
    /\ regs !! (Z.to_nat IS31FL3235A_REG_CTRL_BASE + i)%nat = ctrl_cache d !! i.

(** The caches mirror the staging registers of a chip that started as
    [c0] and has seen the trace so far. *)
Definition mirrors (c0 : chip) (s : system) : Prop :=
  regs_agree (staged (chip_run c0 (trace (plat s)))) (data s).

(** The visible outputs show what the caches hold. *)
Definition shows (c0 : chip) (s : system) : Prop :=
  regs_agree (visible (chip_run c0 (trace (plat s)))) (data s).

(** The staging registers of the first [n] channels hold the baseline
    (brightness 0; enabled, full scale), in a register file of full size. *)
Definition chip_filled (n : nat) (c : chip) : Prop :=
  length (staged c) = chip_regs
  /\ forall j : nat, (j < n)%nat ->
       staged c !! (Z.to_nat IS31FL3235A_REG_PWM_BASE + j)%nat = Some 0
       /\ staged c !! (Z.to_nat IS31FL3235A_REG_CTRL_BASE + j)%nat
          = Some IS31FL3235A_CTRL_ENABLE_1X.

(** A caller staging several brightness values one after the other
    with the no-update variant, ignoring the return codes. *)
Fixpoint stage_all (cfg : is31fl3235a_cfg) (writes : list (Z * Z)) (s : system)
    : system :=
  match writes with
  | [] => s
  | (led, value) :: writes' =>
      stage_all cfg writes'
        (snd (is31fl3235a_set_brightness_no_update cfg led value s))
  end.

(** The events of a trace that are not bus writes. *)
Definition other_events (t : list event) : list event :=
  filter (fun e => is_i2c_write e = false) t.

(** * Properties *)

(** ** Proof support *)

Ltac unfold_helpers :=
  unfold is31fl3235a_trigger_update, is31fl3235a_write_reg,
    is31fl3235a_write_buffer, i2c_write_dt, gpio_pin_set_dt,
    gpio_pin_configure_dt, k_msleep, k_mutex_lock, k_mutex_unlock,
    k_mutex_init, modify_data, modify_plat, get_data, bind, ret in *.

Ltac unfold_ops :=
  unfold is31fl3235a_led_on, is31fl3235a_led_off,
    is31fl3235a_led_set_brightness, is31fl3235a_led_write_channels,
    is31fl3235a_set_current_scale, is31fl3235a_channel_enable,
    is31fl3235a_channels_enable, is31fl3235a_sw_shutdown,
    is31fl3235a_hw_shutdown, is31fl3235a_update,
    is31fl3235a_set_brightness_no_update,
    is31fl3235a_write_channels_no_update in *.

(** Run the code symbolically: simplify, and split on (or resolve from
    the context) each sign test the code makes on a return code. *)
Ltac cmp_step :=
  match goal with
  | H : ?a < ?b |- context [?a <? ?b] => rewrite (proj2 (Z.ltb_lt a b) H)
  | H : ?b <= ?a |- context [?a <? ?b] => rewrite (proj2 (Z.ltb_ge a b) H)
  | |- context [if ?a <? ?b then _ else _] => destruct (Z.ltb_spec a b)
  end.

Ltac run := cbn; repeat (cmp_step; cbn).

Arguments i2c_next : simpl never.
Arguments i2c_transfer : simpl never.

Lemma num_channels_val : IS31FL3235A_NUM_CHANNELS = 28.
Proof. reflexivity. Qed.

Lemma to_u8_small (x : Z) : is_u8 x -> to_u8 x = x.
Proof. unfold is_u8, to_u8. intros H. apply Z.mod_small. exact H. Qed.

Lemma to_u8_is_u8 (x : Z) : is_u8 (to_u8 x).
Proof. unfold is_u8, to_u8. apply Z.mod_pos_bound. reflexivity. Qed.

Lemma pwm_reg_u8 (ch : Z) :
  0 <= ch < IS31FL3235A_NUM_CHANNELS ->
  to_u8 (IS31FL3235A_PWM_REG ch) = IS31FL3235A_REG_PWM_BASE + ch.
Proof.
  intros H. rewrite num_channels_val in H. apply to_u8_small.
  unfold is_u8, IS31FL3235A_PWM_REG, IS31FL3235A_REG_PWM_BASE. lia.
Qed.

Lemma ctrl_reg_u8 (ch : Z) :
  0 <= ch < IS31FL3235A_NUM_CHANNELS ->
  to_u8 (IS31FL3235A_CTRL_REG ch) = IS31FL3235A_REG_CTRL_BASE + ch.
Proof.
  intros H. rewrite num_channels_val in H. apply to_u8_small.
  unfold is_u8, IS31FL3235A_CTRL_REG, IS31FL3235A_REG_CTRL_BASE. lia.
Qed.

(** ** C9: [on] and [off] are brightness shortcuts *)

(** C9: for every channel [led], [on(led)] behaves as
    [set_brightness(led, 255)] and [off(led)] as [set_brightness(led, 0)]:
    same result value, same cache state and same sequence of transport
    writes (indeed the same final system altogether). *)
Theorem led_on_off_are_set_brightness (cfg : is31fl3235a_cfg) (led : Z) (s : system) :
  let on := is31fl3235a_led_on cfg led s in
  let off := is31fl3235a_led_off cfg led s in
  let full := is31fl3235a_led_set_brightness cfg led 255 s in
  let dark := is31fl3235a_led_set_brightness cfg led 0 s in
  (fst on = fst full
   /\ caches (data (snd on)) = caches (data (snd full))
   /\ i2c_writes (trace (plat (snd on))) = i2c_writes (trace (plat (snd full)))
   /\ snd on = snd full)
  /\ (fst off = fst dark
      /\ caches (data (snd off)) = caches (data (snd dark))
      /\ i2c_writes (trace (plat (snd off))) = i2c_writes (trace (plat (snd dark)))
      /\ snd off = snd dark).
Proof.
  cbv zeta. unfold is31fl3235a_led_on, is31fl3235a_led_off.
  change IS31FL3235A_PWM_MAX with 255. change IS31FL3235A_PWM_MIN with 0.
  repeat split.
Qed.

(** ** C7: shutdown independence *)

(** C7: without a shutdown pin, [hw_shutdown(b)] returns [-ENOTSUP] for
    every [b] and leaves the whole system (shutdown flags, caches, lock,
    platform trace and scripts) as it was; and [sw_shutdown(b)] never
    changes the [hw_shutdown] flag, whatever the transport answers. *)
Theorem shutdown_independence (cfg : is31fl3235a_cfg) (b : bool) (s : system) :
  (sdb_gpio_port cfg = false ->
   is31fl3235a_hw_shutdown cfg b s = (- ENOTSUP, s))
  /\ hw_shutdown (data (snd (is31fl3235a_sw_shutdown cfg b s)))
     = hw_shutdown (data s).
Proof.
  split.
  - intros Hport. unfold is31fl3235a_hw_shutdown. rewrite Hport. reflexivity.
  - unfold_ops. unfold_helpers. run; reflexivity.
Qed.

Lemma shutdown_independence_witness :
  is31fl3235a_hw_shutdown cfg0 true (sys0 []) = (- ENOTSUP, sys0 [])
  /\ hw_shutdown (data (snd (is31fl3235a_sw_shutdown cfg0 true (sys0 []))))
     = hw_shutdown (data (sys0 [])).
Proof.
  destruct (shutdown_independence cfg0 true (sys0 [])) as [Hhw Hsw].
  split; [apply Hhw; reflexivity | exact Hsw].
Defined.

(** ** What each operation does on accepted arguments *)

Section Run.

Variable cfg : is31fl3235a_cfg.

Lemma set_brightness_run (led value : Z) (s : system) :
  0 <= led < IS31FL3235A_NUM_CHANNELS ->
  is31fl3235a_led_set_brightness cfg led value s
  = write_commit_trigger cfg [IS31FL3235A_REG_PWM_BASE + led; value]
      (fun d => set_pwm_cache (<[Z.to_nat led := value]> (pwm_cache d)) d) s.
Proof.
  intros Hled. unfold is31fl3235a_led_set_brightness, write_commit_trigger.
  destruct (Z.geb_spec led IS31FL3235A_NUM_CHANNELS) as [Hge | _]; [lia |].
  rewrite (pwm_reg_u8 led Hled). unfold_helpers. destruct s as [[] ?].
  run; reflexivity.
Qed.

Lemma set_brightness_no_update_run (led value : Z) (s : system) :
  0 <= led < IS31FL3235A_NUM_CHANNELS ->
  is31fl3235a_set_brightness_no_update cfg led value s
  = write_commit cfg [IS31FL3235A_REG_PWM_BASE + led; value]
      (fun d => set_pwm_cache (<[Z.to_nat led := value]> (pwm_cache d)) d) s.
Proof.
  intros Hled. unfold is31fl3235a_set_brightness_no_update, write_commit.
  destruct (Z.geb_spec led IS31FL3235A_NUM_CHANNELS) as [Hge | _]; [lia |].
  rewrite (pwm_reg_u8 led Hled). unfold_helpers. destruct s as [[] ?].
  run; reflexivity.
Qed.

Lemma range_accepted (start_channel num_channels : Z) :
  0 <= start_channel < IS31FL3235A_NUM_CHANNELS -> 0 <= num_channels ->
  start_channel + num_channels <= IS31FL3235A_NUM_CHANNELS ->
  (start_channel >=? IS31FL3235A_NUM_CHANNELS) = false
  /\ (to_u32 (start_channel + num_channels) >? IS31FL3235A_NUM_CHANNELS) = false
  /\ (start_channel + num_channels >? IS31FL3235A_NUM_CHANNELS) = false
  /\ (num_channels >? 256 - 1) = false.
Proof.
  rewrite num_channels_val. intros Hs Hn Hsum. unfold to_u32.
  rewrite Z.mod_small by lia.
  rewrite Z.geb_leb, !Z.gtb_ltb.
  rewrite (proj2 (Z.leb_gt 28 start_channel)) by lia.
  rewrite (proj2 (Z.ltb_ge 28 (start_channel + num_channels))) by lia.
  rewrite (proj2 (Z.ltb_ge (256 - 1) num_channels)) by lia.
  repeat split.
Qed.

Lemma write_channels_run (start_channel num_channels : Z) (buf : list Z)
    (s : system) :
  0 <= start_channel < IS31FL3235A_NUM_CHANNELS -> 0 <= num_channels ->
  start_channel + num_channels <= IS31FL3235A_NUM_CHANNELS ->
  is31fl3235a_led_write_channels cfg start_channel num_channels buf s
  = write_commit_trigger cfg
      (IS31FL3235A_REG_PWM_BASE + start_channel :: take (Z.to_nat num_channels) buf)
      (fun d => set_pwm_cache
                  (memcpy (pwm_cache d) start_channel buf num_channels) d) s.
Proof.
  intros Hs Hn Hsum.
  destruct (range_accepted _ _ Hs Hn Hsum) as (H1 & H2 & _ & H4).
  unfold is31fl3235a_led_write_channels, write_commit_trigger.
  rewrite H1, H2, (pwm_reg_u8 start_channel Hs). unfold_helpers.
  rewrite H4. destruct s as [[] ?]. run; reflexivity.
Qed.

Lemma write_channels_no_update_run (start_channel num_channels : Z)
    (buf : list Z) (s : system) :
  0 <= start_channel < IS31FL3235A_NUM_CHANNELS -> 0 <= num_channels ->
  start_channel + num_channels <= IS31FL3235A_NUM_CHANNELS ->
  is31fl3235a_write_channels_no_update cfg start_channel num_channels buf s
  = write_commit cfg
      (IS31FL3235A_REG_PWM_BASE + start_channel :: take (Z.to_nat num_channels) buf)
      (fun d => set_pwm_cache
                  (memcpy (pwm_cache d) start_channel buf num_channels) d) s.
Proof.
  intros Hs Hn Hsum.
  destruct (range_accepted _ _ Hs Hn Hsum) as (H1 & H2 & _ & H4).
  unfold is31fl3235a_write_channels_no_update, write_commit.
  rewrite H1, H2, (pwm_reg_u8 start_channel Hs). unfold_helpers.
  rewrite H4. destruct s as [[] ?]. run; reflexivity.
Qed.

Lemma set_current_scale_run (channel scale : Z) (s : system) :
  0 <= channel < IS31FL3235A_NUM_CHANNELS ->
  scale <= IS31FL3235A_SCALE_1_4X ->
  let ctrl_val :=
    apply_scale (nth (Z.to_nat channel) (ctrl_cache (data s)) 0) scale in
  is31fl3235a_set_current_scale cfg channel scale s
  = write_commit_trigger cfg [IS31FL3235A_REG_CTRL_BASE + channel; ctrl_val]
      (fun d => set_ctrl_cache (<[Z.to_nat channel := ctrl_val]> (ctrl_cache d)) d) s.
Proof.
  intros Hc Hscale. cbv zeta.
  unfold is31fl3235a_set_current_scale, write_commit_trigger.
  destruct (Z.geb_spec channel IS31FL3235A_NUM_CHANNELS) as [Hge | _]; [lia |].
  rewrite Z.gtb_ltb. rewrite (proj2 (Z.ltb_ge _ scale) Hscale).
  rewrite (ctrl_reg_u8 channel Hc). unfold_helpers. destruct s as [[] ?].
  run; reflexivity.
Qed.

Lemma channel_enable_run (channel : Z) (enable : bool) (s : system) :
  0 <= channel < IS31FL3235A_NUM_CHANNELS ->
  let ctrl_val :=
    apply_enable (nth (Z.to_nat channel) (ctrl_cache (data s)) 0) enable in
  is31fl3235a_channel_enable cfg channel enable s
  = write_commit_trigger cfg [IS31FL3235A_REG_CTRL_BASE + channel; ctrl_val]
      (fun d => set_ctrl_cache (<[Z.to_nat channel := ctrl_val]> (ctrl_cache d)) d) s.
Proof.
  intros Hc. cbv zeta.
  unfold is31fl3235a_channel_enable, write_commit_trigger.
  destruct (Z.geb_spec channel IS31FL3235A_NUM_CHANNELS) as [Hge | _]; [lia |].
  rewrite (ctrl_reg_u8 channel Hc). unfold_helpers. destruct s as [[] ?].
  run; reflexivity.
Qed.

Lemma channels_enable_run (start_channel num_channels : Z) (enable : list bool)
    (s : system) :
  0 <= start_channel < IS31FL3235A_NUM_CHANNELS -> 0 <= num_channels ->
  start_channel + num_channels <= IS31FL3235A_NUM_CHANNELS ->
  let ctrl_buf :=
    build_ctrl_buf (ctrl_cache (data s)) start_channel enable
      (Z.to_nat num_channels) 0
      (replicate (Z.to_nat IS31FL3235A_NUM_CHANNELS) 0) in
  is31fl3235a_channels_enable cfg start_channel num_channels enable s
  = write_commit_trigger cfg
      (IS31FL3235A_REG_CTRL_BASE + start_channel
         :: take (Z.to_nat num_channels) ctrl_buf)
      (fun d => set_ctrl_cache
                  (memcpy (ctrl_cache d) start_channel ctrl_buf num_channels) d) s.
Proof.
  intros Hs Hn Hsum. cbv zeta.
  destruct (range_accepted _ _ Hs Hn Hsum) as (H1 & _ & H3 & H4).
  unfold is31fl3235a_channels_enable, write_commit_trigger.
  rewrite H1, H3, (ctrl_reg_u8 start_channel Hs). unfold_helpers.
  rewrite H4. destruct s as [[] ?]. run; reflexivity.
Qed.

Lemma update_run (s : system) :
  is31fl3235a_update cfg s
  = ((if i2c_next (plat s) <? 0 then i2c_next (plat s) else 0),
     mk_system (data s) (i2c_transfer cfg trigger_msg (plat s))).
Proof.
  unfold is31fl3235a_update. unfold_helpers. destruct s as [[] ?].
  run; reflexivity.
Qed.

End Run.

Lemma trace_transfer (cfg : is31fl3235a_cfg) (msg : list Z) (p : platform) :
  trace (i2c_transfer cfg msg p)
  = trace p ++ [EvI2cWrite (i2c_addr cfg) msg (i2c_next p)].
Proof. reflexivity. Qed.

(** ** C3: range validation of [set_brightness] *)

(** The first thing [set_brightness] does on a valid channel. *)
Lemma set_brightness_trace (cfg : is31fl3235a_cfg) (led value : Z) (s : system) :
  0 <= led < IS31FL3235A_NUM_CHANNELS ->
  exists rest,
    trace (plat (snd (is31fl3235a_led_set_brightness cfg led value s)))
    = trace (plat s)
      ++ EvI2cWrite (i2c_addr cfg) [IS31FL3235A_REG_PWM_BASE + led; value]
           (i2c_next (plat s)) :: rest.
Proof.
  intros Hled. rewrite (set_brightness_run cfg led value s Hled).
  unfold write_commit_trigger. cbv zeta.
  destruct (i2c_next (plat s) <? 0); cbn [snd plat]; rewrite !trace_transfer.
  - exists []. reflexivity.
  - eexists. rewrite <- app_assoc. reflexivity.
Qed.

(** C3: for every 32-bit channel index [led] and value, [set_brightness]
    is rejected with [-EINVAL] before any transport access and with the
    system (hence the cache) unchanged when [led >= 28], in particular
    for 28 and 4294967295; when [led < 28] it proceeds to the transport
    write of the channel's PWM register; so the call leaves the platform
    trace untouched exactly when [led >= 28]. *)
Theorem set_brightness_range_validation
    (cfg : is31fl3235a_cfg) (led value : Z) (s : system) :
  is_u32 led ->
  let out := is31fl3235a_led_set_brightness cfg led value s in
  (IS31FL3235A_NUM_CHANNELS <= led -> out = (- EINVAL, s))
  /\ (led < IS31FL3235A_NUM_CHANNELS ->
      exists rest,
        trace (plat (snd out))
        = trace (plat s)
          ++ EvI2cWrite (i2c_addr cfg) [IS31FL3235A_REG_PWM_BASE + led; value]
               (i2c_next (plat s)) :: rest)
  /\ (trace (plat (snd out)) = trace (plat s) <-> IS31FL3235A_NUM_CHANNELS <= led)
  /\ is31fl3235a_led_set_brightness cfg 28 value s = (- EINVAL, s)
  /\ is31fl3235a_led_set_brightness cfg 4294967295 value s = (- EINVAL, s).
Proof.
  intros [Hlo _]. cbv zeta.
  assert (Hrej : IS31FL3235A_NUM_CHANNELS <= led ->
                 is31fl3235a_led_set_brightness cfg led value s = (- EINVAL, s)).
  { intros Hge. unfold is31fl3235a_led_set_brightness.
    destruct (Z.geb_spec led IS31FL3235A_NUM_CHANNELS); [reflexivity | lia]. }
  split; [exact Hrej |].
  split; [intros Hlt; apply set_brightness_trace; lia |].
  split; [| split; reflexivity].
  split.
  - intros Heq. destruct (Z.le_gt_cases IS31FL3235A_NUM_CHANNELS led) as [Hge | Hlt];
      [exact Hge |].
    destruct (set_brightness_trace cfg led value s (conj Hlo Hlt)) as [rest Hrest].
    rewrite Heq in Hrest. apply (f_equal (@length event)) in Hrest.
    rewrite length_app in Hrest. cbn in Hrest. lia.
  - intros Hge. rewrite (Hrej Hge). reflexivity.
Qed.

Lemma set_brightness_range_validation_witness :
  is31fl3235a_led_set_brightness cfg0 28 200 (sys0 []) = (- EINVAL, sys0 [])
  /\ exists rest,
       trace (plat (snd (is31fl3235a_led_set_brightness cfg0 27 200 (sys0 []))))
       = [] ++ EvI2cWrite 0x3C [IS31FL3235A_REG_PWM_BASE + 27; 200] 0 :: rest.
Proof.
  assert (H28 : is_u32 28) by (unfold is_u32; lia).
  assert (H27 : is_u32 27) by (unfold is_u32; lia).
  destruct (set_brightness_range_validation cfg0 28 200 (sys0 []) H28)
    as (Hrej & _).
  destruct (set_brightness_range_validation cfg0 27 200 (sys0 []) H27)
    as (_ & Hacc & _).
  split.
  - apply Hrej. rewrite num_channels_val. lia.
  - apply Hacc. rewrite num_channels_val. lia.
Defined.

(** ** C2 and C10: range validation of the batch writes *)

(** A 32-bit sum that wraps has a huge second summand. *)
Lemma wrapped_sum_is_long (start_channel num_channels : Z) :
  is_u32 start_channel -> is_u32 num_channels ->
  start_channel < IS31FL3235A_NUM_CHANNELS ->
  to_u32 (start_channel + num_channels) <= IS31FL3235A_NUM_CHANNELS ->
  IS31FL3235A_NUM_CHANNELS < start_channel + num_channels ->
  2 ^ 32 - 27 <= num_channels.
Proof.
  unfold is_u32, to_u32. rewrite num_channels_val. intros Hs Hn Hlt Hwrap Hsum.
  destruct (Z.lt_ge_cases (start_channel + num_channels) (2 ^ 32)) as [Hsmall | Hbig].
  - rewrite Z.mod_small in Hwrap by lia. lia.
  - lia.
Qed.

(** The buffer helper refuses a length over 255 without touching anything. *)
Lemma write_buffer_too_long (cfg : is31fl3235a_cfg) (reg : Z) (buf : list Z)
    (len : Z) (s : system) :
  255 < len -> is31fl3235a_write_buffer cfg reg buf len s = (- EINVAL, s).
Proof.
  intros Hlen. unfold is31fl3235a_write_buffer.
  rewrite Z.gtb_ltb. rewrite (proj2 (Z.ltb_lt (256 - 1) len)) by lia. reflexivity.
Qed.

(** What both batch writes do when the range check lets a wrapped sum pass. *)
Lemma write_channels_wrapped (cfg : is31fl3235a_cfg)
    (start_channel num_channels : Z) (buf : list Z) (s : system) :
  start_channel < IS31FL3235A_NUM_CHANNELS ->
  to_u32 (start_channel + num_channels) <= IS31FL3235A_NUM_CHANNELS ->
  255 < num_channels ->
  is31fl3235a_led_write_channels cfg start_channel num_channels buf s = (- EINVAL, s)
  /\ is31fl3235a_write_channels_no_update cfg start_channel num_channels buf s
     = (- EINVAL, s).
Proof.
  intros Hlt Hwrap Hlen.
  unfold is31fl3235a_led_write_channels, is31fl3235a_write_channels_no_update.
  destruct (Z.geb_spec start_channel IS31FL3235A_NUM_CHANNELS) as [Hge | _]; [lia |].
  rewrite Z.gtb_ltb.
  rewrite (proj2 (Z.ltb_ge IS31FL3235A_NUM_CHANNELS
                    (to_u32 (start_channel + num_channels))) Hwrap).
  unfold_helpers. rewrite Z.gtb_ltb.
  rewrite (proj2 (Z.ltb_lt (256 - 1) num_channels)) by lia.
  destruct s as [[] ?]. split; reflexivity.
Qed.

(** The three ways a batch write turns down a range that does not fit:
    the start check, the range check, and the length check of the buffer
    helper when the 32-bit sum wrapped. *)
Lemma write_channels_out_of_range (cfg : is31fl3235a_cfg)
    (start_channel num_channels : Z) (buf : list Z) (s : system) :
  is_u32 start_channel -> is_u32 num_channels ->
  start_channel + num_channels > IS31FL3235A_NUM_CHANNELS ->
  is31fl3235a_led_write_channels cfg start_channel num_channels buf s = (- EINVAL, s)
  /\ is31fl3235a_write_channels_no_update cfg start_channel num_channels buf s
     = (- EINVAL, s).
Proof.
  intros Hs Hn Hsum.
  destruct (Z.le_gt_cases IS31FL3235A_NUM_CHANNELS start_channel) as [Hge | Hlt].
  - unfold is31fl3235a_led_write_channels, is31fl3235a_write_channels_no_update.
    destruct (Z.geb_spec start_channel IS31FL3235A_NUM_CHANNELS); [| lia].
    split; reflexivity.
  - destruct (Z.le_gt_cases (to_u32 (start_channel + num_channels))
                IS31FL3235A_NUM_CHANNELS) as [Hwrap | Hbig].
    + apply write_channels_wrapped; [exact Hlt | exact Hwrap |].
      pose proof (wrapped_sum_is_long _ _ Hs Hn Hlt Hwrap) as Hlong. lia.
    + unfold is31fl3235a_led_write_channels, is31fl3235a_write_channels_no_update.
      destruct (Z.geb_spec start_channel IS31FL3235A_NUM_CHANNELS); [lia |].
      rewrite Z.gtb_ltb.
      rewrite (proj2 (Z.ltb_lt IS31FL3235A_NUM_CHANNELS
                        (to_u32 (start_channel + num_channels)))) by lia.
      split; reflexivity.
Qed.

(** C2: for every 32-bit [start] and [count] with [start + count > 28]
    in exact arithmetic, [write_channels] (and its no-update variant)
    returns [-EINVAL] and the system is as before the call: nothing was
    sent to the transport and the cache was not touched. *)
Theorem write_channels_rejects_out_of_range (cfg : is31fl3235a_cfg)
    (start_channel num_channels : Z) (buf : list Z) (s : system) :
  is_u32 start_channel -> is_u32 num_channels ->
  start_channel + num_channels > IS31FL3235A_NUM_CHANNELS ->
  let out := is31fl3235a_led_write_channels cfg start_channel num_channels buf s in
  let out' :=
    is31fl3235a_write_channels_no_update cfg start_channel num_channels buf s in
  (fst out = - EINVAL /\ snd out = s
   /\ trace (plat (snd out)) = trace (plat s)
   /\ caches (data (snd out)) = caches (data s))
  /\ (fst out' = - EINVAL /\ snd out' = s
      /\ trace (plat (snd out')) = trace (plat s)
      /\ caches (data (snd out')) = caches (data s)).
Proof.
  intros Hs Hn Hsum. cbv zeta.
  destruct (write_channels_out_of_range cfg _ _ buf s Hs Hn Hsum) as [-> ->].
  repeat split.
Qed.

Lemma write_channels_rejects_out_of_range_witness :
  let out :=
    is31fl3235a_led_write_channels cfg0 20 9 [1; 2; 3; 4; 5; 6; 7; 8; 9] (sys0 []) in
  fst out = - EINVAL /\ snd out = sys0 [].
Proof.
  assert (H20 : is_u32 20) by (unfold is_u32; lia).
  assert (H9 : is_u32 9) by (unfold is_u32; lia).
  assert (Hsum : 20 + 9 > IS31FL3235A_NUM_CHANNELS) by (rewrite num_channels_val; lia).
  destruct (write_channels_rejects_out_of_range cfg0 20 9 [1; 2; 3; 4; 5; 6; 7; 8; 9]
              (sys0 []) H20 H9 Hsum) as [(Hr & Hs & _) _].
  split; [exact Hr | exact Hs].
Defined.

(** C10: when the 32-bit sum [start_channel + num_channels] wraps to a
    value of at most 28, so that the range check passes although
    [num_channels] exceeds [28 - start_channel], the length is over 255,
    the buffer helper rejects it (for any register and state) before the
    bus transaction, and both batch writes return [-EINVAL] with the
    system unchanged: nothing written to the transport, [pwm_cache]
    unmodified. *)
Theorem write_channels_wraparound_rejected (cfg : is31fl3235a_cfg)
    (start_channel num_channels : Z) (buf : list Z) (s : system) :
  is_u32 start_channel -> is_u32 num_channels ->
  start_channel < IS31FL3235A_NUM_CHANNELS ->
  to_u32 (start_channel + num_channels) <= IS31FL3235A_NUM_CHANNELS ->
  num_channels > IS31FL3235A_NUM_CHANNELS - start_channel ->
  255 < num_channels
  /\ (forall reg s1,
        is31fl3235a_write_buffer cfg reg buf num_channels s1 = (- EINVAL, s1))
  /\ is31fl3235a_led_write_channels cfg start_channel num_channels buf s
     = (- EINVAL, s)
  /\ is31fl3235a_write_channels_no_update cfg start_channel num_channels buf s
     = (- EINVAL, s).
Proof.
  intros Hs Hn Hlt Hwrap Hover.
  assert (Hlen : 255 < num_channels).
  { pose proof (wrapped_sum_is_long _ _ Hs Hn Hlt Hwrap) as Hlong. lia. }
  split; [exact Hlen |].
  split; [intros reg s1; apply write_buffer_too_long; exact Hlen |].
  apply write_channels_wrapped; assumption.
Qed.

Lemma write_channels_wraparound_rejected_witness :
  is31fl3235a_led_write_channels cfg0 27 4294967295 [1; 2; 3] (sys0 [])
  = (- EINVAL, sys0 []).
Proof.
  apply (write_channels_wraparound_rejected cfg0 27 4294967295 [1; 2; 3] (sys0 [])).
  - unfold is_u32; lia.
  - unfold is_u32; lia.
  - rewrite num_channels_val; lia.
  - vm_compute. discriminate.
  - rewrite num_channels_val; lia.
Defined.

(** ** C8: cache fidelity *)

Section Memcpy.

Variables (cache buf : list Z) (start n : Z).
Hypothesis Hstart : 0 <= start.
Hypothesis Hn : 0 <= n.

Lemma memcpy_lookup_in (i : nat) :
  (Z.to_nat n <= length buf)%nat ->
  (Z.to_nat start + Z.to_nat n <= length cache)%nat ->
  (i < Z.to_nat n)%nat ->
  memcpy cache start buf n !! (Z.to_nat start + i)%nat = buf !! i.
Proof.
  intros Hbuf Hfit Hi. unfold memcpy.
  rewrite list_lookup_inserts.
  - replace (Z.to_nat start + i - Z.to_nat start)%nat with i by lia.
    apply lookup_take_lt. exact Hi.
  - rewrite length_take. lia.
  - lia.
Qed.

Lemma memcpy_lookup_out (j : nat) :
  (j < Z.to_nat start)%nat \/ (Z.to_nat start + Z.to_nat n <= j)%nat ->
  memcpy cache start buf n !! j = cache !! j.
Proof.
  intros [Hlt | Hge]; unfold memcpy.
  - apply list_lookup_inserts_lt. exact Hlt.
  - apply list_lookup_inserts_ge. rewrite length_take. lia.
Qed.

End Memcpy.

(** A range that passes both checks of a batch write with a length the
    buffer helper accepts lies within the 28 channels. *)
Lemma accepted_range_fits (start_channel num_channels : Z) :
  is_u32 start_channel -> is_u32 num_channels ->
  start_channel < IS31FL3235A_NUM_CHANNELS ->
  to_u32 (start_channel + num_channels) <= IS31FL3235A_NUM_CHANNELS ->
  num_channels <= 256 - 1 ->
  start_channel + num_channels <= IS31FL3235A_NUM_CHANNELS.
Proof.
  unfold is_u32, to_u32. rewrite num_channels_val. intros Hs Hn Hlt Hwrap Hlen.
  rewrite Z.mod_small in Hwrap by lia. exact Hwrap.
Qed.

(** C8: a successful [set_brightness(c, v)] leaves [pwm_cache[c] = v],
    every other cell of [pwm_cache] and all of [ctrl_cache] unchanged; a
    successful [write_channels(start, count, values)] leaves
    [pwm_cache[start + i] = values[i]] for every [i < count], the cells
    outside [start, start + count) and all of [ctrl_cache] unchanged. *)
Theorem cache_fidelity (cfg : is31fl3235a_cfg) (s s' : system) :
  length (pwm_cache (data s)) = Z.to_nat IS31FL3235A_NUM_CHANNELS ->
  (forall c v,
      is_u32 c ->
      is31fl3235a_led_set_brightness cfg c v s = (0, s') ->
      pwm_cache (data s') !! Z.to_nat c = Some v
      /\ (forall j : nat, j <> Z.to_nat c ->
            pwm_cache (data s') !! j = pwm_cache (data s) !! j)
      /\ ctrl_cache (data s') = ctrl_cache (data s))
  /\ (forall start count values,
        is_u32 start -> is_u32 count ->
        (Z.to_nat count <= length values)%nat ->
        is31fl3235a_led_write_channels cfg start count values s = (0, s') ->
        (forall i : nat, (i < Z.to_nat count)%nat ->
           pwm_cache (data s') !! (Z.to_nat start + i)%nat = values !! i)
        /\ (forall j : nat,
              (j < Z.to_nat start)%nat \/ (Z.to_nat start + Z.to_nat count <= j)%nat ->
              pwm_cache (data s') !! j = pwm_cache (data s) !! j)
        /\ ctrl_cache (data s') = ctrl_cache (data s)).
Proof.
  intros Hlen. rewrite num_channels_val in Hlen. split.
  - intros c v [Hc0 _] Hrun. revert Hrun. unfold is31fl3235a_led_set_brightness.
    destruct (Z.geb_spec c IS31FL3235A_NUM_CHANNELS) as [Hge | Hlt];
      [unfold ret; intros [= ? ?]; discriminate |].
    rewrite num_channels_val in Hlt.
    unfold_helpers. run; intros Hrun; apply pair_equal_spec in Hrun;
      destruct Hrun as [Hr Hs']; try lia.
    subst s'. cbn. split; [| split].
    + apply list_lookup_insert_eq. lia.
    + intros j Hj. apply list_lookup_insert_ne. congruence.
    + reflexivity.
  - intros start count values Hs Hn Hbuf Hrun. revert Hrun.
    unfold is31fl3235a_led_write_channels.
    destruct (Z.geb_spec start IS31FL3235A_NUM_CHANNELS) as [Hge | Hlt];
      [unfold ret; intros [= ? ?]; discriminate |].
    rewrite Z.gtb_ltb.
    destruct (Z.ltb_spec IS31FL3235A_NUM_CHANNELS (to_u32 (start + count)))
      as [Hbig | Hfit]; [unfold ret; intros [= ? ?]; discriminate |].
    unfold_helpers. rewrite Z.gtb_ltb.
    destruct (Z.ltb_spec (256 - 1) count) as [Hlong | Hshort];
      [cbn; intros [= ? ?]; discriminate |].
    pose proof (accepted_range_fits _ _ Hs Hn Hlt Hfit Hshort) as Hsum.
    rewrite num_channels_val in Hsum.
    destruct Hs as [Hs0 _]. destruct Hn as [Hn0 _].
    run; intros Hrun; apply pair_equal_spec in Hrun;
      destruct Hrun as [Hr Hs']; try lia.
    subst s'. cbn. split; [| split].
    + intros i Hi. apply memcpy_lookup_in; lia.
    + intros j Hj. apply memcpy_lookup_out; first [exact Hj | lia].
    + reflexivity.
Qed.

Lemma cache_fidelity_witness :
  (pwm_cache (data (snd (is31fl3235a_led_set_brightness cfg0 5 200 (sys0 []))))
     !! 5%nat = Some 200)
  /\ (pwm_cache (data (snd (is31fl3235a_led_write_channels cfg0 3 2 [7; 9] (sys0 []))))
        !! 4%nat = Some 9).
Proof.
  split.
  - refine (proj1 (proj1 (cache_fidelity cfg0 (sys0 []) _ eq_refl) 5 200 _ eq_refl)).
    unfold is_u32; lia.
  - refine (proj1 (proj2 (cache_fidelity cfg0 (sys0 []) _ eq_refl)
                     3 2 [7; 9] _ _ _ eq_refl) 1%nat _).
    + unfold is_u32; lia.
    + unfold is_u32; lia.
    + cbn; lia.
    + cbn; lia.
Defined.

(** ** Counting trigger writes; running the chip mock *)

Lemma trigger_writes_nil : trigger_writes [] = O.
Proof. reflexivity. Qed.

Lemma trigger_writes_cons (e : event) (t : list event) :
  trigger_writes (e :: t)
  = ((if writes_to IS31FL3235A_REG_UPDATE e then 1 else 0) + trigger_writes t)%nat.
Proof.
  unfold trigger_writes. rewrite filter_cons.
  destruct (decide (writes_to IS31FL3235A_REG_UPDATE e = true)) as [Heq | Hne].
  - rewrite Heq. reflexivity.
  - destruct (writes_to IS31FL3235A_REG_UPDATE e); [congruence | reflexivity].
Qed.

Lemma trigger_writes_app (t1 t2 : list event) :
  trigger_writes (t1 ++ t2) = (trigger_writes t1 + trigger_writes t2)%nat.
Proof. unfold trigger_writes. rewrite filter_app, length_app. reflexivity. Qed.

Lemma chip_run_app (c : chip) (t1 t2 : list event) :
  chip_run c (t1 ++ t2) = chip_run (chip_run c t1) t2.
Proof. unfold chip_run. apply fold_left_app. Qed.

(** A PWM or control register of a valid channel is not the Update or
    the Reset register. *)
Lemma pwm_reg_plain (ch : Z) :
  0 <= ch < IS31FL3235A_NUM_CHANNELS ->
  (IS31FL3235A_REG_PWM_BASE + ch =? IS31FL3235A_REG_UPDATE) = false
  /\ (IS31FL3235A_REG_PWM_BASE + ch =? IS31FL3235A_REG_RESET) = false.
Proof.
  rewrite num_channels_val. intros H.
  unfold IS31FL3235A_REG_PWM_BASE, IS31FL3235A_REG_UPDATE, IS31FL3235A_REG_RESET.
  split; apply Z.eqb_neq; lia.
Qed.

Lemma ctrl_reg_plain (ch : Z) :
  0 <= ch < IS31FL3235A_NUM_CHANNELS ->
  (IS31FL3235A_REG_CTRL_BASE + ch =? IS31FL3235A_REG_UPDATE) = false
  /\ (IS31FL3235A_REG_CTRL_BASE + ch =? IS31FL3235A_REG_RESET) = false.
Proof.
  rewrite num_channels_val. intros H.
  unfold IS31FL3235A_REG_CTRL_BASE, IS31FL3235A_REG_UPDATE, IS31FL3235A_REG_RESET.
  split; apply Z.eqb_neq; lia.
Qed.

(** ** C6: the no-update variant defers visibility *)

(** C6: for a valid channel [led] and a data write that succeeds,
    [set_brightness_no_update(led, v)] returns 0, stores [v] in
    [pwm_cache[led]] and sends exactly one bus write, to the channel's
    PWM register: no write to the Update register, so the visible outputs
    of the chip mock are what they were; the later [update()] sends
    exactly one bus write, the trigger, and when it succeeds the visible
    outputs become the staged registers, which hold [v] for the channel. *)
Theorem no_update_defers_visibility (cfg : is31fl3235a_cfg) (led v : Z)
    (s : system) (c0 : chip) :
  0 <= led < IS31FL3235A_NUM_CHANNELS ->
  length (pwm_cache (data s)) = Z.to_nat IS31FL3235A_NUM_CHANNELS ->
  0 <= i2c_next (plat s) ->
  let out1 := is31fl3235a_set_brightness_no_update cfg led v s in
  let s1 := snd out1 in
  let out2 := is31fl3235a_update cfg s1 in
  let s2 := snd out2 in
  let r1 := i2c_next (plat s) in
  let r2 := i2c_next (plat s1) in
  let before := chip_run c0 (trace (plat s)) in
  fst out1 = 0
  /\ pwm_cache (data s1) !! Z.to_nat led = Some v
  /\ trace (plat s1)
     = trace (plat s)
       ++ [EvI2cWrite (i2c_addr cfg) [IS31FL3235A_REG_PWM_BASE + led; v] r1]
  /\ trigger_writes (trace (plat s1)) = trigger_writes (trace (plat s))
  /\ visible (chip_run c0 (trace (plat s1))) = visible before
  /\ caches (data s2) = caches (data s1)
  /\ trace (plat s2)
     = trace (plat s1)
       ++ [EvI2cWrite (i2c_addr cfg)
             [IS31FL3235A_REG_UPDATE; IS31FL3235A_UPDATE_TRIGGER] r2]
  /\ trigger_writes (trace (plat s2)) = S (trigger_writes (trace (plat s1)))
  /\ (0 <= r2 ->
      fst out2 = 0
      /\ visible (chip_run c0 (trace (plat s2)))
         = <[Z.to_nat (IS31FL3235A_REG_PWM_BASE + led) := v]> (staged before)).
Proof.
  intros Hled Hlen Hr1. cbv zeta.
  destruct (pwm_reg_plain led Hled) as [Hnu Hnr].
  rewrite (set_brightness_no_update_run cfg led v s Hled).
  unfold write_commit. cbv zeta. rewrite (proj2 (Z.ltb_ge _ 0) Hr1).
  rewrite update_run. cbn [fst snd data plat].
  set (r1 := i2c_next (plat s)) in *.
  set (w1 := EvI2cWrite (i2c_addr cfg) [IS31FL3235A_REG_PWM_BASE + led; v] r1).
  set (p1 := i2c_transfer cfg _ (plat s)).
  assert (Ht1 : trace p1 = trace (plat s) ++ [w1]) by apply trace_transfer.
  assert (Hchip1 : chip_run c0 (trace p1)
                   = mk_chip (<[Z.to_nat (IS31FL3235A_REG_PWM_BASE + led) := v]>
                                (staged (chip_run c0 (trace (plat s)))))
                             (visible (chip_run c0 (trace (plat s))))).
  { rewrite Ht1, chip_run_app. cbn.
    rewrite (proj2 (Z.ltb_ge r1 0) Hr1). unfold chip_write_byte.
    rewrite Hnu, Hnr. reflexivity. }
  assert (Hw1 : trigger_writes [w1] = O).
  { unfold w1. rewrite trigger_writes_cons, trigger_writes_nil.
    cbn [writes_to]. rewrite Hnu. reflexivity. }
  split; [reflexivity |].
  split; [cbn; apply list_lookup_insert_eq; rewrite Hlen;
          rewrite num_channels_val in *; lia |].
  split; [exact Ht1 |].
  split; [rewrite Ht1, trigger_writes_app, Hw1; lia |].
  split; [rewrite Hchip1; reflexivity |].
  split; [reflexivity |].
  split; [apply trace_transfer |].
  split.
  { rewrite trace_transfer, trigger_writes_app, trigger_writes_cons,
      trigger_writes_nil. cbn. lia. }
  intros Hr2. split.
  - rewrite (proj2 (Z.ltb_ge _ 0) Hr2). reflexivity.
  - rewrite trace_transfer, chip_run_app, Hchip1. cbn.
    rewrite (proj2 (Z.ltb_ge _ 0) Hr2). reflexivity.
Qed.

Lemma no_update_defers_visibility_witness :
  fst (is31fl3235a_set_brightness_no_update cfg0 0 100 (sys0 [])) = 0
  /\ pwm_cache (data (snd (is31fl3235a_set_brightness_no_update cfg0 0 100 (sys0 []))))
       !! 0%nat = Some 100
  /\ visible (chip_run chip_reset
                (trace (plat (snd (is31fl3235a_set_brightness_no_update cfg0 0 100
                                     (sys0 []))))))
     = visible chip_reset.
Proof.
  assert (Hled : 0 <= 0 < IS31FL3235A_NUM_CHANNELS) by (rewrite num_channels_val; lia).
  assert (Hr1 : 0 <= i2c_next (plat (sys0 []))) by (vm_compute; discriminate).
  destruct (no_update_defers_visibility cfg0 0 100 (sys0 []) chip_reset Hled eq_refl Hr1)
    as (H1 & H2 & _ & _ & H5 & _).
  split; [exact H1 |]. split; [exact H2 | exact H5].
Defined.

(** ** C4: the enable bit and the scale field are independent *)

(** *** Facts on control bytes, checked on all 256 values *)

Lemma forall_u8 (P : Z -> bool) :
  forallb P u8_values = true -> forall b, is_u8 b -> P b = true.
Proof.
  intros Hall b [Hlo Hhi]. rewrite forallb_forall in Hall. apply Hall.
  unfold u8_values. apply in_map_iff. exists (Z.to_nat b).
  split; [lia |]. apply in_seq. change (2 ^ 8) with 256 in Hhi. lia.
Qed.

Lemma testbit_u8_high (b i : Z) : is_u8 b -> 8 <= i -> Z.testbit b i = false.
Proof.
  intros Hb Hi. rewrite <- (to_u8_small b Hb). unfold to_u8.
  apply Z.mod_pow2_bits_high. lia.
Qed.

Lemma bits_agree_except_sound (skip : list Z) (x y : Z) :
  is_u8 x -> is_u8 y -> bits_agree_except skip x y = true ->
  forall i, ~ In i skip -> Z.testbit x i = Z.testbit y i.
Proof.
  intros Hx Hy Hall i Hskip.
  destruct (Z.lt_ge_cases i 0) as [Hneg | Hpos];
    [rewrite !Z.testbit_neg_r by exact Hneg; reflexivity |].
  destruct (Z.lt_ge_cases i 8) as [Hlow | Hhigh];
    [| rewrite !testbit_u8_high by assumption; reflexivity].
  unfold bits_agree_except in Hall. rewrite forallb_forall in Hall.
  assert (Hin : In i [0; 1; 2; 3; 4; 5; 6; 7]).
  { assert (Hcases : i = 0 \/ i = 1 \/ i = 2 \/ i = 3 \/ i = 4 \/ i = 5 \/ i = 6 \/ i = 7)
      by lia.
    cbn. intuition auto. }
  specialize (Hall i Hin). apply orb_true_iff in Hall. destruct Hall as [Hex | Heq].
  - exfalso. apply Hskip. apply existsb_exists in Hex.
    destruct Hex as (j & Hj & Hij). apply Z.eqb_eq in Hij. subst j. exact Hj.
  - apply Bool.eqb_prop. exact Heq.
Qed.

Lemma apply_enable_is_u8 (b : Z) (enable : bool) : is_u8 (apply_enable b enable).
Proof. unfold apply_enable. destruct enable; apply to_u8_is_u8. Qed.

Lemma apply_scale_is_u8 (b scale : Z) : is_u8 (apply_scale b scale).
Proof. unfold apply_scale. apply to_u8_is_u8. Qed.

(** [channel_enable]'s byte operation sets bit 0 and keeps the rest. *)
Lemma apply_enable_spec (b : Z) (enable : bool) :
  is_u8 b ->
  ctrl_enabled (apply_enable b enable) = enable
  /\ ctrl_scale (apply_enable b enable) = ctrl_scale b
  /\ (forall i, i <> 0 -> Z.testbit (apply_enable b enable) i = Z.testbit b i).
Proof.
  intros Hb.
  assert (Hcheck : enable_check enable b = true).
  { apply forall_u8; [| exact Hb]. destruct enable; vm_compute; reflexivity. }
  unfold enable_check in Hcheck.
  apply andb_true_iff in Hcheck. destruct Hcheck as [Hcheck Hbits].
  apply andb_true_iff in Hcheck. destruct Hcheck as [Hen Hsc].
  split; [apply Bool.eqb_prop; exact Hen |].
  split; [apply Z.eqb_eq; exact Hsc |].
  intros i Hi.
  apply (bits_agree_except_sound [0]); [apply apply_enable_is_u8 | exact Hb | exact Hbits |].
  cbn. intuition auto.
Qed.

(** [set_current_scale]'s byte operation sets bits 1-2 and keeps the rest. *)
Lemma apply_scale_spec (b scale : Z) :
  is_u8 b -> 0 <= scale <= IS31FL3235A_SCALE_1_4X ->
  ctrl_scale (apply_scale b scale) = scale
  /\ ctrl_enabled (apply_scale b scale) = ctrl_enabled b
  /\ (forall i, i <> 1 -> i <> 2 -> Z.testbit (apply_scale b scale) i = Z.testbit b i).
Proof.
  intros Hb Hscale. change IS31FL3235A_SCALE_1_4X with 3 in Hscale.
  assert (Hcheck : scale_check scale b = true).
  { apply forall_u8; [| exact Hb].
    assert (Hcases : scale = 0 \/ scale = 1 \/ scale = 2 \/ scale = 3) by lia.
    destruct Hcases as [-> | [-> | [-> | ->]]]; vm_compute; reflexivity. }
  unfold scale_check in Hcheck.
  apply andb_true_iff in Hcheck. destruct Hcheck as [Hcheck Hbits].
  apply andb_true_iff in Hcheck. destruct Hcheck as [Hsc Hen].
  split; [apply Z.eqb_eq; exact Hsc |].
  split; [apply Bool.eqb_prop; exact Hen |].
  intros i Hi1 Hi2.
  apply (bits_agree_except_sound [1; 2]);
    [apply apply_scale_is_u8 | exact Hb | exact Hbits |].
  cbn. intuition auto.
Qed.

(** *** The outcome shapes *)

Lemma transport_ok_next (p : platform) : transport_ok p -> 0 <= i2c_next p.
Proof.
  unfold transport_ok, i2c_next. intros H.
  destruct H as [| r rest Hr _]; cbn; [lia | exact Hr].
Qed.

Lemma transport_ok_transfer (cfg : is31fl3235a_cfg) (msg : list Z) (p : platform) :
  transport_ok p -> transport_ok (i2c_transfer cfg msg p).
Proof.
  unfold transport_ok, i2c_transfer. cbn. intros H.
  destruct H as [| r rest _ Hrest]; cbn; [constructor | exact Hrest].
Qed.

Lemma write_commit_trigger_data (cfg : is31fl3235a_cfg) (msg : list Z)
    (commit : is31fl3235a_data -> is31fl3235a_data) (s : system) :
  data (snd (write_commit_trigger cfg msg commit s))
  = if i2c_next (plat s) <? 0 then data s else commit (data s).
Proof.
  unfold write_commit_trigger. cbv zeta.
  destruct (i2c_next (plat s) <? 0); reflexivity.
Qed.

Lemma write_commit_trigger_ok (cfg : is31fl3235a_cfg) (msg : list Z)
    (commit : is31fl3235a_data -> is31fl3235a_data) (s : system) :
  transport_ok (plat s) ->
  write_commit_trigger cfg msg commit s
  = (0, mk_system (commit (data s))
          (i2c_transfer cfg trigger_msg (i2c_transfer cfg msg (plat s)))).
Proof.
  intros Hok. unfold write_commit_trigger. cbv zeta.
  rewrite (proj2 (Z.ltb_ge _ 0) (transport_ok_next _ Hok)).
  rewrite (proj2 (Z.ltb_ge _ 0)
             (transport_ok_next _ (transport_ok_transfer cfg msg _ Hok))).
  reflexivity.
Qed.

Lemma nth_insert_same (l : list Z) (i : nat) (v d : Z) :
  (i < length l)%nat -> nth i (<[i := v]> l) d = v.
Proof.
  intros Hi. apply nth_lookup_Some. apply list_lookup_insert_eq. exact Hi.
Qed.

Lemma cache_wf_nth (l : list Z) (c : Z) :
  cache_wf l -> 0 <= c < IS31FL3235A_NUM_CHANNELS -> is_u8 (nth (Z.to_nat c) l 0).
Proof.
  intros [Hlen Hall] Hc. apply Forall_nth; [exact Hall |]. rewrite Hlen. lia.
Qed.

Lemma cache_wf_insert (l : list Z) (i : nat) (v : Z) :
  cache_wf l -> is_u8 v -> cache_wf (<[i := v]> l).
Proof.
  intros [Hlen Hall] Hv. split.
  - rewrite length_insert. exact Hlen.
  - apply Forall_insert; assumption.
Qed.

Section ControlSteps.

Variables (cfg : is31fl3235a_cfg) (c : Z) (s : system).
Hypothesis Hc : 0 <= c < IS31FL3235A_NUM_CHANNELS.
Hypothesis Hwf : cache_wf (ctrl_cache (data s)).

Let ctrl_of (x : system) : Z := nth (Z.to_nat c) (ctrl_cache (data x)) 0.

Lemma ctrl_index_in_range : (Z.to_nat c < length (ctrl_cache (data s)))%nat.
Proof. destruct Hwf as [Hlen _]. rewrite Hlen. lia. Qed.

(** [channel_enable] with a succeeding transport. *)
Lemma channel_enable_ok (enable : bool) :
  transport_ok (plat s) ->
  let out := is31fl3235a_channel_enable cfg c enable s in
  fst out = 0
  /\ transport_ok (plat (snd out))
  /\ cache_wf (ctrl_cache (data (snd out)))
  /\ ctrl_of (snd out) = apply_enable (ctrl_of s) enable.
Proof.
  intros Hok. cbv zeta. rewrite (channel_enable_run cfg c enable s Hc). cbv zeta.
  rewrite (write_commit_trigger_ok _ _ _ _ Hok). unfold ctrl_of. cbn.
  split; [reflexivity |].
  split; [apply transport_ok_transfer, transport_ok_transfer, Hok |].
  split; [apply cache_wf_insert; [exact Hwf | apply apply_enable_is_u8] |].
  apply nth_insert_same, ctrl_index_in_range.
Qed.

(** [set_current_scale] with a succeeding transport. *)
Lemma set_current_scale_ok (scale : Z) :
  scale <= IS31FL3235A_SCALE_1_4X ->
  transport_ok (plat s) ->
  let out := is31fl3235a_set_current_scale cfg c scale s in
  fst out = 0
  /\ transport_ok (plat (snd out))
  /\ cache_wf (ctrl_cache (data (snd out)))
  /\ ctrl_of (snd out) = apply_scale (ctrl_of s) scale.
Proof.
  intros Hscale Hok. cbv zeta.
  rewrite (set_current_scale_run cfg c scale s Hc Hscale). cbv zeta.
  rewrite (write_commit_trigger_ok _ _ _ _ Hok). unfold ctrl_of. cbn.
  split; [reflexivity |].
  split; [apply transport_ok_transfer, transport_ok_transfer, Hok |].
  split; [apply cache_wf_insert; [exact Hwf | apply apply_scale_is_u8] |].
  apply nth_insert_same, ctrl_index_in_range.
Qed.

(** Whatever the transport answers, the channel's control byte after
    [channel_enable] is the old one or the old one with bit 0 set to
    [enable]; the latter when the data write succeeds. *)
Lemma channel_enable_byte (enable : bool) :
  let out := is31fl3235a_channel_enable cfg c enable s in
  (ctrl_of (snd out) = ctrl_of s
   \/ ctrl_of (snd out) = apply_enable (ctrl_of s) enable)
  /\ (0 <= i2c_next (plat s) ->
      ctrl_of (snd out) = apply_enable (ctrl_of s) enable).
Proof.
  cbv zeta. rewrite (channel_enable_run cfg c enable s Hc). cbv zeta.
  unfold ctrl_of. rewrite write_commit_trigger_data.
  destruct (Z.ltb_spec (i2c_next (plat s)) 0) as [Hfail | Hsucc]; cbn.
  - split; [left; reflexivity | lia].
  - rewrite nth_insert_same by apply ctrl_index_in_range.
    split; [right; reflexivity | reflexivity].
Qed.

Lemma set_current_scale_byte (scale : Z) :
  scale <= IS31FL3235A_SCALE_1_4X ->
  let out := is31fl3235a_set_current_scale cfg c scale s in
  (ctrl_of (snd out) = ctrl_of s
   \/ ctrl_of (snd out) = apply_scale (ctrl_of s) scale)
  /\ (0 <= i2c_next (plat s) ->
      ctrl_of (snd out) = apply_scale (ctrl_of s) scale).
Proof.
  intros Hscale. cbv zeta.
  rewrite (set_current_scale_run cfg c scale s Hc Hscale). cbv zeta.
  unfold ctrl_of. rewrite write_commit_trigger_data.
  destruct (Z.ltb_spec (i2c_next (plat s)) 0) as [Hfail | Hsucc]; cbn.
  - split; [left; reflexivity | lia].
  - rewrite nth_insert_same by apply ctrl_index_in_range.
    split; [right; reflexivity | reflexivity].
Qed.

End ControlSteps.

(** C4: on a valid channel [c] with a valid scale, [channel_enable]
    changes at most bit 0 of [ctrl_cache[c]] (the scale field is
    preserved, and bit 0 is [enable] once the data write succeeds), and
    [set_current_scale] changes at most bits 1-2 (the enable bit is
    preserved, and the field is [scale] once the data write succeeds);
    hence, with a succeeding transport, [channel_enable(c, false)], then
    [set_current_scale(c, scale)], then [channel_enable(c, true)] all
    return 0 and leave [ctrl_cache[c]] with enable = 1 and the scale
    field equal to [scale]. *)
Theorem scale_enable_independence (cfg : is31fl3235a_cfg) (c scale : Z) (s : system) :
  0 <= c < IS31FL3235A_NUM_CHANNELS ->
  0 <= scale <= IS31FL3235A_SCALE_1_4X ->
  cache_wf (ctrl_cache (data s)) ->
  let ctrl_of (x : system) := nth (Z.to_nat c) (ctrl_cache (data x)) 0 in
  (forall enable,
      let s' := snd (is31fl3235a_channel_enable cfg c enable s) in
      (forall i, i <> 0 -> Z.testbit (ctrl_of s') i = Z.testbit (ctrl_of s) i)
      /\ ctrl_scale (ctrl_of s') = ctrl_scale (ctrl_of s)
      /\ (0 <= i2c_next (plat s) -> ctrl_enabled (ctrl_of s') = enable))
  /\ (let s' := snd (is31fl3235a_set_current_scale cfg c scale s) in
      (forall i, i <> 1 -> i <> 2 ->
         Z.testbit (ctrl_of s') i = Z.testbit (ctrl_of s) i)
      /\ ctrl_enabled (ctrl_of s') = ctrl_enabled (ctrl_of s)
      /\ (0 <= i2c_next (plat s) -> ctrl_scale (ctrl_of s') = scale))
  /\ (transport_ok (plat s) ->
      let o1 := is31fl3235a_channel_enable cfg c false s in
      let o2 := is31fl3235a_set_current_scale cfg c scale (snd o1) in
      let o3 := is31fl3235a_channel_enable cfg c true (snd o2) in
      fst o1 = 0 /\ fst o2 = 0 /\ fst o3 = 0
      /\ ctrl_enabled (ctrl_of (snd o3)) = true
      /\ ctrl_scale (ctrl_of (snd o3)) = scale).
Proof.
  intros Hc Hscale Hwf. cbv zeta.
  pose proof (cache_wf_nth _ _ Hwf Hc) as Hb.
  split; [| split].
  - intros enable.
    destruct (channel_enable_byte cfg c s Hc Hwf enable) as [Hcases Hsucc].
    destruct (apply_enable_spec _ enable Hb) as (Hen & Hsc & Hbits).
    split; [| split].
    + intros i Hi. destruct Hcases as [-> | ->]; [reflexivity | apply Hbits, Hi].
    + destruct Hcases as [-> | ->]; [reflexivity | exact Hsc].
    + intros Hr. rewrite (Hsucc Hr). exact Hen.
  - destruct (set_current_scale_byte cfg c s Hc Hwf scale (proj2 Hscale))
      as [Hcases Hsucc].
    destruct (apply_scale_spec _ scale Hb Hscale) as (Hsc & Hen & Hbits).
    split; [| split].
    + intros i Hi1 Hi2.
      destruct Hcases as [-> | ->]; [reflexivity | apply Hbits; assumption].
    + destruct Hcases as [-> | ->]; [reflexivity | exact Hen].
    + intros Hr. rewrite (Hsucc Hr). exact Hsc.
  - intros Hok.
    destruct (channel_enable_ok cfg c s Hc Hwf false Hok) as (Hr1 & Hok1 & Hwf1 & Hb1).
    destruct (set_current_scale_ok cfg c _ Hc Hwf1 scale (proj2 Hscale) Hok1)
      as (Hr2 & Hok2 & Hwf2 & Hb2).
    destruct (channel_enable_ok cfg c _ Hc Hwf2 true Hok2) as (Hr3 & _ & _ & Hb3).
    split; [exact Hr1 |]. split; [exact Hr2 |]. split; [exact Hr3 |].
    rewrite Hb3, Hb2, Hb1.
    assert (Hu1 : is_u8 (apply_enable (nth (Z.to_nat c) (ctrl_cache (data s)) 0) false))
      by apply apply_enable_is_u8.
    assert (Hu2 : is_u8 (apply_scale
                           (apply_enable (nth (Z.to_nat c) (ctrl_cache (data s)) 0) false)
                           scale)) by apply apply_scale_is_u8.
    destruct (apply_enable_spec _ true Hu2) as (Hen & Hsc & _).
    destruct (apply_scale_spec _ scale Hu1 Hscale) as (Hsc2 & _ & _).
    split; [exact Hen |]. rewrite Hsc. exact Hsc2.
Qed.

(** The example of the specification: channel 3, half scale, from the
    zero-initialised data. *)
Lemma scale_enable_independence_witness :
  let o1 := is31fl3235a_channel_enable cfg0 3 false (sys0 []) in
  let o2 := is31fl3235a_set_current_scale cfg0 3 IS31FL3235A_SCALE_1_2X (snd o1) in
  let o3 := is31fl3235a_channel_enable cfg0 3 true (snd o2) in
  ctrl_enabled (nth 3 (ctrl_cache (data (snd o3))) 0) = true
  /\ ctrl_scale (nth 3 (ctrl_cache (data (snd o3))) 0) = IS31FL3235A_SCALE_1_2X.
Proof.
  assert (Hc : 0 <= 3 < IS31FL3235A_NUM_CHANNELS) by (rewrite num_channels_val; lia).
  assert (Hscale : 0 <= IS31FL3235A_SCALE_1_2X <= IS31FL3235A_SCALE_1_4X)
    by (vm_compute; split; discriminate).
  assert (Hwf : cache_wf (ctrl_cache (data (sys0 [])))).
  { split; [reflexivity |]. apply Forall_forall. intros x Hx.
    apply elem_of_replicate in Hx. destruct Hx as [-> _]. unfold is_u8. lia. }
  assert (Hok : transport_ok (plat (sys0 []))) by constructor.
  destruct (scale_enable_independence cfg0 3 IS31FL3235A_SCALE_1_2X (sys0 [])
              Hc Hscale Hwf) as (_ & _ & Hseq).
  destruct (Hseq Hok) as (_ & _ & _ & Hen & Hsc).
  split; [exact Hen | exact Hsc].
Defined.

(** ** C5: the initialisation baseline *)

Lemma init_channels_step (cfg : is31fl3235a_cfg) (todo : nat) (i : Z) (s : system) :
  init_channels cfg (S todo) i s
  = let p1 := i2c_transfer cfg [to_u8 (IS31FL3235A_PWM_REG i); 0] (plat s) in
    if i2c_next (plat s) <? 0 then (Some (i2c_next (plat s)), mk_system (data s) p1)
    else
      let d1 := set_pwm_cache (<[Z.to_nat i := 0]> (pwm_cache (data s))) (data s) in
      let p2 := i2c_transfer cfg
                  [to_u8 (IS31FL3235A_CTRL_REG i); IS31FL3235A_CTRL_ENABLE_1X] p1 in
      if i2c_next p1 <? 0 then (Some (i2c_next p1), mk_system d1 p2)
      else
        init_channels cfg todo (i + 1)
          (mk_system
             (set_ctrl_cache (<[Z.to_nat i := IS31FL3235A_CTRL_ENABLE_1X]> (ctrl_cache d1)) d1)
             p2).
Proof.
  cbn [init_channels]. unfold_helpers. run; reflexivity.
Qed.

Arguments init_channels : simpl never.
Arguments init_sdb_pin : simpl never.

(** What the channel loop leaves when it runs to its end, from channel
    [i] for [todo] channels: both caches filled on that range, the flags
    and the lock as they were, and only PWM and control writes sent. *)
Lemma init_channels_done (cfg : is31fl3235a_cfg) (todo : nat) :
  forall (i : Z) (s s' : system),
    0 <= i -> i + Z.of_nat todo <= IS31FL3235A_NUM_CHANNELS ->
    init_channels cfg todo i s = (None, s') ->
    pwm_cache (data s')
    = list_inserts (Z.to_nat i) (replicate todo 0) (pwm_cache (data s))
    /\ ctrl_cache (data s')
       = list_inserts (Z.to_nat i) (replicate todo IS31FL3235A_CTRL_ENABLE_1X)
           (ctrl_cache (data s))
    /\ initialized (data s') = initialized (data s)
    /\ sw_shutdown (data s') = sw_shutdown (data s)
    /\ hw_shutdown (data s') = hw_shutdown (data s)
    /\ exists t, trace (plat s') = trace (plat s) ++ t /\ trigger_writes t = O.
Proof.
  induction todo as [| todo IH]; intros i s s' Hi Hfit Hrun.
  - cbv in Hrun. injection Hrun as <-. cbn.
    repeat split. exists []. rewrite app_nil_r. split; reflexivity.
  - rewrite init_channels_step in Hrun. cbv zeta in Hrun.
    assert (Hch : 0 <= i < IS31FL3235A_NUM_CHANNELS) by lia.
    rewrite (pwm_reg_u8 i Hch), (ctrl_reg_u8 i Hch) in Hrun.
    destruct (i2c_next (plat s) <? 0); [discriminate |].
    destruct (i2c_next (i2c_transfer cfg _ (plat s)) <? 0); [discriminate |].
    apply IH in Hrun; [| lia | lia].
    cbn [data plat pwm_cache ctrl_cache set_pwm_cache set_ctrl_cache initialized
         sw_shutdown hw_shutdown] in Hrun.
    destruct Hrun as (Hpwm & Hctrl & Hini & Hsw & Hhw & t & Ht & Hcount).
    replace (Z.to_nat (i + 1)) with (S (Z.to_nat i)) in Hpwm, Hctrl by lia.
    split; [rewrite Hpwm; cbn [replicate list_inserts];
            symmetry; apply list_insert_inserts_lt; lia |].
    split; [rewrite Hctrl; cbn [replicate list_inserts];
            symmetry; apply list_insert_inserts_lt; lia |].
    split; [exact Hini |]. split; [exact Hsw |]. split; [exact Hhw |].
    rewrite !trace_transfer, <- !app_assoc in Ht.
    eexists. split; [exact Ht |].
    rewrite !trigger_writes_app, !trigger_writes_cons, trigger_writes_nil, Hcount.
    cbn [writes_to].
    rewrite (proj1 (pwm_reg_plain i Hch)), (proj1 (ctrl_reg_plain i Hch)).
    reflexivity.
Qed.

(** With a succeeding transport the loop does run to its end. *)
Lemma init_channels_runs (cfg : is31fl3235a_cfg) (todo : nat) :
  forall (i : Z) (s : system),
    transport_ok (plat s) ->
    exists s', init_channels cfg todo i s = (None, s') /\ transport_ok (plat s').
Proof.
  induction todo as [| todo IH]; intros i s Hok.
  - exists s. split; [reflexivity | exact Hok].
  - rewrite init_channels_step. cbv zeta.
    rewrite (proj2 (Z.ltb_ge _ 0) (transport_ok_next _ Hok)).
    rewrite (proj2 (Z.ltb_ge _ 0)
               (transport_ok_next _ (transport_ok_transfer cfg _ _ Hok))).
    apply IH. cbn [plat]. apply transport_ok_transfer, transport_ok_transfer, Hok.
Qed.

(** The pin block sends nothing on the bus, keeps the caches and the
    [initialized] and [sw_shutdown] flags, and returns early only with a
    negative code. *)
Lemma init_sdb_pin_frame (cfg : is31fl3235a_cfg) (s : system) :
  let out := init_sdb_pin cfg s in
  match fst out with Some r => r < 0 | None => True end
  /\ caches (data (snd out)) = caches (data s)
  /\ initialized (data (snd out)) = initialized (data s)
  /\ sw_shutdown (data (snd out)) = sw_shutdown (data s)
  /\ i2c_results (plat (snd out)) = i2c_results (plat s)
  /\ exists t, trace (plat (snd out)) = trace (plat s) ++ t /\ trigger_writes t = O.
Proof.
  unfold init_sdb_pin, gpio_device_is_ready.
  assert (Hnodev : - ENODEV < 0) by (unfold ENODEV; lia).
  destruct (sdb_gpio_port cfg); [destruct (sdb_port_ready (plat s)) eqn:Hready |];
    unfold_helpers; cbn; rewrite ?Hready; run;
    repeat (split; [first [assumption | reflexivity | exact I] |]);
    eexists; rewrite <- ?app_assoc;
    (split; [first [reflexivity | symmetry; apply app_nil_r] | reflexivity]).
Qed.

(** The loop returns early only with a negative code. *)
Lemma init_channels_early (cfg : is31fl3235a_cfg) (todo : nat) :
  forall (i : Z) (s s' : system) (r : Z),
    init_channels cfg todo i s = (Some r, s') -> r < 0.
Proof.
  induction todo as [| todo IH]; intros i s s' r Hrun.
  - discriminate.
  - rewrite init_channels_step in Hrun. cbv zeta in Hrun.
    destruct (Z.ltb_spec (i2c_next (plat s)) 0) as [Hneg | _];
      [injection Hrun as <- _; exact Hneg |].
    destruct (Z.ltb_spec (i2c_next (i2c_transfer cfg
                [to_u8 (IS31FL3235A_PWM_REG i); 0] (plat s))) 0) as [Hneg | _];
      [injection Hrun as <- _; exact Hneg |].
    apply IH in Hrun. exact Hrun.
Qed.

Lemma fill_all (l : list Z) (v : Z) :
  list_inserts 0 (replicate (length l) v) l = replicate (length l) v.
Proof.
  rewrite <- (app_nil_r l) at 2. rewrite list_inserts_0_r.
  - apply app_nil_r.
  - apply length_replicate.
Qed.
(** C5: when the initialisation sequence returns 0, both caches hold the
    baseline on all 28 channels (brightness 0; control byte enabled with
    full current scale), [sw_shutdown] is false, [initialized] is true,
    and the bus writes of the whole sequence contain exactly one write to
    the Update register. *)
Theorem init_baseline (cfg : is31fl3235a_cfg) (s s' : system) :
  length (pwm_cache (data s)) = Z.to_nat IS31FL3235A_NUM_CHANNELS ->
  length (ctrl_cache (data s)) = Z.to_nat IS31FL3235A_NUM_CHANNELS ->
  is31fl3235a_init cfg s = (0, s') ->
  pwm_cache (data s') = replicate (Z.to_nat IS31FL3235A_NUM_CHANNELS) 0
  /\ ctrl_cache (data s')
     = replicate (Z.to_nat IS31FL3235A_NUM_CHANNELS) IS31FL3235A_CTRL_ENABLE_1X
  /\ (forall i : nat, (i < Z.to_nat IS31FL3235A_NUM_CHANNELS)%nat ->
        pwm_cache (data s') !! i = Some 0
        /\ exists b, ctrl_cache (data s') !! i = Some b
                     /\ ctrl_enabled b = true
                     /\ ctrl_scale b = IS31FL3235A_SCALE_1X)
  /\ sw_shutdown (data s') = false
  /\ initialized (data s') = true
  /\ exists t, trace (plat s') = trace (plat s) ++ t /\ trigger_writes t = 1%nat.
Proof.
  intros Hlp Hlc Hrun.
  assert (Hmain :
    pwm_cache (data s') = replicate (Z.to_nat IS31FL3235A_NUM_CHANNELS) 0
    /\ ctrl_cache (data s')
       = replicate (Z.to_nat IS31FL3235A_NUM_CHANNELS) IS31FL3235A_CTRL_ENABLE_1X
    /\ sw_shutdown (data s') = false
    /\ initialized (data s') = true
    /\ exists t, trace (plat s') = trace (plat s) ++ t /\ trigger_writes t = 1%nat).
  { revert Hrun.
    unfold is31fl3235a_init, i2c_device_is_ready. unfold_helpers.
    cbn [data plat fst snd].
    destruct (i2c_bus_ready (plat s)); cbn [negb]; [| intros [= ?]; discriminate].
    match goal with
    | |- context [init_sdb_pin cfg ?x] =>
        pose proof (init_sdb_pin_frame cfg x) as Hpin;
        destruct (init_sdb_pin cfg x) as [early s1]
    end.
    cbn [fst snd data plat caches pwm_cache ctrl_cache set_lock] in Hpin.
    destruct Hpin as (Hearly & Hcaches & _ & _ & _ & t1 & Ht1 & Hn1).
    injection Hcaches as Hp1 Hc1.
    destruct early as [r |];
      [intros Hrun; apply pair_equal_spec in Hrun; lia |].
    run; try (intros Hrun; apply pair_equal_spec in Hrun; lia).
    match goal with
    | |- context [init_channels cfg ?n ?i ?x] =>
        pose proof (init_channels_done cfg n i x) as Hdone;
        pose proof (init_channels_early cfg n i x) as Hstop;
        destruct (init_channels cfg n i x) as [early s2]
    end.
    destruct early as [r |].
    { intros Hrun; apply pair_equal_spec in Hrun. destruct Hrun as [-> _].
      specialize (Hstop _ _ eq_refl). lia. }
    clear Hstop.
    specialize (Hdone s2 ltac:(lia) ltac:(rewrite num_channels_val; lia) eq_refl).
    cbn [data plat pwm_cache ctrl_cache set_sw_shutdown initialized sw_shutdown
         hw_shutdown] in Hdone.
    destruct Hdone as (Hpwm & Hctrl & _ & Hsw & _ & t2 & Ht2 & Hn2).
    run; try (intros Hrun; apply pair_equal_spec in Hrun; lia).
    intros Hrun; apply pair_equal_spec in Hrun. destruct Hrun as [_ <-].
    cbn [data plat pwm_cache ctrl_cache set_initialized initialized sw_shutdown].
    change (Z.to_nat 0) with O in Hpwm, Hctrl.
    split; [rewrite Hpwm, Hp1, <- Hlp; apply fill_all |].
    split; [rewrite Hctrl, Hc1, <- Hlc; apply fill_all |].
    split; [exact Hsw |]. split; [reflexivity |].
    rewrite trace_transfer, Ht2, !trace_transfer. cbn [trace log_event].
    rewrite trace_transfer, Ht1, <- !app_assoc.
    eexists. split; [reflexivity |].
    rewrite !trigger_writes_app, Hn1, Hn2, !trigger_writes_cons, trigger_writes_nil.
    reflexivity. }
  destruct Hmain as (Hpwm & Hctrl & Hsw & Hini & Htrace).
  split; [exact Hpwm |]. split; [exact Hctrl |].
  split; [| split; [exact Hsw | split; [exact Hini | exact Htrace]]].
  intros i Hi. rewrite Hpwm, Hctrl. split.
  - apply lookup_replicate_2. exact Hi.
  - exists IS31FL3235A_CTRL_ENABLE_1X.
    split; [apply lookup_replicate_2; exact Hi | split; reflexivity].
Qed.

(** A ready platform with a succeeding transport and pin does initialise. *)
Lemma init_succeeds (cfg : is31fl3235a_cfg) (s : system) :
  i2c_bus_ready (plat s) = true ->
  sdb_port_ready (plat s) = true ->
  transport_ok (plat s) ->
  Forall (fun r => 0 <= r) (gpio_results (plat s)) ->
  fst (is31fl3235a_init cfg s) = 0.
Proof.
  intros Hbus Hport Hok Hgpio.
  unfold is31fl3235a_init, i2c_device_is_ready. unfold_helpers.
  cbn [data plat fst snd]. rewrite Hbus. cbn [negb].
  match goal with
  | |- context [init_sdb_pin cfg ?x] =>
      pose proof (init_sdb_pin_frame cfg x) as Hpin;
      assert (Hnone : fst (init_sdb_pin cfg x) = None);
      [| destruct (init_sdb_pin cfg x) as [early s1]]
  end.
  { assert (Hg : 0 <= hd 0 (gpio_results (plat s))
                 /\ 0 <= hd 0 (tail (gpio_results (plat s)))).
    { destruct (gpio_results (plat s)) as [| g1 [| g2 rest]]; cbn;
        [lia | inversion Hgpio; lia |].
      inversion Hgpio as [| ? ? Hg1 Hrest]; inversion Hrest; lia. }
    destruct Hg as [Hg1 Hg2].
    unfold init_sdb_pin, gpio_device_is_ready. unfold_helpers.
    destruct (sdb_gpio_port cfg); [| reflexivity].
    cbn. rewrite Hport. run; try lia; reflexivity. }
  cbn [fst snd plat] in Hpin, Hnone. subst early.
  destruct Hpin as (_ & _ & _ & _ & Hres & _).
  assert (Hok1 : transport_ok (plat s1)) by (unfold transport_ok; rewrite Hres; exact Hok).
  clear Hres.
  pose proof (transport_ok_next _ Hok1) as Hr1.
  assert (Hok2 : transport_ok
                   (log_event (EvSleep IS31FL3235A_RESET_DELAY_MS)
                      (i2c_transfer cfg
                         [IS31FL3235A_REG_RESET; IS31FL3235A_RESET_TRIGGER] (plat s1))))
    by (exact (transport_ok_transfer cfg _ _ Hok1)).
  pose proof (transport_ok_next _ Hok2) as Hr2.
  pose proof (transport_ok_transfer cfg
                [IS31FL3235A_REG_SHUTDOWN; IS31FL3235A_SHUTDOWN_NORMAL] _ Hok2) as Hok3.
  pose proof (transport_ok_next _ Hok3) as Hr3.
  pose proof (transport_ok_transfer cfg
                [IS31FL3235A_REG_FREQ;
                 if pwm_freq_22khz cfg then IS31FL3235A_FREQ_22KHZ
                 else IS31FL3235A_FREQ_3KHZ] _ Hok3) as Hok4.
  run; try lia.
  match goal with
  | |- context [init_channels cfg ?n ?i ?x] =>
      destruct (init_channels_runs cfg n i x Hok4) as (s2 & Hloop & Hok5);
      rewrite Hloop
  end.
  pose proof (transport_ok_next _ Hok5) as Hr5.
  run; first [lia | reflexivity].
Qed.

Lemma init_baseline_witness :
  fst (is31fl3235a_init cfg_sdb (sys0 [])) = 0
  /\ pwm_cache (data (snd (is31fl3235a_init cfg_sdb (sys0 [])))) = replicate 28 0
  /\ initialized (data (snd (is31fl3235a_init cfg_sdb (sys0 [])))) = true
  /\ exists t,
       trace (plat (snd (is31fl3235a_init cfg_sdb (sys0 [])))) = [] ++ t
       /\ trigger_writes t = 1%nat.
Proof.
  assert (Hret : fst (is31fl3235a_init cfg_sdb (sys0 [])) = 0).
  { apply init_succeeds; [reflexivity | reflexivity | constructor | constructor]. }
  assert (Hrun : is31fl3235a_init cfg_sdb (sys0 [])
                 = (0, snd (is31fl3235a_init cfg_sdb (sys0 [])))).
  { rewrite <- Hret. apply surjective_pairing. }
  destruct (init_baseline cfg_sdb (sys0 []) _ eq_refl eq_refl Hrun)
    as (Hpwm & _ & _ & _ & Hini & Htrace).
  split; [exact Hret |]. split; [exact Hpwm |]. split; [exact Hini | exact Htrace].
Defined.

(** ** C1: the caches after a failed operation *)

Section ErrorOutcomes.

Variables (cfg : is31fl3235a_cfg) (msg : list Z)
          (commit : is31fl3235a_data -> is31fl3235a_data) (s : system).

Lemma rejected_error_outcome (out : Z * system) :
  snd out = s ->
  error_keeps_or_commits cfg msg commit s out /\ data_failure_keeps s out.
Proof.
  intros Hs. unfold error_keeps_or_commits, data_failure_keeps.
  rewrite Hs.
  split; [intros _; left; split; [| left]; reflexivity | intros _; reflexivity].
Qed.

Lemma write_commit_trigger_error :
  error_keeps_or_commits cfg msg commit s (write_commit_trigger cfg msg commit s)
  /\ data_failure_keeps s (write_commit_trigger cfg msg commit s).
Proof.
  unfold error_keeps_or_commits, data_failure_keeps, write_commit_trigger.
  cbv zeta.
  destruct (Z.ltb_spec (i2c_next (plat s)) 0) as [Hfail | Hsucc]; cbn [fst snd data plat].
  - split; [| intros _; reflexivity].
    intros _. left. split; [reflexivity |]. right. apply trace_transfer.
  - split; [| lia].
    destruct (Z.ltb_spec (i2c_next (i2c_transfer cfg msg (plat s))) 0)
      as [Htrig | Hdone]; [| lia].
    intros _. right. exists (i2c_next (plat s)).
    split; [exact Hsucc |]. split; [| reflexivity].
    rewrite !trace_transfer, <- app_assoc. reflexivity.
Qed.

Lemma write_commit_error :
  error_keeps s (write_commit cfg msg commit s).
Proof.
  unfold error_keeps, write_commit. cbv zeta.
  destruct (Z.ltb_spec (i2c_next (plat s)) 0) as [Hfail | Hsucc]; cbn [fst snd data plat].
  - intros _. reflexivity.
  - lia.
Qed.

Lemma write_commit_trigger_failures :
  failure_outcomes cfg msg commit s (write_commit_trigger cfg msg commit s).
Proof.
  unfold failure_outcomes, write_commit_trigger. cbv zeta.
  destruct (Z.ltb_spec (i2c_next (plat s)) 0) as [Hfail | Hsucc]; cbn [fst snd data plat].
  - split; [intros _ | lia].
    split; [reflexivity |]. split; [reflexivity | apply trace_transfer].
  - split; [lia | intros _ Htrig].
    destruct (Z.ltb_spec (i2c_next (i2c_transfer cfg msg (plat s))) 0)
      as [_ | Hdone]; [| lia].
    split; [reflexivity |]. split; [exact Htrig |]. split; [reflexivity |].
    rewrite !trace_transfer, <- app_assoc. reflexivity.
Qed.

Lemma write_commit_failures :
  staged_failure_outcomes cfg msg s (write_commit cfg msg commit s).
Proof.
  unfold staged_failure_outcomes, write_commit. cbv zeta.
  destruct (Z.ltb_spec (i2c_next (plat s)) 0) as [Hfail | Hsucc]; cbn [fst snd data plat].
  - split; [intros _ | lia].
    split; [reflexivity |]. split; [reflexivity | apply trace_transfer].
  - split; [lia | intros _; reflexivity].
Qed.

End ErrorOutcomes.

(** How the single-channel operations turn down a channel index. *)
Lemma channel_rejected (cfg : is31fl3235a_cfg) (channel : Z) (s : system) :
  IS31FL3235A_NUM_CHANNELS <= channel ->
  (forall v, is31fl3235a_led_set_brightness cfg channel v s = (- EINVAL, s))
  /\ (forall v, is31fl3235a_set_brightness_no_update cfg channel v s = (- EINVAL, s))
  /\ (forall scale, is31fl3235a_set_current_scale cfg channel scale s = (- EINVAL, s))
  /\ (forall enable, is31fl3235a_channel_enable cfg channel enable s = (- EINVAL, s))
  /\ (forall num enable,
        is31fl3235a_channels_enable cfg channel num enable s = (- EINVAL, s))
  /\ (forall num buf,
        is31fl3235a_led_write_channels cfg channel num buf s = (- EINVAL, s))
  /\ (forall num buf,
        is31fl3235a_write_channels_no_update cfg channel num buf s = (- EINVAL, s)).
Proof.
  intros Hge. unfold_ops.
  destruct (Z.geb_spec channel IS31FL3235A_NUM_CHANNELS) as [_ | Hlt]; [| lia].
  repeat split.
Qed.

(** C1 as stated fails: on channel 0 with a transport that accepts the
    PWM write and fails the trigger write with -5, [set_brightness]
    returns -5 although [pwm_cache[0]] has changed from 0 to 7. *)
Lemma transport_error_cache_counterexample :
  fst (is31fl3235a_led_set_brightness cfg0 0 7 (sys0 [0; -5])) = -5
  /\ trace (plat (snd (is31fl3235a_led_set_brightness cfg0 0 7 (sys0 [0; -5]))))
     = [EvI2cWrite 0x3C [0x05; 7] 0; EvI2cWrite 0x3C [0x25; 0x00] (-5)]
  /\ pwm_cache (data (sys0 [0; -5])) !! 0%nat = Some 0
  /\ pwm_cache (data (snd (is31fl3235a_led_set_brightness cfg0 0 7 (sys0 [0; -5]))))
       !! 0%nat = Some 7
  /\ caches (data (snd (is31fl3235a_led_set_brightness cfg0 0 7 (sys0 [0; -5]))))
     <> caches (data (sys0 [0; -5])).
Proof.
  split; [reflexivity |]. split; [reflexivity |]. split; [reflexivity |].
  split; [reflexivity |]. vm_compute. discriminate.
Qed.

(** C1, amended: when one of the five operations that write, update the
    cache and trigger returns an error, both caches are as before the
    call, unless the data write succeeded and only the trigger write
    failed: then the error returned is the trigger's and the caches hold
    the data just written.  In particular the caches are as before
    whenever the data write itself fails.  The two no-update variants
    have no trigger write: any error leaves the caches as before.

    The failures do occur as described ([failure_outcomes]): on accepted
    arguments, a failing data write makes the operation return that
    write's code with the caches as before and no trigger sent; a
    succeeding data write followed by a failing trigger write makes it
    return the trigger's code, an error, with the caches holding the
    data just written.  For the no-update variants the failing data
    write is returned with the caches as before, and no other error
    arises ([staged_failure_outcomes]). *)
Theorem transport_error_cache_state (cfg : is31fl3235a_cfg) (s : system) :
  (forall led value, is_u32 led ->
     let msg := [IS31FL3235A_REG_PWM_BASE + led; value] in
     let commit :=
       fun d => set_pwm_cache (<[Z.to_nat led := value]> (pwm_cache d)) d in
     let out := is31fl3235a_led_set_brightness cfg led value s in
     (error_keeps_or_commits cfg msg commit s out /\ data_failure_keeps s out)
     /\ (led < IS31FL3235A_NUM_CHANNELS -> failure_outcomes cfg msg commit s out))
  /\ (forall start num buf, is_u32 start -> is_u32 num ->
        let msg := IS31FL3235A_REG_PWM_BASE + start :: take (Z.to_nat num) buf in
        let commit :=
          fun d => set_pwm_cache (memcpy (pwm_cache d) start buf num) d in
        let out := is31fl3235a_led_write_channels cfg start num buf s in
        (error_keeps_or_commits cfg msg commit s out /\ data_failure_keeps s out)
        /\ (start < IS31FL3235A_NUM_CHANNELS ->
            start + num <= IS31FL3235A_NUM_CHANNELS ->
            failure_outcomes cfg msg commit s out))
  /\ (forall channel scale, is_u8 channel ->
        let ctrl_val :=
          apply_scale (nth (Z.to_nat channel) (ctrl_cache (data s)) 0) scale in
        let msg := [IS31FL3235A_REG_CTRL_BASE + channel; ctrl_val] in
        let commit :=
          fun d => set_ctrl_cache (<[Z.to_nat channel := ctrl_val]> (ctrl_cache d)) d in
        let out := is31fl3235a_set_current_scale cfg channel scale s in
        (error_keeps_or_commits cfg msg commit s out /\ data_failure_keeps s out)
        /\ (channel < IS31FL3235A_NUM_CHANNELS -> scale <= IS31FL3235A_SCALE_1_4X ->
            failure_outcomes cfg msg commit s out))
  /\ (forall channel enable, is_u8 channel ->
        let ctrl_val :=
          apply_enable (nth (Z.to_nat channel) (ctrl_cache (data s)) 0) enable in
        let msg := [IS31FL3235A_REG_CTRL_BASE + channel; ctrl_val] in
        let commit :=
          fun d => set_ctrl_cache (<[Z.to_nat channel := ctrl_val]> (ctrl_cache d)) d in
        let out := is31fl3235a_channel_enable cfg channel enable s in
        (error_keeps_or_commits cfg msg commit s out /\ data_failure_keeps s out)
        /\ (channel < IS31FL3235A_NUM_CHANNELS ->
            failure_outcomes cfg msg commit s out))
  /\ (forall start num enable, is_u8 start -> is_u8 num ->
        let ctrl_buf :=
          build_ctrl_buf (ctrl_cache (data s)) start enable (Z.to_nat num) 0
            (replicate (Z.to_nat IS31FL3235A_NUM_CHANNELS) 0) in
        let msg :=
          IS31FL3235A_REG_CTRL_BASE + start :: take (Z.to_nat num) ctrl_buf in
        let commit :=
          fun d => set_ctrl_cache (memcpy (ctrl_cache d) start ctrl_buf num) d in
        let out := is31fl3235a_channels_enable cfg start num enable s in
        (error_keeps_or_commits cfg msg commit s out /\ data_failure_keeps s out)
        /\ (start < IS31FL3235A_NUM_CHANNELS ->
            start + num <= IS31FL3235A_NUM_CHANNELS ->
            failure_outcomes cfg msg commit s out))
  /\ (forall led value, is_u32 led ->
        let out := is31fl3235a_set_brightness_no_update cfg led value s in
        error_keeps s out
        /\ (led < IS31FL3235A_NUM_CHANNELS ->
            staged_failure_outcomes cfg [IS31FL3235A_REG_PWM_BASE + led; value] s out))
  /\ (forall start num buf, is_u32 start -> is_u32 num ->
        let out := is31fl3235a_write_channels_no_update cfg start num buf s in
        error_keeps s out
        /\ (start < IS31FL3235A_NUM_CHANNELS ->
            start + num <= IS31FL3235A_NUM_CHANNELS ->
            staged_failure_outcomes cfg
              (IS31FL3235A_REG_PWM_BASE + start :: take (Z.to_nat num) buf) s out)).
Proof.
  repeat apply conj.
  - intros led value [Hlo _]. cbv zeta.
    destruct (Z.le_gt_cases IS31FL3235A_NUM_CHANNELS led) as [Hge | Hlt].
    + split; [| lia].
      destruct (channel_rejected cfg led s Hge) as (Hrej & _).
      apply rejected_error_outcome. rewrite Hrej. reflexivity.
    + rewrite set_brightness_run by lia.
      split; [apply write_commit_trigger_error |].
      intros _. apply write_commit_trigger_failures.
  - intros start num buf Hs Hn. cbv zeta.
    destruct (Z.le_gt_cases IS31FL3235A_NUM_CHANNELS start) as [Hge | Hlt].
    { split; [| lia].
      destruct (channel_rejected cfg start s Hge) as (_ & _ & _ & _ & _ & Hrej & _).
      apply rejected_error_outcome. rewrite Hrej. reflexivity. }
    destruct (Z.le_gt_cases (start + num) IS31FL3235A_NUM_CHANNELS) as [Hfit | Hover].
    + destruct Hs as [Hs0 _]. destruct Hn as [Hn0 _].
      rewrite write_channels_run by lia.
      split; [apply write_commit_trigger_error |].
      intros _ _. apply write_commit_trigger_failures.
    + split; [| lia].
      destruct (write_channels_out_of_range cfg start num buf s Hs Hn) as [Hrej _];
        [lia |].
      apply rejected_error_outcome. rewrite Hrej. reflexivity.
  - intros channel scale [Hlo _]. cbv zeta.
    destruct (Z.le_gt_cases IS31FL3235A_NUM_CHANNELS channel) as [Hge | Hlt].
    { split; [| lia].
      destruct (channel_rejected cfg channel s Hge) as (_ & _ & Hrej & _).
      apply rejected_error_outcome. rewrite Hrej. reflexivity. }
    destruct (Z.le_gt_cases scale IS31FL3235A_SCALE_1_4X) as [Hscale | Hbig].
    + rewrite set_current_scale_run by lia.
      split; [apply write_commit_trigger_error |].
      intros _ _. apply write_commit_trigger_failures.
    + split; [| lia].
      apply rejected_error_outcome. unfold is31fl3235a_set_current_scale.
      destruct (Z.geb_spec channel IS31FL3235A_NUM_CHANNELS); [lia |].
      rewrite Z.gtb_ltb, (proj2 (Z.ltb_lt _ scale) Hbig). reflexivity.
  - intros channel enable [Hlo _]. cbv zeta.
    destruct (Z.le_gt_cases IS31FL3235A_NUM_CHANNELS channel) as [Hge | Hlt].
    + split; [| lia].
      destruct (channel_rejected cfg channel s Hge) as (_ & _ & _ & Hrej & _).
      apply rejected_error_outcome. rewrite Hrej. reflexivity.
    + rewrite channel_enable_run by lia.
      split; [apply write_commit_trigger_error |].
      intros _. apply write_commit_trigger_failures.
  - intros start num enable [Hs0 _] [Hn0 _]. cbv zeta.
    destruct (Z.le_gt_cases IS31FL3235A_NUM_CHANNELS start) as [Hge | Hlt].
    { split; [| lia].
      destruct (channel_rejected cfg start s Hge) as (_ & _ & _ & _ & Hrej & _).
      apply rejected_error_outcome. rewrite Hrej. reflexivity. }
    destruct (Z.le_gt_cases (start + num) IS31FL3235A_NUM_CHANNELS) as [Hfit | Hover].
    + rewrite channels_enable_run by lia.
      split; [apply write_commit_trigger_error |].
      intros _ _. apply write_commit_trigger_failures.
    + split; [| lia].
      apply rejected_error_outcome. unfold is31fl3235a_channels_enable.
      destruct (Z.geb_spec start IS31FL3235A_NUM_CHANNELS); [lia |].
      rewrite Z.gtb_ltb, (proj2 (Z.ltb_lt _ (start + num)) Hover). reflexivity.
  - intros led value [Hlo _]. cbv zeta.
    destruct (Z.le_gt_cases IS31FL3235A_NUM_CHANNELS led) as [Hge | Hlt].
    + split; [| lia].
      destruct (channel_rejected cfg led s Hge) as (_ & Hrej & _).
      rewrite Hrej. intros _. reflexivity.
    + rewrite set_brightness_no_update_run by lia.
      split; [apply write_commit_error |].
      intros _. apply write_commit_failures.
  - intros start num buf Hs Hn. cbv zeta.
    destruct (Z.le_gt_cases IS31FL3235A_NUM_CHANNELS start) as [Hge | Hlt].
    { split; [| lia].
      destruct (channel_rejected cfg start s Hge) as (_ & _ & _ & _ & _ & _ & Hrej).
      rewrite Hrej. intros _. reflexivity. }
    destruct (Z.le_gt_cases (start + num) IS31FL3235A_NUM_CHANNELS) as [Hfit | Hover].
    + destruct Hs as [Hs0 _]. destruct Hn as [Hn0 _].
      rewrite write_channels_no_update_run by lia.
      split; [apply write_commit_error |].
      intros _ _. apply write_commit_failures.
    + split; [| lia].
      destruct (write_channels_out_of_range cfg start num buf s Hs Hn) as [_ Hrej];
        [lia |].
      rewrite Hrej. intros _. reflexivity.
Qed.

(** The case the amendment is about, run: on channel 0 the data write
    succeeds, the trigger write fails with -5; -5 is returned and
    [pwm_cache[0]] holds the 7 just written.  And the data write failing
    with -5 on the same call: -5 is returned with the caches untouched. *)
Lemma transport_error_cache_state_witness :
  (fst (is31fl3235a_led_set_brightness cfg0 0 7 (sys0 [0; -5])) = -5
   /\ caches (data (snd (is31fl3235a_led_set_brightness cfg0 0 7 (sys0 [0; -5]))))
      = (<[0%nat := 7]> (replicate 28 0), replicate 28 0))
  /\ (fst (is31fl3235a_led_set_brightness cfg0 0 7 (sys0 [-5])) = -5
      /\ caches (data (snd (is31fl3235a_led_set_brightness cfg0 0 7 (sys0 [-5]))))
         = caches (data (sys0 [-5]))).
Proof.
  assert (Hled : is_u32 0) by (unfold is_u32; lia).
  assert (Hacc : 0 < IS31FL3235A_NUM_CHANNELS) by reflexivity.
  split.
  - destruct (transport_error_cache_state cfg0 (sys0 [0; -5])) as (Hset & _).
    destruct (Hset 0 7 Hled) as (_ & Hout).
    destruct (Hout Hacc) as (_ & Htrig).
    destruct Htrig as (Hret & _ & Hcaches & _);
      [vm_compute; discriminate | reflexivity |].
    split; [exact Hret | exact Hcaches].
  - destruct (transport_error_cache_state cfg0 (sys0 [-5])) as (Hset & _).
    destruct (Hset 0 7 Hled) as (_ & Hout).
    destruct (Hout Hacc) as (Hdata & _).
    destruct Hdata as (Hret & Hcaches & _); [reflexivity |].
    split; [exact Hret | exact Hcaches].
Defined.

(** * Further properties of the driver *)

(** ** Proof support *)

(** Split on every test the code makes, reusing the outcome of a test
    that comes up again. *)
Ltac reuse_tests :=
  repeat match goal with
         | E : ?c = true |- context [if ?c then _ else _] => rewrite E
         | E : ?c = false |- context [if ?c then _ else _] => rewrite E
         end.

Ltac split_ifs :=
  cbn;
  repeat (first [ progress reuse_tests
                | match goal with
                  | |- context [if ?c then _ else _] =>
                      let E := fresh "Etest" in destruct c eqn:E
                  end ];
          cbn).

(** ** The state outside the caches *)

(** X3: the eight operations on the caches and the trigger leave the
    lock count and the three flags of the runtime data as they were, for
    all arguments and whatever the transport answers: the mutex is
    released on every path and no flag is touched. *)
Theorem cache_operations_frame (cfg : is31fl3235a_cfg) (s : system) :
  (forall led value,
      outside_caches (data (snd (is31fl3235a_led_set_brightness cfg led value s)))
      = outside_caches (data s))
  /\ (forall start num buf,
        outside_caches (data (snd (is31fl3235a_led_write_channels cfg start num buf s)))
        = outside_caches (data s))
  /\ (forall channel scale,
        outside_caches (data (snd (is31fl3235a_set_current_scale cfg channel scale s)))
        = outside_caches (data s))
  /\ (forall channel enable,
        outside_caches (data (snd (is31fl3235a_channel_enable cfg channel enable s)))
        = outside_caches (data s))
  /\ (forall start num enable,
        outside_caches (data (snd (is31fl3235a_channels_enable cfg start num enable s)))
        = outside_caches (data s))
  /\ outside_caches (data (snd (is31fl3235a_update cfg s))) = outside_caches (data s)
  /\ (forall led value,
        outside_caches (data (snd (is31fl3235a_set_brightness_no_update cfg led value s)))
        = outside_caches (data s))
  /\ (forall start num buf,
        outside_caches
          (data (snd (is31fl3235a_write_channels_no_update cfg start num buf s)))
        = outside_caches (data s)).
Proof.
  repeat apply conj; intros; unfold_ops; unfold_helpers; unfold outside_caches;
    split_ifs; reflexivity.
Qed.

(** ** Invariants of the caches *)

Lemma Forall_list_inserts (P : Z -> Prop) (k l : list Z) :
  forall i : nat, Forall P l -> Forall P k -> Forall P (list_inserts i k l).
Proof.
  induction k as [| y k IH]; intros i Hl Hk; cbn; [exact Hl |].
  inversion Hk as [| ? ? Hy Hk']; subst.
  apply Forall_insert; [apply IH; assumption | exact Hy].
Qed.

Lemma Forall_memcpy (P : Z -> Prop) (cache buf : list Z) (start n : Z) :
  Forall P cache -> Forall P buf -> Forall P (memcpy cache start buf n).
Proof.
  intros Hc Hb. unfold memcpy. apply Forall_list_inserts; [exact Hc |].
  apply Forall_take. exact Hb.
Qed.

Lemma Forall_build_ctrl_buf (P : Z -> Prop) (cache : list Z) (start_channel : Z)
    (enable : list bool) (todo : nat) :
  (forall (j : nat) e, P (apply_enable (nth j cache 0) e)) ->
  forall (i : Z) (ctrl_buf : list Z),
    Forall P ctrl_buf ->
    Forall P (build_ctrl_buf cache start_channel enable todo i ctrl_buf).
Proof.
  intros HP. induction todo as [| todo IH]; intros i ctrl_buf Hbuf; cbn;
    [exact Hbuf |].
  apply IH. apply Forall_insert; [exact Hbuf | apply HP].
Qed.

(** Whatever [is31fl3235a_init] does to the caches is a series of
    assignments of 0 to cells of [pwm_cache] and of "enabled, full
    scale" to cells of [ctrl_cache]. *)
Section InitInvariant.

Variable P : list Z -> list Z -> Prop.
Hypothesis Hpwm : forall p c (i : nat), P p c -> P (<[i := 0]> p) c.
Hypothesis Hctrl :
  forall p c (i : nat), P p c -> P p (<[i := IS31FL3235A_CTRL_ENABLE_1X]> c).

Let holds (s : system) : Prop := P (pwm_cache (data s)) (ctrl_cache (data s)).

Lemma init_channels_invariant (cfg : is31fl3235a_cfg) (todo : nat) :
  forall (i : Z) (s : system),
    holds s -> holds (snd (init_channels cfg todo i s)).
Proof.
  unfold holds. induction todo as [| todo IH]; intros i s Hs; [exact Hs |].
  rewrite init_channels_step. cbv zeta.
  destruct (i2c_next (plat s) <? 0); [exact Hs |].
  destruct (i2c_next (i2c_transfer cfg _ (plat s)) <? 0).
  - cbn. apply Hpwm. exact Hs.
  - apply IH. cbn. apply Hctrl, Hpwm. exact Hs.
Qed.

Lemma init_invariant (cfg : is31fl3235a_cfg) (s : system) :
  holds s -> holds (snd (is31fl3235a_init cfg s)).
Proof.
  unfold holds. intros Hs.
  unfold is31fl3235a_init, i2c_device_is_ready. unfold_helpers.
  cbn [data plat fst snd].
  destruct (i2c_bus_ready (plat s)); cbn [negb]; [| exact Hs].
  match goal with
  | |- context [init_sdb_pin cfg ?x] =>
      pose proof (init_sdb_pin_frame cfg x) as Hpin;
      destruct (init_sdb_pin cfg x) as [early s1]
  end.
  cbn [fst snd data plat caches pwm_cache ctrl_cache set_lock] in Hpin.
  destruct Hpin as (_ & Hcaches & _).
  injection Hcaches as Hp1 Hc1. rewrite <- Hp1, <- Hc1 in Hs. clear Hp1 Hc1.
  destruct early as [r |]; [exact Hs |].
  split_ifs; try exact Hs;
    match goal with
    | |- context [init_channels cfg ?n ?i ?x] =>
        pose proof (init_channels_invariant cfg n i x Hs) as Hloop;
        destruct (init_channels cfg n i x) as [early s2]
    end;
    cbn [snd] in Hloop; (destruct early as [r |]; [exact Hloop |]);
    split_ifs; exact Hloop.
Qed.

End InitInvariant.

Lemma apply_enable_reserved (b : Z) (enable : bool) :
  0 <= b < 8 -> 0 <= apply_enable b enable < 8.
Proof.
  intros Hb.
  assert (Hcases : b = 0 \/ b = 1 \/ b = 2 \/ b = 3 \/ b = 4 \/ b = 5 \/ b = 6 \/ b = 7)
    by lia.
  destruct enable;
    destruct Hcases as [-> | [-> | [-> | [-> | [-> | [-> | [-> | ->]]]]]]];
    vm_compute; split; congruence.
Qed.

Lemma apply_scale_reserved (b scale : Z) :
  0 <= b < 8 -> 0 <= scale <= IS31FL3235A_SCALE_1_4X ->
  0 <= apply_scale b scale < 8.
Proof.
  intros Hb Hs. change IS31FL3235A_SCALE_1_4X with 3 in Hs.
  assert (Hcases : b = 0 \/ b = 1 \/ b = 2 \/ b = 3 \/ b = 4 \/ b = 5 \/ b = 6 \/ b = 7)
    by lia.
  assert (Hscales : scale = 0 \/ scale = 1 \/ scale = 2 \/ scale = 3) by lia.
  destruct Hscales as [-> | [-> | [-> | ->]]];
    destruct Hcases as [-> | [-> | [-> | [-> | [-> | [-> | [-> | ->]]]]]]];
    vm_compute; split; congruence.
Qed.

Lemma nth_reserved (l : list Z) (j : nat) :
  ctrl_reserved_zero l -> 0 <= nth j l 0 < 8.
Proof.
  intros Hl. destruct (Nat.lt_ge_cases j (length l)) as [Hin | Hout].
  - apply Forall_nth; [exact Hl | exact Hin].
  - rewrite nth_overflow by exact Hout. lia.
Qed.

(** X5: the reserved bits 3-7 of the cached control bytes stay zero:
    if every byte of [ctrl_cache] is below 8, it is so after any
    operation, for all arguments (the scale being an unsigned enum
    value) and whatever the platform answers. *)
Theorem control_bytes_keep_reserved_bits_zero (cfg : is31fl3235a_cfg) (s : system) :
  ctrl_reserved_zero (ctrl_cache (data s)) ->
  (forall channel scale, is_u32 scale ->
     ctrl_reserved_zero
       (ctrl_cache (data (snd (is31fl3235a_set_current_scale cfg channel scale s)))))
  /\ (forall channel enable,
        ctrl_reserved_zero
          (ctrl_cache (data (snd (is31fl3235a_channel_enable cfg channel enable s)))))
  /\ (forall start num enable,
        ctrl_reserved_zero
          (ctrl_cache (data (snd (is31fl3235a_channels_enable cfg start num enable s)))))
  /\ (forall led value,
        ctrl_reserved_zero
          (ctrl_cache (data (snd (is31fl3235a_led_set_brightness cfg led value s)))))
  /\ (forall start num buf,
        ctrl_reserved_zero
          (ctrl_cache (data (snd (is31fl3235a_led_write_channels cfg start num buf s)))))
  /\ ctrl_reserved_zero (ctrl_cache (data (snd (is31fl3235a_init cfg s)))).
Proof.
  intros Hc.
  assert (Hbuf0 : ctrl_reserved_zero (replicate (Z.to_nat IS31FL3235A_NUM_CHANNELS) 0)).
  { apply Forall_forall. intros x Hx. apply elem_of_replicate in Hx.
    destruct Hx as [-> _]. lia. }
  assert (Hinit : ctrl_reserved_zero (ctrl_cache (data (snd (is31fl3235a_init cfg s))))).
  { apply (init_invariant (fun _ c => ctrl_reserved_zero c)).
    - intros p c i Hwc. exact Hwc.
    - intros p c i Hwc. apply Forall_insert; [exact Hwc |].
      change IS31FL3235A_CTRL_ENABLE_1X with 1. lia.
    - exact Hc. }
  repeat match goal with |- _ /\ _ => split end; intros; try exact Hinit;
    unfold_ops; unfold_helpers; split_ifs; try exact Hc;
    first
      [ apply Forall_insert;
        [ exact Hc
        | first
            [ apply apply_enable_reserved, nth_reserved, Hc
            | apply apply_scale_reserved; [apply nth_reserved, Hc |];
              match goal with
              | Hs : is_u32 ?scale, E : (?scale >? _) = false |- _ =>
                  rewrite Z.gtb_ltb in E; apply Z.ltb_ge in E;
                  destruct Hs as [Hlo _]; split; assumption
              end ] ]
      | apply Forall_memcpy; [exact Hc |];
        apply Forall_build_ctrl_buf; [| exact Hbuf0];
        intros j e; apply apply_enable_reserved, nth_reserved, Hc ].
Qed.

Lemma control_bytes_keep_reserved_bits_zero_witness :
  ctrl_reserved_zero
    (ctrl_cache (data (snd (is31fl3235a_set_current_scale cfg0 3 2 (sys0 []))))).
Proof.
  assert (Hc : ctrl_reserved_zero (ctrl_cache (data (sys0 [])))).
  { apply Forall_forall. intros x Hx. apply elem_of_replicate in Hx.
    destruct Hx as [-> _]. lia. }
  assert (Hs : is_u32 2) by (unfold is_u32; lia).
  exact (proj1 (control_bytes_keep_reserved_bits_zero cfg0 (sys0 []) Hc) 3 2 Hs).
Defined.

(** ** The batch enable *)

Lemma build_ctrl_buf_length (cache : list Z) (start_channel : Z) (enable : list bool)
    (todo : nat) :
  forall (i : Z) (ctrl_buf : list Z),
    length (build_ctrl_buf cache start_channel enable todo i ctrl_buf)
    = length ctrl_buf.
Proof.
  induction todo as [| todo IH]; intros i ctrl_buf; cbn; [reflexivity |].
  rewrite IH. apply length_insert.
Qed.

(** The loop does not touch the cells below its counter. *)
Lemma build_ctrl_buf_lookup_lt (cache : list Z) (start_channel : Z)
    (enable : list bool) (todo : nat) :
  forall (i : Z) (ctrl_buf : list Z) (j : nat),
    0 <= i -> (j < Z.to_nat i)%nat ->
    build_ctrl_buf cache start_channel enable todo i ctrl_buf !! j = ctrl_buf !! j.
Proof.
  induction todo as [| todo IH]; intros i ctrl_buf j Hi Hj; cbn; [reflexivity |].
  rewrite IH by lia. apply list_lookup_insert_ne. lia.
Qed.

(** Each cell the loop fills holds the cached control byte of its
    channel with the enable bit replaced. *)
Lemma build_ctrl_buf_lookup_in (cache : list Z) (start_channel : Z)
    (enable : list bool) (todo : nat) :
  forall (i : Z) (ctrl_buf : list Z) (j : nat),
    0 <= i -> (Z.to_nat i + todo <= length ctrl_buf)%nat ->
    (Z.to_nat i <= j < Z.to_nat i + todo)%nat ->
    build_ctrl_buf cache start_channel enable todo i ctrl_buf !! j
    = Some (apply_enable (nth (Z.to_nat (start_channel + Z.of_nat j)) cache 0)
                         (nth j enable false)).
Proof.
  induction todo as [| todo IH]; intros i ctrl_buf j Hi Hfit Hj; [lia |].
  cbn [build_ctrl_buf].
  destruct (decide (j = Z.to_nat i)) as [-> | Hne].
  - rewrite build_ctrl_buf_lookup_lt by lia.
    rewrite list_lookup_insert_eq by lia.
    rewrite Z2Nat.id by exact Hi. reflexivity.
  - apply IH; [lia | rewrite length_insert; lia | lia].
Qed.

(** X1: with its 8-bit arguments [channels_enable] computes the range
    check without wrap-around: it returns [-EINVAL] with the system
    unchanged exactly when [start >= 28] or [start + num > 28] (so an
    empty range at channel 28 is turned down as well), and otherwise
    proceeds to one bus write at the control register of [start]. *)
Theorem channels_enable_range_validation (cfg : is31fl3235a_cfg)
    (start num : Z) (enable : list bool) (s : system) :
  is_u8 start -> is_u8 num ->
  let out := is31fl3235a_channels_enable cfg start num enable s in
  (IS31FL3235A_NUM_CHANNELS <= start \/ IS31FL3235A_NUM_CHANNELS < start + num ->
   out = (- EINVAL, s))
  /\ (start < IS31FL3235A_NUM_CHANNELS -> start + num <= IS31FL3235A_NUM_CHANNELS ->
      exists bytes rest,
        length bytes = Z.to_nat num
        /\ trace (plat (snd out))
           = trace (plat s)
             ++ EvI2cWrite (i2c_addr cfg) (IS31FL3235A_REG_CTRL_BASE + start :: bytes)
                  (i2c_next (plat s)) :: rest)
  /\ (trace (plat (snd out)) = trace (plat s)
      <-> IS31FL3235A_NUM_CHANNELS <= start \/ IS31FL3235A_NUM_CHANNELS < start + num).
Proof.
  intros [Hs0 _] [Hn0 _]. cbv zeta.
  assert (Hrej : IS31FL3235A_NUM_CHANNELS <= start
                 \/ IS31FL3235A_NUM_CHANNELS < start + num ->
                 is31fl3235a_channels_enable cfg start num enable s = (- EINVAL, s)).
  { intros Hbad. unfold is31fl3235a_channels_enable.
    destruct (Z.geb_spec start IS31FL3235A_NUM_CHANNELS) as [_ | Hlt]; [reflexivity |].
    rewrite Z.gtb_ltb.
    destruct (Z.ltb_spec IS31FL3235A_NUM_CHANNELS (start + num)); [reflexivity | lia]. }
  assert (Hacc : start < IS31FL3235A_NUM_CHANNELS ->
                 start + num <= IS31FL3235A_NUM_CHANNELS ->
                 exists bytes rest,
                   length bytes = Z.to_nat num
                   /\ trace (plat (snd (is31fl3235a_channels_enable cfg start num enable s)))
                      = trace (plat s)
                        ++ EvI2cWrite (i2c_addr cfg)
                             (IS31FL3235A_REG_CTRL_BASE + start :: bytes)
                             (i2c_next (plat s)) :: rest).
  { intros Hlt Hfit. rewrite channels_enable_run by lia. cbv zeta.
    eexists. 
    unfold write_commit_trigger. cbv zeta.
    destruct (i2c_next (plat s) <? 0); cbn [snd plat]; rewrite !trace_transfer.
    - exists []. split; [| reflexivity].
      rewrite length_take, build_ctrl_buf_length, length_replicate.
      rewrite num_channels_val in *. lia.
    - eexists. split; [| rewrite <- app_assoc; reflexivity].
      rewrite length_take, build_ctrl_buf_length, length_replicate.
      rewrite num_channels_val in *. lia. }
  split; [exact Hrej |]. split; [exact Hacc |].
  split.
  - intros Heq.
    destruct (Z.le_gt_cases IS31FL3235A_NUM_CHANNELS start) as [Hge | Hlt];
      [left; exact Hge |].
    destruct (Z.lt_ge_cases IS31FL3235A_NUM_CHANNELS (start + num)) as [Hover | Hfit];
      [right; exact Hover |].
    destruct (Hacc Hlt Hfit) as (bytes & rest & _ & Htrace).
    rewrite Heq in Htrace. apply (f_equal (@length event)) in Htrace.
    rewrite length_app in Htrace. cbn in Htrace. lia.
  - intros Hbad. rewrite (Hrej Hbad). reflexivity.
Qed.

Lemma channels_enable_range_validation_witness :
  is31fl3235a_channels_enable cfg0 28 0 [] (sys0 []) = (- EINVAL, sys0 [])
  /\ is31fl3235a_channels_enable cfg0 27 255 [] (sys0 []) = (- EINVAL, sys0 []).
Proof.
  assert (H28 : is_u8 28) by (unfold is_u8; lia).
  assert (H27 : is_u8 27) by (unfold is_u8; lia).
  assert (H0 : is_u8 0) by (unfold is_u8; lia).
  assert (H255 : is_u8 255) by (unfold is_u8; lia).
  split.
  - apply (proj1 (channels_enable_range_validation cfg0 28 0 [] (sys0 []) H28 H0)).
    left. rewrite num_channels_val. lia.
  - apply (proj1 (channels_enable_range_validation cfg0 27 255 [] (sys0 []) H27 H255)).
    right. rewrite num_channels_val. lia.
Defined.

(** X2: a successful [channels_enable(start, num, enable)] leaves, for
    every [i < num], the control byte of channel [start + i] equal to
    its previous value with bit 0 replaced by [enable[i]] (so the enable
    bit is [enable[i]] and the scale field is kept), the control bytes
    outside the range untouched, and [pwm_cache] untouched. *)
Theorem channels_enable_fidelity (cfg : is31fl3235a_cfg) (start num : Z)
    (enable : list bool) (s s' : system) :
  is_u8 start -> is_u8 num ->
  cache_wf (ctrl_cache (data s)) ->
  is31fl3235a_channels_enable cfg start num enable s = (0, s') ->
  (forall i : nat, (i < Z.to_nat num)%nat ->
     let old := nth (Z.to_nat start + i) (ctrl_cache (data s)) 0 in
     ctrl_cache (data s') !! (Z.to_nat start + i)%nat
     = Some (apply_enable old (nth i enable false))
     /\ ctrl_enabled (apply_enable old (nth i enable false)) = nth i enable false
     /\ ctrl_scale (apply_enable old (nth i enable false)) = ctrl_scale old)
  /\ (forall j : nat,
        (j < Z.to_nat start)%nat \/ (Z.to_nat start + Z.to_nat num <= j)%nat ->
        ctrl_cache (data s') !! j = ctrl_cache (data s) !! j)
  /\ pwm_cache (data s') = pwm_cache (data s).
Proof.
  intros [Hs0 _] [Hn0 _] Hwf Hrun.
  destruct (Z.le_gt_cases IS31FL3235A_NUM_CHANNELS start) as [Hge | Hlt].
  { destruct (channel_rejected cfg start s Hge) as (_ & _ & _ & _ & Hrej & _).
    rewrite Hrej in Hrun. discriminate. }
  destruct (Z.lt_ge_cases IS31FL3235A_NUM_CHANNELS (start + num)) as [Hover | Hfit].
  { unfold is31fl3235a_channels_enable in Hrun.
    destruct (Z.geb_spec start IS31FL3235A_NUM_CHANNELS); [lia |].
    rewrite Z.gtb_ltb, (proj2 (Z.ltb_lt _ (start + num)) Hover) in Hrun.
    discriminate. }
  rewrite channels_enable_run in Hrun by lia. cbv zeta in Hrun.
  unfold write_commit_trigger in Hrun. cbv zeta in Hrun.
  destruct (Z.ltb_spec (i2c_next (plat s)) 0) as [Hfail | _];
    [apply pair_equal_spec in Hrun; lia |].
  apply pair_equal_spec in Hrun. destruct Hrun as [_ <-].
  cbn [data pwm_cache ctrl_cache set_ctrl_cache].
  destruct Hwf as [Hlen Hall]. rewrite num_channels_val in *.
  split; [| split; [| reflexivity]].
  - intros i Hi. cbv zeta.
    assert (Hold : is_u8 (nth (Z.to_nat start + i) (ctrl_cache (data s)) 0)).
    { apply Forall_nth; [exact Hall | lia]. }
    destruct (apply_enable_spec _ (nth i enable false) Hold) as (Hen & Hsc & _).
    split; [| split; [exact Hen | exact Hsc]].
    rewrite memcpy_lookup_in;
      [| rewrite build_ctrl_buf_length, length_replicate; lia | lia | exact Hi].
    rewrite build_ctrl_buf_lookup_in;
      [| lia | rewrite length_replicate; lia | lia].
    replace (Z.to_nat (start + Z.of_nat i)) with (Z.to_nat start + i)%nat by lia.
    reflexivity.
  - intros j Hj. apply memcpy_lookup_out. exact Hj.
Qed.

Lemma channels_enable_fidelity_witness :
  ctrl_cache (data (snd (is31fl3235a_channels_enable cfg0 2 3 [true; false; true]
                           (sys0 []))))
    !! 4%nat = Some 1.
Proof.
  assert (H2 : is_u8 2) by (unfold is_u8; lia).
  assert (H3 : is_u8 3) by (unfold is_u8; lia).
  assert (Hwf : cache_wf (ctrl_cache (data (sys0 [])))).
  { split; [reflexivity |]. apply Forall_forall. intros x Hx.
    apply elem_of_replicate in Hx. destruct Hx as [-> _]. unfold is_u8. lia. }
  exact (proj1 (proj1 (channels_enable_fidelity cfg0 2 3 [true; false; true]
                         (sys0 []) _ H2 H3 Hwf eq_refl) 2%nat ltac:(cbn; lia))).
Defined.

(** ** Return codes *)

Ltac tests_to_facts :=
  repeat match goal with
         | E : (_ <? _) = true |- _ => apply Z.ltb_lt in E
         | E : (_ <? _) = false |- _ => apply Z.ltb_ge in E
         end.

Lemma init_result_nonpositive (cfg : is31fl3235a_cfg) (s : system) :
  fst (is31fl3235a_init cfg s) <= 0.
Proof.
  unfold is31fl3235a_init, i2c_device_is_ready. unfold_helpers.
  cbn [data plat fst snd].
  destruct (i2c_bus_ready (plat s)); cbn [negb]; [| cbn; unfold ENODEV; lia].
  match goal with
  | |- context [init_sdb_pin cfg ?x] =>
      pose proof (init_sdb_pin_frame cfg x) as Hpin;
      destruct (init_sdb_pin cfg x) as [early s1]
  end.
  cbn [fst] in Hpin. destruct Hpin as (Hearly & _).
  destruct early as [r |]; [cbn; lia |].
  split_ifs; tests_to_facts; try lia;
    match goal with
    | |- context [init_channels cfg ?n ?i ?x] =>
        pose proof (init_channels_early cfg n i x) as Hstop;
        destruct (init_channels cfg n i x) as [early s2]
    end;
    (destruct early as [r |]; [specialize (Hstop _ _ eq_refl); cbn; lia |]);
    split_ifs; tests_to_facts; lia.
Qed.

(** X6: every operation that talks to the bus returns 0 or a negative
    code, never a positive one, whatever the arguments and whatever
    codes (positive ones included) the transport and the pin return. *)
Theorem bus_operations_return_no_positive_code (cfg : is31fl3235a_cfg) (s : system) :
  (forall led value, fst (is31fl3235a_led_set_brightness cfg led value s) <= 0)
  /\ (forall start num buf,
        fst (is31fl3235a_led_write_channels cfg start num buf s) <= 0)
  /\ (forall channel scale,
        fst (is31fl3235a_set_current_scale cfg channel scale s) <= 0)
  /\ (forall channel enable,
        fst (is31fl3235a_channel_enable cfg channel enable s) <= 0)
  /\ (forall start num enable,
        fst (is31fl3235a_channels_enable cfg start num enable s) <= 0)
  /\ (forall b, fst (is31fl3235a_sw_shutdown cfg b s) <= 0)
  /\ fst (is31fl3235a_update cfg s) <= 0
  /\ (forall led value,
        fst (is31fl3235a_set_brightness_no_update cfg led value s) <= 0)
  /\ (forall start num buf,
        fst (is31fl3235a_write_channels_no_update cfg start num buf s) <= 0)
  /\ fst (is31fl3235a_init cfg s) <= 0.
Proof.
  repeat match goal with |- _ /\ _ => split end; intros;
    try apply init_result_nonpositive;
    unfold_ops; unfold_helpers; split_ifs; tests_to_facts;
    try (unfold EINVAL); lia.
Qed.

(** ** The shutdown operations *)

(** X7: [sw_shutdown(b)] sends exactly one bus write, of 0x00 (enter) or
    0x01 (wake) to the Shutdown register, and no trigger; it returns the
    write's code when negative, else 0; the [sw_shutdown] flag becomes [b]
    exactly when the write did not fail, and is kept otherwise; the
    caches, the lock count and the other flags are as before.  So
    entering and then leaving shutdown over a succeeding transport
    returns 0 twice and ends with the flag false and the caches as they
    were. *)
Theorem sw_shutdown_behaviour (cfg : is31fl3235a_cfg) (b : bool) (s : system) :
  let out := is31fl3235a_sw_shutdown cfg b s in
  let r := i2c_next (plat s) in
  (trace (plat (snd out))
   = trace (plat s)
     ++ [EvI2cWrite (i2c_addr cfg)
           [IS31FL3235A_REG_SHUTDOWN; if b then 0x00 else 0x01] r]
   /\ fst out = (if r <? 0 then r else 0)
   /\ sw_shutdown (data (snd out)) = (if r <? 0 then sw_shutdown (data s) else b)
   /\ caches (data (snd out)) = caches (data s)
   /\ lock (data (snd out)) = lock (data s)
   /\ initialized (data (snd out)) = initialized (data s))
  /\ (transport_ok (plat s) ->
      let out1 := is31fl3235a_sw_shutdown cfg true s in
      let out2 := is31fl3235a_sw_shutdown cfg false (snd out1) in
      fst out1 = 0 /\ sw_shutdown (data (snd out1)) = true
      /\ fst out2 = 0 /\ sw_shutdown (data (snd out2)) = false
      /\ caches (data (snd out2)) = caches (data s)
      /\ trigger_writes (trace (plat (snd out2))) = trigger_writes (trace (plat s))).
Proof.
  assert (Hrun : forall b0 s0,
    is31fl3235a_sw_shutdown cfg b0 s0
    = ((if i2c_next (plat s0) <? 0 then i2c_next (plat s0) else 0),
       mk_system
         (if i2c_next (plat s0) <? 0 then data s0 else set_sw_shutdown b0 (data s0))
         (i2c_transfer cfg
            [IS31FL3235A_REG_SHUTDOWN; if b0 then 0x00 else 0x01] (plat s0)))).
  { intros b0 s0. unfold is31fl3235a_sw_shutdown. unfold_helpers.
    destruct s0 as [[] ?]. destruct b0; split_ifs; reflexivity. }
  cbv zeta. split.
  - rewrite Hrun. cbn [fst snd data plat]. rewrite trace_transfer.
    destruct (i2c_next (plat s) <? 0); repeat split.
  - intros Hok. rewrite !Hrun. cbn [fst snd data plat].
    pose proof (transport_ok_next _ Hok) as Hr1.
    pose proof (transport_ok_next _
                  (transport_ok_transfer cfg [IS31FL3235A_REG_SHUTDOWN; 0x00] _ Hok))
      as Hr2.
    rewrite (proj2 (Z.ltb_ge _ 0) Hr1), (proj2 (Z.ltb_ge _ 0) Hr2).
    repeat split.
    rewrite !trace_transfer, !trigger_writes_app, !trigger_writes_cons,
      trigger_writes_nil. cbn. lia.
Qed.

Lemma sw_shutdown_behaviour_witness :
  sw_shutdown (data (snd (is31fl3235a_sw_shutdown cfg0 false
                            (snd (is31fl3235a_sw_shutdown cfg0 true (sys0 []))))))
  = false.
Proof.
  assert (Hok : transport_ok (plat (sys0 []))) by constructor.
  destruct (proj2 (sw_shutdown_behaviour cfg0 true (sys0 [])) Hok)
    as (_ & _ & _ & Hflag & _).
  exact Hflag.
Defined.

(** X8: with a shutdown pin, [hw_shutdown(b)] never uses the bus: it
    drives the pin to 0 (shut down) or 1 (wake) and returns the pin's
    code as it is; on a negative code nothing else happens; otherwise
    the [hw_shutdown] flag becomes [b] and, only when waking, the
    startup delay of 1 ms follows.  The caches, the lock count and the
    other flags are as before in every case. *)
Theorem hw_shutdown_with_pin (cfg : is31fl3235a_cfg) (b : bool) (s : system) :
  sdb_gpio_port cfg = true ->
  let out := is31fl3235a_hw_shutdown cfg b s in
  let r := hd 0 (gpio_results (plat s)) in
  let pin := EvGpioSet (if b then 0 else 1) r in
  fst out = r
  /\ trace (plat (snd out))
     = trace (plat s)
       ++ (if r <? 0 then [pin]
           else if b then [pin]
           else [pin; EvSleep IS31FL3235A_STARTUP_DELAY_MS])
  /\ hw_shutdown (data (snd out)) = (if r <? 0 then hw_shutdown (data s) else b)
  /\ i2c_writes (trace (plat (snd out))) = i2c_writes (trace (plat s))
  /\ i2c_results (plat (snd out)) = i2c_results (plat s)
  /\ caches (data (snd out)) = caches (data s)
  /\ lock (data (snd out)) = lock (data s)
  /\ sw_shutdown (data (snd out)) = sw_shutdown (data s)
  /\ initialized (data (snd out)) = initialized (data s).
Proof.
  intros Hport. cbv zeta. unfold is31fl3235a_hw_shutdown. rewrite Hport.
  unfold_helpers. unfold i2c_writes.
  destruct b; split_ifs; rewrite <- ?app_assoc, ?filter_app;
    repeat split; cbn; rewrite ?app_nil_r; reflexivity.
Qed.

Lemma hw_shutdown_with_pin_witness :
  trace (plat (snd (is31fl3235a_hw_shutdown cfg_sdb false (sys0 []))))
  = [EvGpioSet 1 0; EvSleep 1]
  /\ hw_shutdown (data (snd (is31fl3235a_hw_shutdown cfg_sdb true (sys0 [])))) = true.
Proof.
  destruct (hw_shutdown_with_pin cfg_sdb false (sys0 []) eq_refl) as (_ & Ht & _).
  destruct (hw_shutdown_with_pin cfg_sdb true (sys0 []) eq_refl) as (_ & _ & Hf & _).
  split; [exact Ht | exact Hf].
Defined.

(** ** The no-update variants and [update] *)

(** X9: for all arguments and whatever the transport answers, the
    standard brightness operations are their no-update variants followed,
    when the variant did not fail, by [update()]: same return code and
    same final system (data, scripts and trace). *)
Theorem standard_write_is_staged_write_then_update (cfg : is31fl3235a_cfg) (s : system) :
  (forall led value,
      let staged_out := is31fl3235a_set_brightness_no_update cfg led value s in
      is31fl3235a_led_set_brightness cfg led value s
      = if fst staged_out <? 0 then staged_out
        else is31fl3235a_update cfg (snd staged_out))
  /\ (forall start num buf,
        let staged_out := is31fl3235a_write_channels_no_update cfg start num buf s in
        is31fl3235a_led_write_channels cfg start num buf s
        = if fst staged_out <? 0 then staged_out
          else is31fl3235a_update cfg (snd staged_out)).
Proof.
  assert (Eneg : (- EINVAL <? 0) = true) by reflexivity.
  split; [intros led value | intros start num buf];
    cbv zeta; unfold_ops; unfold_helpers;
    destruct s as [[] ?]; split_ifs; reflexivity.
Qed.

(** ** Bus traffic of the batch operations *)

Lemma write_commit_trigger_trace (cfg : is31fl3235a_cfg) (msg : list Z)
    (commit : is31fl3235a_data -> is31fl3235a_data) (s : system) :
  trace (plat (snd (write_commit_trigger cfg msg commit s)))
  = trace (plat s) ++ data_then_trigger cfg msg (plat s).
Proof.
  unfold write_commit_trigger, data_then_trigger. cbv zeta.
  destruct (i2c_next (plat s) <? 0); cbn [snd plat]; rewrite !trace_transfer.
  - reflexivity.
  - rewrite <- app_assoc. reflexivity.
Qed.

Lemma trigger_writes_data_then_trigger (cfg : is31fl3235a_cfg) (reg : Z)
    (bytes : list Z) (p : platform) :
  (reg =? IS31FL3235A_REG_UPDATE) = false ->
  trigger_writes (data_then_trigger cfg (reg :: bytes) p)
  = if i2c_next p <? 0 then O else 1%nat.
Proof.
  intros Hnu. unfold data_then_trigger.
  destruct (i2c_next p <? 0);
    rewrite !trigger_writes_cons, trigger_writes_nil; cbn [writes_to];
    rewrite Hnu; reflexivity.
Qed.

(** X10: an accepted batch write is one bus transaction: the register
    address of the first channel followed by exactly [num] bytes, all of
    which land inside the register block (PWM registers 0x05-0x20 for
    [write_channels], control registers 0x2A-0x45 for [channels_enable]);
    it is followed by exactly one trigger write when it did not fail and
    by nothing when it failed. *)
Theorem batch_write_is_one_transaction (cfg : is31fl3235a_cfg) (start num : Z)
    (s : system) :
  0 <= start < IS31FL3235A_NUM_CHANNELS -> 0 <= num ->
  start + num <= IS31FL3235A_NUM_CHANNELS ->
  (forall buf, (Z.to_nat num <= length buf)%nat ->
     let msg := IS31FL3235A_REG_PWM_BASE + start :: take (Z.to_nat num) buf in
     trace (plat (snd (is31fl3235a_led_write_channels cfg start num buf s)))
     = trace (plat s) ++ data_then_trigger cfg msg (plat s)
     /\ trigger_writes (data_then_trigger cfg msg (plat s))
        = (if i2c_next (plat s) <? 0 then O else 1%nat)
     /\ Z.of_nat (length msg) = num + 1
     /\ IS31FL3235A_REG_PWM_BASE <= IS31FL3235A_REG_PWM_BASE + start
     /\ IS31FL3235A_REG_PWM_BASE + start + num <= IS31FL3235A_REG_PWM_OUT28 + 1)
  /\ (forall enable,
        exists bytes,
          let msg := IS31FL3235A_REG_CTRL_BASE + start :: bytes in
          trace (plat (snd (is31fl3235a_channels_enable cfg start num enable s)))
          = trace (plat s) ++ data_then_trigger cfg msg (plat s)
          /\ trigger_writes (data_then_trigger cfg msg (plat s))
             = (if i2c_next (plat s) <? 0 then O else 1%nat)
          /\ Z.of_nat (length msg) = num + 1
          /\ IS31FL3235A_REG_CTRL_BASE <= IS31FL3235A_REG_CTRL_BASE + start
          /\ IS31FL3235A_REG_CTRL_BASE + start + num
             <= IS31FL3235A_REG_CTRL_OUT28 + 1).
Proof.
  intros Hs Hn Hfit.
  destruct (pwm_reg_plain start Hs) as [Hpu _].
  destruct (ctrl_reg_plain start Hs) as [Hcu _].
  split.
  - intros buf Hbuf. cbv zeta.
    rewrite write_channels_run by lia.
    rewrite write_commit_trigger_trace.
    split; [reflexivity |].
    split; [apply trigger_writes_data_then_trigger, Hpu |].
    split; [cbn [length]; rewrite length_take; lia |].
    rewrite num_channels_val in *.
    unfold IS31FL3235A_REG_PWM_BASE, IS31FL3235A_REG_PWM_OUT28. lia.
  - intros enable. eexists. cbv zeta.
    rewrite channels_enable_run by lia. cbv zeta.
    rewrite write_commit_trigger_trace.
    split; [reflexivity |].
    split; [apply trigger_writes_data_then_trigger, Hcu |].
    rewrite num_channels_val in *.
    split; [cbn [length];
            rewrite length_take, build_ctrl_buf_length, length_replicate; lia |].
    unfold IS31FL3235A_REG_CTRL_BASE, IS31FL3235A_REG_CTRL_OUT28. lia.
Qed.

Lemma batch_write_is_one_transaction_witness :
  trace (plat (snd (is31fl3235a_led_write_channels cfg0 0 3 [100; 0; 0] (sys0 []))))
  = [EvI2cWrite 0x3C [0x05; 100; 0; 0] 0; EvI2cWrite 0x3C [0x25; 0x00] 0].
Proof.
  assert (Hs : 0 <= 0 < IS31FL3235A_NUM_CHANNELS) by (rewrite num_channels_val; lia).
  assert (Hn : 0 <= 3) by lia.
  assert (Hfit : 0 + 3 <= IS31FL3235A_NUM_CHANNELS) by (rewrite num_channels_val; lia).
  assert (Hbuf : (Z.to_nat 3 <= length [100; 0; 0])%nat) by (cbn; lia).
  exact (proj1 (proj1 (batch_write_is_one_transaction cfg0 0 3 (sys0 []) Hs Hn Hfit)
                  [100; 0; 0] Hbuf)).
Defined.

(** X11: an empty range is not special to [write_channels]: with
    [num = 0] at a valid [start] it still takes the lock, sends a bus
    write made of the register address alone and, if that did not fail,
    the trigger; the caches are as before in every case; and with
    [start = 28] the empty range is turned down with [-EINVAL]. *)
Theorem write_channels_empty_range (cfg : is31fl3235a_cfg) (start : Z)
    (buf : list Z) (s : system) :
  0 <= start < IS31FL3235A_NUM_CHANNELS ->
  let out := is31fl3235a_led_write_channels cfg start 0 buf s in
  trace (plat (snd out))
  = trace (plat s)
    ++ data_then_trigger cfg [IS31FL3235A_REG_PWM_BASE + start] (plat s)
  /\ caches (data (snd out)) = caches (data s)
  /\ (transport_ok (plat s) -> fst out = 0)
  /\ is31fl3235a_led_write_channels cfg IS31FL3235A_NUM_CHANNELS 0 buf s
     = (- EINVAL, s).
Proof.
  intros Hs. cbv zeta.
  rewrite write_channels_run by lia.
  change (take (Z.to_nat 0) buf) with (@nil Z).
  split; [apply write_commit_trigger_trace |].
  split; [| split].
  - rewrite write_commit_trigger_data.
    destruct (i2c_next (plat s) <? 0); reflexivity.
  - intros Hok. rewrite (write_commit_trigger_ok _ _ _ _ Hok). reflexivity.
  - reflexivity.
Qed.

Lemma write_channels_empty_range_witness :
  trace (plat (snd (is31fl3235a_led_write_channels cfg0 27 0 [] (sys0 []))))
  = [EvI2cWrite 0x3C [0x20] 0; EvI2cWrite 0x3C [0x25; 0x00] 0].
Proof.
  assert (Hs : 0 <= 27 < IS31FL3235A_NUM_CHANNELS) by (rewrite num_channels_val; lia).
  exact (proj1 (write_channels_empty_range cfg0 27 [] (sys0 []) Hs)).
Defined.

(** ** Channels an operation does not address *)

(** X14: whether it succeeds or fails, and for all arguments, an
    operation changes no cached value of a channel it does not address:
    the brightness operations leave [ctrl_cache] and the other cells of
    [pwm_cache] as they were, the control operations leave [pwm_cache]
    and the other cells of [ctrl_cache] as they were. *)
Theorem operations_touch_only_their_channels (cfg : is31fl3235a_cfg) (s : system) :
  (forall led value (j : nat), j <> Z.to_nat led ->
     let d' := data (snd (is31fl3235a_led_set_brightness cfg led value s)) in
     pwm_cache d' !! j = pwm_cache (data s) !! j
     /\ ctrl_cache d' = ctrl_cache (data s))
  /\ (forall led value (j : nat), j <> Z.to_nat led ->
        let d' := data (snd (is31fl3235a_set_brightness_no_update cfg led value s)) in
        pwm_cache d' !! j = pwm_cache (data s) !! j
        /\ ctrl_cache d' = ctrl_cache (data s))
  /\ (forall start num buf (j : nat),
        (j < Z.to_nat start)%nat \/ (Z.to_nat start + Z.to_nat num <= j)%nat ->
        let d' := data (snd (is31fl3235a_led_write_channels cfg start num buf s)) in
        pwm_cache d' !! j = pwm_cache (data s) !! j
        /\ ctrl_cache d' = ctrl_cache (data s))
  /\ (forall start num buf (j : nat),
        (j < Z.to_nat start)%nat \/ (Z.to_nat start + Z.to_nat num <= j)%nat ->
        let d' :=
          data (snd (is31fl3235a_write_channels_no_update cfg start num buf s)) in
        pwm_cache d' !! j = pwm_cache (data s) !! j
        /\ ctrl_cache d' = ctrl_cache (data s))
  /\ (forall channel scale (j : nat), j <> Z.to_nat channel ->
        let d' := data (snd (is31fl3235a_set_current_scale cfg channel scale s)) in
        ctrl_cache d' !! j = ctrl_cache (data s) !! j
        /\ pwm_cache d' = pwm_cache (data s))
  /\ (forall channel enable (j : nat), j <> Z.to_nat channel ->
        let d' := data (snd (is31fl3235a_channel_enable cfg channel enable s)) in
        ctrl_cache d' !! j = ctrl_cache (data s) !! j
        /\ pwm_cache d' = pwm_cache (data s))
  /\ (forall start num enable (j : nat),
        (j < Z.to_nat start)%nat \/ (Z.to_nat start + Z.to_nat num <= j)%nat ->
        let d' := data (snd (is31fl3235a_channels_enable cfg start num enable s)) in
        ctrl_cache d' !! j = ctrl_cache (data s) !! j
        /\ pwm_cache d' = pwm_cache (data s)).
Proof.
  repeat match goal with |- _ /\ _ => split end;
    intros until j; intros Hj; cbv zeta; unfold_ops; unfold_helpers; split_ifs;
    (split; [| reflexivity]);
    first [ reflexivity
          | apply list_lookup_insert_ne; congruence
          | apply memcpy_lookup_out; exact Hj ].
Qed.

Lemma operations_touch_only_their_channels_witness :
  pwm_cache (data (snd (is31fl3235a_led_set_brightness cfg0 5 200 (sys0 [0; -5]))))
    !! 6%nat
  = pwm_cache (data (sys0 [0; -5])) !! 6%nat.
Proof.
  refine (proj1 (proj1 (operations_touch_only_their_channels cfg0 (sys0 [0; -5]))
                   5 200 6%nat _)).
  cbn. lia.
Defined.

(** X15: [set_current_scale] turns down a channel of 28 or more and a
    scale above 3 with [-EINVAL] and the system unchanged, and only
    those: on any other arguments its first action is the bus write of
    the channel's control register, with the cached byte whose scale
    field is replaced. *)
Theorem set_current_scale_validation (cfg : is31fl3235a_cfg) (channel scale : Z)
    (s : system) :
  is_u8 channel ->
  let out := is31fl3235a_set_current_scale cfg channel scale s in
  let bad := IS31FL3235A_NUM_CHANNELS <= channel \/ IS31FL3235A_SCALE_1_4X < scale in
  (bad -> out = (- EINVAL, s))
  /\ (~ bad ->
      exists rest,
        trace (plat (snd out))
        = trace (plat s)
          ++ EvI2cWrite (i2c_addr cfg)
               [IS31FL3235A_REG_CTRL_BASE + channel;
                apply_scale (nth (Z.to_nat channel) (ctrl_cache (data s)) 0) scale]
               (i2c_next (plat s)) :: rest)
  /\ (trace (plat (snd out)) = trace (plat s) <-> bad).
Proof.
  intros [Hc0 _]. cbv zeta.
  assert (Hrej : IS31FL3235A_NUM_CHANNELS <= channel \/ IS31FL3235A_SCALE_1_4X < scale ->
                 is31fl3235a_set_current_scale cfg channel scale s = (- EINVAL, s)).
  { intros Hbad. unfold is31fl3235a_set_current_scale.
    destruct (Z.geb_spec channel IS31FL3235A_NUM_CHANNELS) as [_ | Hlt]; [reflexivity |].
    rewrite Z.gtb_ltb.
    destruct (Z.ltb_spec IS31FL3235A_SCALE_1_4X scale); [reflexivity | lia]. }
  assert (Hacc : ~ (IS31FL3235A_NUM_CHANNELS <= channel
                    \/ IS31FL3235A_SCALE_1_4X < scale) ->
                 exists rest,
                   trace (plat (snd (is31fl3235a_set_current_scale cfg channel scale s)))
                   = trace (plat s)
                     ++ EvI2cWrite (i2c_addr cfg)
                          [IS31FL3235A_REG_CTRL_BASE + channel;
                           apply_scale
                             (nth (Z.to_nat channel) (ctrl_cache (data s)) 0) scale]
                          (i2c_next (plat s)) :: rest).
  { intros Hok. rewrite set_current_scale_run by lia. cbv zeta.
    rewrite write_commit_trigger_trace. unfold data_then_trigger.
    eexists. reflexivity. }
  split; [exact Hrej |]. split; [exact Hacc |].
  split.
  - intros Heq.
    destruct (Z.le_gt_cases IS31FL3235A_NUM_CHANNELS channel) as [Hge | Hlt];
      [left; exact Hge |].
    destruct (Z.lt_ge_cases IS31FL3235A_SCALE_1_4X scale) as [Hbig | Hfit];
      [right; exact Hbig |].
    destruct Hacc as [rest Htrace]; [lia |].
    rewrite Heq in Htrace. apply (f_equal (@length event)) in Htrace.
    rewrite length_app in Htrace. cbn in Htrace. lia.
  - intros Hbad. rewrite (Hrej Hbad). reflexivity.
Qed.

Lemma set_current_scale_validation_witness :
  is31fl3235a_set_current_scale cfg0 3 4 (sys0 []) = (- EINVAL, sys0 []).
Proof.
  assert (H3 : is_u8 3) by (unfold is_u8; lia).
  apply (proj1 (set_current_scale_validation cfg0 3 4 (sys0 []) H3)).
  right. vm_compute. reflexivity.
Defined.

(** ** Initialisation: failures and bus sequence *)

Lemma init_channels_outside (cfg : is31fl3235a_cfg) (todo : nat) :
  forall (i : Z) (s : system),
    outside_caches (data (snd (init_channels cfg todo i s)))
    = outside_caches (data s).
Proof.
  induction todo as [| todo IH]; intros i s; [reflexivity |].
  rewrite init_channels_step. cbv zeta.
  destruct (i2c_next (plat s) <? 0); [reflexivity |].
  destruct (i2c_next (i2c_transfer cfg _ (plat s)) <? 0); [reflexivity |].
  rewrite IH. reflexivity.
Qed.

(** X12: [is31fl3235a_init] re-initialises the mutex in every case, and
    marks the instance initialised only when it returns 0: on any other
    return the [initialized] flag is as before.  When the bus device is
    not ready, or the configured pin device is not ready, it returns
    [-ENODEV] having touched neither bus nor pin nor the caches. *)
Theorem init_failure_modes (cfg : is31fl3235a_cfg) (s : system) :
  let out := is31fl3235a_init cfg s in
  lock (data (snd out)) = O
  /\ (fst out <> 0 -> initialized (data (snd out)) = initialized (data s))
  /\ (i2c_bus_ready (plat s) = false
      \/ (sdb_gpio_port cfg = true /\ sdb_port_ready (plat s) = false) ->
      out = (- ENODEV, mk_system (set_lock O (data s)) (plat s))).
Proof.
  cbv zeta.
  assert (Hmain :
    lock (data (snd (is31fl3235a_init cfg s))) = O
    /\ (fst (is31fl3235a_init cfg s) <> 0 ->
        initialized (data (snd (is31fl3235a_init cfg s))) = initialized (data s))).
  { unfold is31fl3235a_init, i2c_device_is_ready. unfold_helpers.
    cbn [data plat fst snd].
    destruct (i2c_bus_ready (plat s)); cbn [negb]; [| split; reflexivity].
    match goal with
    | |- context [init_sdb_pin cfg ?x] =>
        assert (Hlock : lock (data (snd (init_sdb_pin cfg x))) = O);
        [| pose proof (init_sdb_pin_frame cfg x) as Hpin;
           destruct (init_sdb_pin cfg x) as [early s1]]
    end.
    { unfold init_sdb_pin, gpio_device_is_ready. unfold_helpers.
      split_ifs; reflexivity. }
    cbn [fst snd data plat initialized set_lock] in Hpin, Hlock.
    destruct Hpin as (_ & _ & Hini & _).
    destruct early as [r |]; [split; [exact Hlock | intros _; exact Hini] |].
    split_ifs; try (split; [exact Hlock | intros _; exact Hini]);
      match goal with
      | |- context [init_channels cfg ?n ?i ?x] =>
          pose proof (init_channels_outside cfg n i x) as Hout;
          destruct (init_channels cfg n i x) as [early s2]
      end;
      cbn [snd data plat] in Hout; unfold outside_caches in Hout;
      cbn [lock initialized set_sw_shutdown] in Hout;
      injection Hout as Hl2 Hi2 _ _;
      (destruct early as [r |];
       [cbn; split; [congruence | intros _; congruence] |]);
      split_ifs; (split; [congruence | intros Hne; congruence]). }
  destruct Hmain as [Hlock Hflag].
  split; [exact Hlock |]. split; [exact Hflag |].
  intros Hnot. unfold is31fl3235a_init, i2c_device_is_ready. unfold_helpers.
  cbn [data plat fst snd].
  destruct (i2c_bus_ready (plat s)) eqn:Hbus; cbn [negb]; [| reflexivity].
  destruct Hnot as [Hfalse | [Hport Hready]]; [discriminate |].
  unfold init_sdb_pin, gpio_device_is_ready. unfold_helpers.
  rewrite Hport. cbn. rewrite Hready. reflexivity.
Qed.

Lemma init_failure_modes_witness :
  is31fl3235a_init cfg_sdb (mk_system data0 (mk_platform true false [] [] []))
  = (- ENODEV, mk_system data0 (mk_platform true false [] [] [])).
Proof.
  apply (proj2 (proj2 (init_failure_modes cfg_sdb
                         (mk_system data0 (mk_platform true false [] [] []))))).
  right. split; reflexivity.
Defined.

Lemma i2c_msgs_app (t1 t2 : list event) :
  i2c_msgs (t1 ++ t2) = i2c_msgs t1 ++ i2c_msgs t2.
Proof. unfold i2c_msgs. apply flat_map_app. Qed.

Lemma other_events_app (t1 t2 : list event) :
  other_events (t1 ++ t2) = other_events t1 ++ other_events t2.
Proof. unfold other_events. apply filter_app. Qed.

(** The bus writes of the channel loop when it runs to its end. *)
Lemma init_channels_msgs (cfg : is31fl3235a_cfg) (todo : nat) :
  forall (i : Z) (s s' : system),
    0 <= i -> i + Z.of_nat todo <= IS31FL3235A_NUM_CHANNELS ->
    init_channels cfg todo i s = (None, s') ->
    exists t,
      trace (plat s') = trace (plat s) ++ t
      /\ i2c_msgs t
         = flat_map init_channel_msgs (map Z.of_nat (seq (Z.to_nat i) todo))
      /\ other_events t = [].
Proof.
  induction todo as [| todo IH]; intros i s s' Hi Hfit Hrun.
  - cbv in Hrun. injection Hrun as <-. exists [].
    rewrite app_nil_r. repeat split.
  - rewrite init_channels_step in Hrun. cbv zeta in Hrun.
    assert (Hch : 0 <= i < IS31FL3235A_NUM_CHANNELS) by lia.
    rewrite (pwm_reg_u8 i Hch), (ctrl_reg_u8 i Hch) in Hrun.
    destruct (i2c_next (plat s) <? 0); [discriminate |].
    destruct (i2c_next (i2c_transfer cfg _ (plat s)) <? 0); [discriminate |].
    apply IH in Hrun; [| lia | lia].
    destruct Hrun as (t & Ht & Hmsgs & Hother).
    cbn [plat] in Ht. rewrite !trace_transfer, <- !app_assoc in Ht.
    eexists. split; [exact Ht |].
    rewrite !i2c_msgs_app, !other_events_app, Hmsgs, Hother.
    replace (Z.to_nat (i + 1)) with (S (Z.to_nat i)) by lia.
    cbn [seq map flat_map]. rewrite Z2Nat.id by exact Hi.
    split; reflexivity.
Qed.

(** The pin block when it does not return early. *)
Lemma init_sdb_pin_none (cfg : is31fl3235a_cfg) (s s1 : system) :
  init_sdb_pin cfg s = (None, s1) ->
  trace (plat s1)
  = trace (plat s)
    ++ (if sdb_gpio_port cfg
        then [EvGpioConfigure (hd 0 (gpio_results (plat s)));
              EvGpioSet 1 (hd 0 (tail (gpio_results (plat s))));
              EvSleep IS31FL3235A_STARTUP_DELAY_MS]
        else [])
  /\ (sdb_gpio_port cfg = true -> hw_shutdown (data s1) = false).
Proof.
  unfold init_sdb_pin, gpio_device_is_ready. unfold_helpers.
  destruct (sdb_gpio_port cfg); split_ifs; intros Hrun; try discriminate;
    injection Hrun as <-; cbn; rewrite <- ?app_assoc, ?app_nil_r;
    split; first [reflexivity | discriminate | intros _; reflexivity].
Qed.

(** X13: an initialisation that returns 0 has sent, in this order and
    nothing else on the bus: the reset, the wake from software shutdown,
    the frequency selection (1 for 22 kHz, 0 for 3 kHz), then for each
    channel 0..27 in turn its PWM register with 0 and its control
    register with "enabled, full scale", and last the trigger: 60 writes.
    Besides the bus it has, with a shutdown pin, configured the pin,
    driven it to 1 and waited the startup delay (the [hw_shutdown] flag
    is then false), and in every case waited the reset delay. *)
Theorem init_bus_sequence (cfg : is31fl3235a_cfg) (s s' : system) :
  is31fl3235a_init cfg s = (0, s') ->
  (exists t,
      trace (plat s') = trace (plat s) ++ t
      /\ i2c_msgs t = init_msgs cfg
      /\ other_events t = init_pin_events cfg (plat s))
  /\ length (init_msgs cfg) = 60%nat
  /\ last (init_msgs cfg) = Some trigger_msg
  /\ (sdb_gpio_port cfg = true -> hw_shutdown (data s') = false).
Proof.
  intros Hrun.
  split; [| split; [reflexivity | split; [reflexivity |]]];
    revert Hrun;
    unfold is31fl3235a_init, i2c_device_is_ready; unfold_helpers;
    cbn [data plat fst snd];
    (destruct (i2c_bus_ready (plat s)); cbn [negb]; [| intros [= ?]; discriminate]);
    match goal with
    | |- context [init_sdb_pin cfg ?x] =>
        pose proof (init_sdb_pin_frame cfg x) as Hpin;
        pose proof (init_sdb_pin_none cfg x) as Hnone;
        destruct (init_sdb_pin cfg x) as [early s1]
    end;
    cbn [fst snd data plat] in Hpin, Hnone;
    destruct Hpin as (Hearly & _);
    (destruct early as [r |];
     [intros Hrun; apply pair_equal_spec in Hrun; lia |]);
    specialize (Hnone s1 eq_refl); destruct Hnone as [Ht1 Hhw];
    run; try (intros Hrun; apply pair_equal_spec in Hrun; lia);
    match goal with
    | |- context [init_channels cfg ?n ?i ?x] =>
        pose proof (init_channels_msgs cfg n i x) as Hmsgs;
        pose proof (init_channels_outside cfg n i x) as Hout;
        pose proof (init_channels_early cfg n i x) as Hstop;
        destruct (init_channels cfg n i x) as [early s2]
    end;
    (destruct early as [r |];
     [intros Hrun; apply pair_equal_spec in Hrun; destruct Hrun as [-> _];
      specialize (Hstop _ _ eq_refl); lia |]);
    clear Hstop;
    specialize (Hmsgs s2 ltac:(lia) ltac:(rewrite num_channels_val; lia) eq_refl);
    destruct Hmsgs as (t2 & Ht2 & Hm2 & Ho2);
    run; try (intros Hrun; apply pair_equal_spec in Hrun; lia);
    intros Hrun; apply pair_equal_spec in Hrun; destruct Hrun as [_ <-].
  - cbn [plat] in Ht2 |- *.
    rewrite trace_transfer, Ht2, !trace_transfer. cbn [trace log_event].
    rewrite trace_transfer, Ht1, <- !app_assoc.
    eexists. split; [reflexivity |].
    rewrite !i2c_msgs_app, !other_events_app, Hm2, Ho2.
    unfold init_msgs, init_pin_events.
    destruct (sdb_gpio_port cfg); split; reflexivity.
  - intros Hport. cbn [snd data] in Hout. unfold outside_caches in Hout.
    cbn [hw_shutdown set_sw_shutdown set_initialized data] in Hout |- *.
    injection Hout as _ _ _ Hh2. rewrite Hh2. apply Hhw, Hport.
Qed.

Lemma init_bus_sequence_witness :
  exists t,
    trace (plat (snd (is31fl3235a_init cfg_sdb (sys0 [])))) = [] ++ t
    /\ i2c_msgs t = init_msgs cfg_sdb
    /\ other_events t = [EvGpioConfigure 0; EvGpioSet 1 0; EvSleep 1; EvSleep 1].
Proof.
  assert (Hret : fst (is31fl3235a_init cfg_sdb (sys0 [])) = 0).
  { apply init_succeeds; [reflexivity | reflexivity | constructor | constructor]. }
  assert (Hrun : is31fl3235a_init cfg_sdb (sys0 [])
                 = (0, snd (is31fl3235a_init cfg_sdb (sys0 [])))).
  { rewrite <- Hret. apply surjective_pairing. }
  exact (proj1 (init_bus_sequence cfg_sdb (sys0 []) _ Hrun)).
Defined.

(** ** The caches mirror the chip *)

(** Writing the same bytes at corresponding places keeps two arrays in
    agreement, cell [off + i] of the first with cell [i] of the second. *)
Lemma inserts_agree (l1 l2 vals : list Z) (off start bound : nat) :
  (forall i : nat, (i < bound)%nat -> l1 !! (off + i)%nat = l2 !! i) ->
  (start + length vals <= bound)%nat ->
  forall i : nat, (i < bound)%nat ->
    list_inserts (off + start) vals l1 !! (off + i)%nat
    = list_inserts start vals l2 !! i.
Proof.
  intros Hagree Hfit i Hi.
  destruct (Nat.lt_ge_cases i start) as [Hlow | Hge].
  { rewrite !list_lookup_inserts_lt by lia. apply Hagree, Hi. }
  destruct (Nat.lt_ge_cases i (start + length vals)) as [Hin | Hhigh].
  2: { rewrite !list_lookup_inserts_ge by lia. apply Hagree, Hi. }
  specialize (Hagree i Hi).
  destruct (Nat.lt_ge_cases i (length l2)) as [Hl2 | Hl2].
  - assert (Hl1 : (off + i < length l1)%nat).
    { apply lookup_lt_is_Some. rewrite Hagree. apply lookup_lt_is_Some. exact Hl2. }
    rewrite !list_lookup_inserts by lia. f_equal. lia.
  - assert (Hl1 : (length l1 <= off + i)%nat).
    { apply lookup_ge_None. rewrite Hagree. apply lookup_ge_None. exact Hl2. }
    rewrite (proj2 (lookup_ge_None _ _)) by (rewrite length_inserts; exact Hl1).
    rewrite (proj2 (lookup_ge_None _ _)) by (rewrite length_inserts; exact Hl2).
    reflexivity.
Qed.

(** A multi-byte write that reaches neither the Update nor the Reset
    register stores its bytes in consecutive staging registers. *)
Lemma chip_write_bytes_plain (values : list Z) :
  forall (c : chip) (reg : Z),
    0 <= reg ->
    (forall k, 0 <= k < Z.of_nat (length values) ->
       reg + k <> IS31FL3235A_REG_UPDATE /\ reg + k <> IS31FL3235A_REG_RESET) ->
    chip_write_bytes c reg values
    = mk_chip (list_inserts (Z.to_nat reg) values (staged c)) (visible c).
Proof.
  induction values as [| v values IH]; intros c reg Hreg Hplain.
  - destruct c. reflexivity.
  - cbn [chip_write_bytes]. unfold chip_write_byte.
    destruct (Hplain 0 ltac:(cbn [length]; lia)) as [Hu Hr].
    rewrite Z.add_0_r in Hu, Hr.
    rewrite (proj2 (Z.eqb_neq _ _) Hu), (proj2 (Z.eqb_neq _ _) Hr).
    rewrite IH.
    + cbn [staged visible list_inserts].
      replace (Z.to_nat (reg + 1)) with (S (Z.to_nat reg)) by lia.
      rewrite list_insert_inserts_lt by lia. reflexivity.
    + lia.
    + intros k Hk. replace (reg + 1 + k) with (reg + (k + 1)) by lia.
      apply Hplain. cbn [length]. lia.
Qed.

(** The effect on the chip of the bus writes of an operation that
    writes, commits and triggers. *)
Lemma chip_after_data_then_trigger (cfg : is31fl3235a_cfg) (reg : Z)
    (values : list Z) (p : platform) (c : chip) :
  let c' := chip_run c (data_then_trigger cfg (reg :: values) p) in
  if i2c_next p <? 0 then c' = c
  else
    let written := chip_write_bytes c reg values in
    staged c' = staged written
    /\ (0 <= i2c_next (i2c_transfer cfg (reg :: values) p) ->
        visible c' = staged written).
Proof.
  cbv zeta. unfold data_then_trigger.
  destruct (Z.ltb_spec (i2c_next p) 0) as [Hfail | Hsucc]; cbn.
  - rewrite (proj2 (Z.ltb_lt _ 0) Hfail). reflexivity.
  - rewrite (proj2 (Z.ltb_ge _ 0) Hsucc).
    destruct (Z.ltb_spec (i2c_next (i2c_transfer cfg (reg :: values) p)) 0)
      as [Htrig | Hdone].
    + split; [reflexivity | lia].
    + split; reflexivity.
Qed.

Section Mirror.

Variables (cfg : is31fl3235a_cfg) (c0 : chip) (s : system).
Hypothesis Hmirror : mirrors c0 s.

(** The step shared by the five operations: if a successful data write
    brings the staging registers in agreement with the committed data,
    the caches mirror the chip after the operation, whatever the
    transport answers; and the outputs show the caches when it returns 0. *)
Lemma write_commit_trigger_mirrors (reg : Z) (values : list Z)
    (commit : is31fl3235a_data -> is31fl3235a_data) :
  regs_agree
    (staged (chip_write_bytes (chip_run c0 (trace (plat s))) reg values))
    (commit (data s)) ->
  let out := write_commit_trigger cfg (reg :: values) commit s in
  mirrors c0 (snd out) /\ (fst out = 0 -> shows c0 (snd out)).
Proof.
  intros Hwritten. cbv zeta. unfold mirrors, shows.
  rewrite write_commit_trigger_trace, chip_run_app.
  pose proof (chip_after_data_then_trigger cfg reg values (plat s)
                (chip_run c0 (trace (plat s)))) as Hchip.
  cbv zeta in Hchip. rewrite write_commit_trigger_data.
  unfold write_commit_trigger. cbv zeta.
  destruct (Z.ltb_spec (i2c_next (plat s)) 0) as [Hfail | Hsucc]; cbn [fst].
  - rewrite Hchip. split; [exact Hmirror | lia].
  - destruct Hchip as [Hst Hvis]. rewrite Hst. split; [exact Hwritten |].
    destruct (Z.ltb_spec (i2c_next (i2c_transfer cfg (reg :: values) (plat s))) 0)
      as [Htrig | Hdone]; [lia |].
    intros _. rewrite (Hvis Hdone). exact Hwritten.
Qed.

Lemma write_commit_mirrors (reg : Z) (values : list Z)
    (commit : is31fl3235a_data -> is31fl3235a_data) :
  regs_agree
    (staged (chip_write_bytes (chip_run c0 (trace (plat s))) reg values))
    (commit (data s)) ->
  mirrors c0 (snd (write_commit cfg (reg :: values) commit s)).
Proof.
  intros Hwritten. unfold mirrors, write_commit. cbv zeta.
  destruct (Z.ltb_spec (i2c_next (plat s)) 0) as [Hfail | Hsucc];
    cbn [snd data plat]; rewrite trace_transfer, chip_run_app; cbn.
  - rewrite (proj2 (Z.ltb_lt _ 0) Hfail). exact Hmirror.
  - rewrite (proj2 (Z.ltb_ge _ 0) Hsucc). exact Hwritten.
Qed.

(** A write of brightness values into the PWM block. *)
Lemma pwm_write_agrees (start num : Z) (buf : list Z) :
  0 <= start -> 0 <= num -> start + num <= IS31FL3235A_NUM_CHANNELS ->
  regs_agree
    (staged (chip_write_bytes (chip_run c0 (trace (plat s)))
               (IS31FL3235A_REG_PWM_BASE + start) (take (Z.to_nat num) buf)))
    (set_pwm_cache (memcpy (pwm_cache (data s)) start buf num) (data s)).
Proof.
  intros Hs Hn Hfit. rewrite num_channels_val in Hfit.
  assert (Hlen : (length (take (Z.to_nat num) buf) <= Z.to_nat num)%nat)
    by (rewrite length_take; lia).
  rewrite chip_write_bytes_plain;
    [| unfold IS31FL3235A_REG_PWM_BASE; lia
     | intros k Hk;
       unfold IS31FL3235A_REG_PWM_BASE, IS31FL3235A_REG_UPDATE, IS31FL3235A_REG_RESET;
       lia].
  cbn [staged]. intros i Hi. cbn [pwm_cache ctrl_cache set_pwm_cache]. split.
  - unfold memcpy.
    replace (Z.to_nat (IS31FL3235A_REG_PWM_BASE + start))
      with (Z.to_nat IS31FL3235A_REG_PWM_BASE + Z.to_nat start)%nat
      by (unfold IS31FL3235A_REG_PWM_BASE; lia).
    apply (inserts_agree _ _ _ _ _ (Z.to_nat IS31FL3235A_NUM_CHANNELS));
      [intros i' Hi'; apply (Hmirror i' Hi') | rewrite num_channels_val; lia | exact Hi].
  - rewrite list_lookup_inserts_ge.
    + apply (Hmirror i Hi).
    + rewrite num_channels_val in Hi.
      unfold IS31FL3235A_REG_PWM_BASE, IS31FL3235A_REG_CTRL_BASE. lia.
Qed.

(** A write of control bytes into the control block. *)
Lemma ctrl_write_agrees (start num : Z) (ctrl_buf : list Z) :
  0 <= start -> 0 <= num -> start + num <= IS31FL3235A_NUM_CHANNELS ->
  regs_agree
    (staged (chip_write_bytes (chip_run c0 (trace (plat s)))
               (IS31FL3235A_REG_CTRL_BASE + start) (take (Z.to_nat num) ctrl_buf)))
    (set_ctrl_cache (memcpy (ctrl_cache (data s)) start ctrl_buf num) (data s)).
Proof.
  intros Hs Hn Hfit. rewrite num_channels_val in Hfit.
  assert (Hlen : (length (take (Z.to_nat num) ctrl_buf) <= Z.to_nat num)%nat)
    by (rewrite length_take; lia).
  rewrite chip_write_bytes_plain;
    [| unfold IS31FL3235A_REG_CTRL_BASE; lia
     | intros k Hk;
       unfold IS31FL3235A_REG_CTRL_BASE, IS31FL3235A_REG_UPDATE, IS31FL3235A_REG_RESET;
       lia].
  cbn [staged]. intros i Hi. cbn [pwm_cache ctrl_cache set_ctrl_cache]. split.
  - rewrite list_lookup_inserts_lt.
    + apply (Hmirror i Hi).
    + rewrite num_channels_val in Hi.
      unfold IS31FL3235A_REG_PWM_BASE, IS31FL3235A_REG_CTRL_BASE. lia.
  - unfold memcpy.
    replace (Z.to_nat (IS31FL3235A_REG_CTRL_BASE + start))
      with (Z.to_nat IS31FL3235A_REG_CTRL_BASE + Z.to_nat start)%nat
      by (unfold IS31FL3235A_REG_CTRL_BASE; lia).
    apply (inserts_agree _ _ _ _ _ (Z.to_nat IS31FL3235A_NUM_CHANNELS));
      [intros i' Hi'; apply (Hmirror i' Hi') | rewrite num_channels_val; lia | exact Hi].
Qed.

End Mirror.

Section MirrorOperations.

Variables (cfg : is31fl3235a_cfg) (c0 : chip) (s : system).
Hypothesis Hmirror : mirrors c0 s.

Let kept (out : Z * system) : Prop :=
  mirrors c0 (snd out) /\ (fst out = 0 -> shows c0 (snd out)).

Lemma rejected_mirrors : kept (- EINVAL, s).
Proof. split; [exact Hmirror | cbn; unfold EINVAL; lia]. Qed.

Lemma set_brightness_mirrors (led value : Z) :
  is_u32 led -> kept (is31fl3235a_led_set_brightness cfg led value s).
Proof.
  intros [Hlo _].
  destruct (Z.le_gt_cases IS31FL3235A_NUM_CHANNELS led) as [Hge | Hlt].
  - rewrite (proj1 (channel_rejected cfg led s Hge)). apply rejected_mirrors.
  - rewrite set_brightness_run by lia.
    apply (write_commit_trigger_mirrors cfg c0 s Hmirror).
    exact (pwm_write_agrees c0 s Hmirror led 1 [value] Hlo ltac:(lia) ltac:(lia)).
Qed.

Lemma write_channels_mirrors (start num : Z) (buf : list Z) :
  is_u32 start -> is_u32 num ->
  kept (is31fl3235a_led_write_channels cfg start num buf s).
Proof.
  intros Hs Hn.
  destruct (Z.le_gt_cases IS31FL3235A_NUM_CHANNELS start) as [Hge | Hlt].
  { destruct (channel_rejected cfg start s Hge) as (_ & _ & _ & _ & _ & Hrej & _).
    rewrite Hrej. apply rejected_mirrors. }
  destruct (Z.le_gt_cases (start + num) IS31FL3235A_NUM_CHANNELS) as [Hfit | Hover].
  - destruct Hs as [Hs0 _]. destruct Hn as [Hn0 _].
    rewrite write_channels_run by lia.
    apply (write_commit_trigger_mirrors cfg c0 s Hmirror).
    apply (pwm_write_agrees c0 s Hmirror); lia.
  - destruct (write_channels_out_of_range cfg start num buf s Hs Hn) as [Hrej _];
      [lia |].
    rewrite Hrej. apply rejected_mirrors.
Qed.

Lemma set_current_scale_mirrors (channel scale : Z) :
  is_u8 channel -> kept (is31fl3235a_set_current_scale cfg channel scale s).
Proof.
  intros [Hlo _].
  destruct (Z.le_gt_cases IS31FL3235A_NUM_CHANNELS channel) as [Hge | Hlt].
  { destruct (channel_rejected cfg channel s Hge) as (_ & _ & Hrej & _).
    rewrite Hrej. apply rejected_mirrors. }
  destruct (Z.le_gt_cases scale IS31FL3235A_SCALE_1_4X) as [Hscale | Hbig].
  - rewrite set_current_scale_run by lia. cbv zeta.
    apply (write_commit_trigger_mirrors cfg c0 s Hmirror).
    exact (ctrl_write_agrees c0 s Hmirror channel 1 [_] Hlo ltac:(lia) ltac:(lia)).
  - unfold is31fl3235a_set_current_scale.
    destruct (Z.geb_spec channel IS31FL3235A_NUM_CHANNELS); [lia |].
    rewrite Z.gtb_ltb, (proj2 (Z.ltb_lt _ scale) Hbig). apply rejected_mirrors.
Qed.

Lemma channel_enable_mirrors (channel : Z) (enable : bool) :
  is_u8 channel -> kept (is31fl3235a_channel_enable cfg channel enable s).
Proof.
  intros [Hlo _].
  destruct (Z.le_gt_cases IS31FL3235A_NUM_CHANNELS channel) as [Hge | Hlt].
  - destruct (channel_rejected cfg channel s Hge) as (_ & _ & _ & Hrej & _).
    rewrite Hrej. apply rejected_mirrors.
  - rewrite channel_enable_run by lia. cbv zeta.
    apply (write_commit_trigger_mirrors cfg c0 s Hmirror).
    exact (ctrl_write_agrees c0 s Hmirror channel 1 [_] Hlo ltac:(lia) ltac:(lia)).
Qed.

Lemma channels_enable_mirrors (start num : Z) (enable : list bool) :
  is_u8 start -> is_u8 num ->
  kept (is31fl3235a_channels_enable cfg start num enable s).
Proof.
  intros [Hs0 _] [Hn0 _].
  destruct (Z.le_gt_cases IS31FL3235A_NUM_CHANNELS start) as [Hge | Hlt].
  { destruct (channel_rejected cfg start s Hge) as (_ & _ & _ & _ & Hrej & _).
    rewrite Hrej. apply rejected_mirrors. }
  destruct (Z.le_gt_cases (start + num) IS31FL3235A_NUM_CHANNELS) as [Hfit | Hover].
  - rewrite channels_enable_run by lia. cbv zeta.
    apply (write_commit_trigger_mirrors cfg c0 s Hmirror).
    apply (ctrl_write_agrees c0 s Hmirror); lia.
  - unfold is31fl3235a_channels_enable.
    destruct (Z.geb_spec start IS31FL3235A_NUM_CHANNELS); [lia |].
    rewrite Z.gtb_ltb, (proj2 (Z.ltb_lt _ (start + num)) Hover).
    apply rejected_mirrors.
Qed.

Lemma set_brightness_no_update_mirrors (led value : Z) :
  is_u32 led -> mirrors c0 (snd (is31fl3235a_set_brightness_no_update cfg led value s)).
Proof.
  intros [Hlo _].
  destruct (Z.le_gt_cases IS31FL3235A_NUM_CHANNELS led) as [Hge | Hlt].
  - destruct (channel_rejected cfg led s Hge) as (_ & Hrej & _).
    rewrite Hrej. exact Hmirror.
  - rewrite set_brightness_no_update_run by lia.
    apply (write_commit_mirrors cfg c0 s Hmirror).
    exact (pwm_write_agrees c0 s Hmirror led 1 [value] Hlo ltac:(lia) ltac:(lia)).
Qed.

Lemma write_channels_no_update_mirrors (start num : Z) (buf : list Z) :
  is_u32 start -> is_u32 num ->
  mirrors c0 (snd (is31fl3235a_write_channels_no_update cfg start num buf s)).
Proof.
  intros Hs Hn.
  destruct (Z.le_gt_cases IS31FL3235A_NUM_CHANNELS start) as [Hge | Hlt].
  { destruct (channel_rejected cfg start s Hge) as (_ & _ & _ & _ & _ & _ & Hrej).
    rewrite Hrej. exact Hmirror. }
  destruct (Z.le_gt_cases (start + num) IS31FL3235A_NUM_CHANNELS) as [Hfit | Hover].
  - destruct Hs as [Hs0 _]. destruct Hn as [Hn0 _].
    rewrite write_channels_no_update_run by lia.
    apply (write_commit_mirrors cfg c0 s Hmirror).
    apply (pwm_write_agrees c0 s Hmirror); lia.
  - destruct (write_channels_out_of_range cfg start num buf s Hs Hn) as [_ Hrej];
      [lia |].
    rewrite Hrej. exact Hmirror.
Qed.

Lemma update_mirrors : kept (is31fl3235a_update cfg s).
Proof.
  unfold kept, mirrors, shows. rewrite update_run. cbn [fst snd data plat].
  rewrite trace_transfer, chip_run_app. cbn.
  destruct (Z.ltb_spec (i2c_next (plat s)) 0) as [Hfail | Hsucc].
  - split; [exact Hmirror | lia].
  - split; [exact Hmirror | intros _; exact Hmirror].
Qed.

Lemma sw_shutdown_mirrors (b : bool) :
  mirrors c0 (snd (is31fl3235a_sw_shutdown cfg b s)).
Proof.
  unfold mirrors, is31fl3235a_sw_shutdown. unfold_helpers.
  split_ifs; rewrite trace_transfer, chip_run_app; cbn; rewrite ?Etest;
    try exact Hmirror;
    intros i Hi; cbn [staged];
    rewrite !list_lookup_insert_ne
      by (unfold IS31FL3235A_REG_SHUTDOWN, IS31FL3235A_REG_PWM_BASE,
            IS31FL3235A_REG_CTRL_BASE; lia);
    apply (Hmirror i Hi).
Qed.

Lemma hw_shutdown_mirrors (b : bool) :
  mirrors c0 (snd (is31fl3235a_hw_shutdown cfg b s)).
Proof.
  unfold mirrors, is31fl3235a_hw_shutdown. unfold_helpers.
  split_ifs; unfold chip_run; rewrite ?fold_left_app; cbn; exact Hmirror.
Qed.

End MirrorOperations.

(** The channel loop, seen from the chip: each round stages the
    baseline of one more channel. *)
Lemma init_channels_chip (cfg : is31fl3235a_cfg) (c0 : chip) (todo : nat) :
  forall (i : Z) (s s' : system),
    0 <= i -> i + Z.of_nat todo <= IS31FL3235A_NUM_CHANNELS ->
    init_channels cfg todo i s = (None, s') ->
    chip_filled (Z.to_nat i) (chip_run c0 (trace (plat s))) ->
    chip_filled (Z.to_nat i + todo) (chip_run c0 (trace (plat s'))).
Proof.
  induction todo as [| todo IH]; intros i s s' Hi Hfit Hrun Hfilled.
  - cbv in Hrun. injection Hrun as <-. rewrite Nat.add_0_r. exact Hfilled.
  - rewrite init_channels_step in Hrun. cbv zeta in Hrun.
    assert (Hch : 0 <= i < IS31FL3235A_NUM_CHANNELS) by lia.
    rewrite (pwm_reg_u8 i Hch), (ctrl_reg_u8 i Hch) in Hrun.
    destruct (Z.ltb_spec (i2c_next (plat s)) 0) as [| Hr1]; [discriminate |].
    destruct (Z.ltb_spec (i2c_next (i2c_transfer cfg
                [IS31FL3235A_REG_PWM_BASE + i; 0] (plat s))) 0) as [| Hr2];
      [discriminate |].
    apply IH in Hrun; [| lia | lia |].
    + replace (Z.to_nat i + S todo)%nat with (Z.to_nat (i + 1) + todo)%nat by lia.
      exact Hrun.
    + clear Hrun IH. cbn [plat].
      rewrite !trace_transfer, !chip_run_app. cbn [chip_run fold_left chip_step].
      rewrite (proj2 (Z.ltb_ge _ 0) Hr1), (proj2 (Z.ltb_ge _ 0) Hr2).
      cbn [chip_write_bytes]. unfold chip_write_byte.
      destruct (pwm_reg_plain i Hch) as [-> ->].
      destruct (ctrl_reg_plain i Hch) as [-> ->].
      fold (chip_run c0 (trace (plat s))).
      destruct Hfilled as [Hlen Hcells]. unfold chip_filled. cbn [staged visible].
      rewrite num_channels_val in Hch. unfold chip_regs in *.
      assert (Hp : Z.to_nat (IS31FL3235A_REG_PWM_BASE + i)
                   = (Z.to_nat IS31FL3235A_REG_PWM_BASE + Z.to_nat i)%nat)
        by (unfold IS31FL3235A_REG_PWM_BASE; lia).
      assert (Hc : Z.to_nat (IS31FL3235A_REG_CTRL_BASE + i)
                   = (Z.to_nat IS31FL3235A_REG_CTRL_BASE + Z.to_nat i)%nat)
        by (unfold IS31FL3235A_REG_CTRL_BASE; lia).
      rewrite Hp, Hc.
      assert (Hpb : Z.to_nat IS31FL3235A_REG_PWM_BASE = 5%nat) by reflexivity.
      assert (Hcb : Z.to_nat IS31FL3235A_REG_CTRL_BASE = 42%nat) by reflexivity.
      rewrite Hpb, Hcb in *.
      split; [rewrite !length_insert; exact Hlen |].
      intros j Hj.
      destruct (decide (j = Z.to_nat i)) as [-> | Hne].
      * split.
        -- rewrite list_lookup_insert_ne by lia.
           apply list_lookup_insert_eq. lia.
        -- apply list_lookup_insert_eq. rewrite length_insert. lia.
      * rewrite !list_lookup_insert_ne by lia. apply Hcells. lia.
Qed.

(** X18: an initialisation that returns 0 leaves the caches equal to
    the staging registers of the chip mock on all 28 channels, and the
    visible outputs equal to them as well, whatever the chip held before
    (the reset and the 56 channel writes determine it). *)
Theorem init_establishes_mirror (cfg : is31fl3235a_cfg) (c0 : chip) (s s' : system) :
  length (pwm_cache (data s)) = Z.to_nat IS31FL3235A_NUM_CHANNELS ->
  length (ctrl_cache (data s)) = Z.to_nat IS31FL3235A_NUM_CHANNELS ->
  is31fl3235a_init cfg s = (0, s') ->
  mirrors c0 s' /\ shows c0 s'.
Proof.
  intros Hlp Hlc Hrun. revert Hrun.
  unfold is31fl3235a_init, i2c_device_is_ready. unfold_helpers.
  cbn [data plat fst snd].
  destruct (i2c_bus_ready (plat s)); cbn [negb]; [| intros [= ?]; discriminate].
  match goal with
  | |- context [init_sdb_pin cfg ?x] =>
      pose proof (init_sdb_pin_frame cfg x) as Hpin;
      destruct (init_sdb_pin cfg x) as [early s1]
  end.
  cbn [fst snd data plat caches pwm_cache ctrl_cache set_lock] in Hpin.
  destruct Hpin as (Hearly & Hcaches & _).
  injection Hcaches as Hp1 Hc1.
  destruct early as [r |]; [intros Hrun; apply pair_equal_spec in Hrun; lia |].
  run; try (intros Hrun; apply pair_equal_spec in Hrun; lia).
  match goal with
  | |- context [init_channels cfg ?n ?i ?x] =>
      pose proof (init_channels_done cfg n i x) as Hdone;
      pose proof (init_channels_chip cfg c0 n i x) as Hchip;
      pose proof (init_channels_early cfg n i x) as Hstop;
      destruct (init_channels cfg n i x) as [early s2]
  end.
  destruct early as [r |].
  { intros Hrun; apply pair_equal_spec in Hrun. destruct Hrun as [-> _].
    specialize (Hstop _ _ eq_refl). lia. }
  clear Hstop.
  specialize (Hdone s2 ltac:(lia) ltac:(rewrite num_channels_val; lia) eq_refl).
  specialize (Hchip s2 ltac:(lia) ltac:(rewrite num_channels_val; lia) eq_refl).
  cbn [data plat pwm_cache ctrl_cache set_sw_shutdown] in Hdone, Hchip.
  destruct Hdone as (Hpwm & Hctrl & _).
  change (Z.to_nat 0) with O in Hpwm, Hctrl, Hchip.
  rewrite Hp1, <- Hlp, fill_all, Hlp in Hpwm.
  rewrite Hc1, <- Hlc, fill_all, Hlc in Hctrl.
  assert (Hfilled : chip_filled (Z.to_nat IS31FL3235A_NUM_CHANNELS)
                      (chip_run c0 (trace (plat s2)))).
  { apply Hchip. rewrite !trace_transfer. cbn [trace log_event].
    rewrite trace_transfer, !chip_run_app. cbn [chip_run fold_left chip_step].
    repeat match goal with
           | H : 0 <= ?r |- context [?r <? 0] => rewrite (proj2 (Z.ltb_ge r 0) H)
           end.
    cbn. unfold chip_filled. cbn [staged]. split; [| intros j Hj; lia].
    rewrite !length_insert. reflexivity. }
  clear Hchip.
  run; try (intros Hrun; apply pair_equal_spec in Hrun; lia).
  intros Hrun; apply pair_equal_spec in Hrun. destruct Hrun as [_ <-].
  unfold mirrors, shows. cbn [data plat]. rewrite trace_transfer, chip_run_app.
  cbn [chip_run fold_left chip_step trigger_msg].
  match goal with
  | H : 0 <= ?r |- context [?r <? 0] => rewrite (proj2 (Z.ltb_ge r 0) H)
  end.
  cbn [chip_write_bytes]. unfold chip_write_byte.
  rewrite Z.eqb_refl. cbn [staged visible]. fold (chip_run c0 (trace (plat s2))).
  destruct Hfilled as [_ Hcells].
  assert (Hagree : regs_agree (staged (chip_run c0 (trace (plat s2))))
                     (set_initialized true (data s2))).
  { intros i Hi. cbn [pwm_cache ctrl_cache set_initialized].
    rewrite Hpwm, Hctrl, !lookup_replicate_2 by exact Hi.
    apply Hcells, Hi. }
  split; exact Hagree.
Qed.

Lemma init_establishes_mirror_witness :
  mirrors chip_reset (snd (is31fl3235a_init cfg_sdb (sys0 [])))
  /\ shows chip_reset (snd (is31fl3235a_init cfg_sdb (sys0 []))).
Proof.
  assert (Hret : fst (is31fl3235a_init cfg_sdb (sys0 [])) = 0).
  { apply init_succeeds; [reflexivity | reflexivity | constructor | constructor]. }
  assert (Hrun : is31fl3235a_init cfg_sdb (sys0 [])
                 = (0, snd (is31fl3235a_init cfg_sdb (sys0 [])))).
  { rewrite <- Hret. apply surjective_pairing. }
  exact (init_establishes_mirror cfg_sdb chip_reset (sys0 []) _ eq_refl eq_refl Hrun).
Defined.

(** X16: if the caches mirror the staging registers of the chip mock,
    they still do after any operation, for all arguments of the
    operations' types and whatever the platform answers; in particular
    after an operation whose data write succeeded and whose trigger
    write failed. *)
Theorem caches_mirror_staging_registers (cfg : is31fl3235a_cfg) (c0 : chip)
    (s : system) :
  mirrors c0 s ->
  (forall led value, is_u32 led ->
     mirrors c0 (snd (is31fl3235a_led_set_brightness cfg led value s)))
  /\ (forall start num buf, is_u32 start -> is_u32 num ->
        mirrors c0 (snd (is31fl3235a_led_write_channels cfg start num buf s)))
  /\ (forall channel scale, is_u8 channel ->
        mirrors c0 (snd (is31fl3235a_set_current_scale cfg channel scale s)))
  /\ (forall channel enable, is_u8 channel ->
        mirrors c0 (snd (is31fl3235a_channel_enable cfg channel enable s)))
  /\ (forall start num enable, is_u8 start -> is_u8 num ->
        mirrors c0 (snd (is31fl3235a_channels_enable cfg start num enable s)))
  /\ (forall led value, is_u32 led ->
        mirrors c0 (snd (is31fl3235a_set_brightness_no_update cfg led value s)))
  /\ (forall start num buf, is_u32 start -> is_u32 num ->
        mirrors c0 (snd (is31fl3235a_write_channels_no_update cfg start num buf s)))
  /\ mirrors c0 (snd (is31fl3235a_update cfg s))
  /\ (forall b, mirrors c0 (snd (is31fl3235a_sw_shutdown cfg b s)))
  /\ (forall b, mirrors c0 (snd (is31fl3235a_hw_shutdown cfg b s))).
Proof.
  intros Hmirror.
  split; [intros led value Hled;
          apply (set_brightness_mirrors cfg c0 s Hmirror led value Hled) |].
  split; [intros start num buf Hs Hn;
          apply (write_channels_mirrors cfg c0 s Hmirror start num buf Hs Hn) |].
  split; [intros channel scale Hc;
          apply (set_current_scale_mirrors cfg c0 s Hmirror channel scale Hc) |].
  split; [intros channel enable Hc;
          apply (channel_enable_mirrors cfg c0 s Hmirror channel enable Hc) |].
  split; [intros start num enable Hs Hn;
          apply (channels_enable_mirrors cfg c0 s Hmirror start num enable Hs Hn) |].
  split; [intros led value Hled;
          apply (set_brightness_no_update_mirrors cfg c0 s Hmirror led value Hled) |].
  split; [intros start num buf Hs Hn;
          apply (write_channels_no_update_mirrors cfg c0 s Hmirror start num buf Hs Hn) |].
  split; [apply (update_mirrors cfg c0 s Hmirror) |].
  split; [intros b; apply (sw_shutdown_mirrors cfg c0 s Hmirror b)
         | intros b; apply (hw_shutdown_mirrors cfg c0 s Hmirror b)].
Qed.

(** X17: if the caches mirror the staging registers of the chip mock,
    then after any of the five operations that trigger, and after
    [update()], a return of 0 means that the visible outputs of the mock
    equal the caches on all 28 channels. *)
Theorem success_shows_caches (cfg : is31fl3235a_cfg) (c0 : chip) (s : system) :
  mirrors c0 s ->
  (forall led value, is_u32 led ->
     let out := is31fl3235a_led_set_brightness cfg led value s in
     fst out = 0 -> shows c0 (snd out))
  /\ (forall start num buf, is_u32 start -> is_u32 num ->
        let out := is31fl3235a_led_write_channels cfg start num buf s in
        fst out = 0 -> shows c0 (snd out))
  /\ (forall channel scale, is_u8 channel ->
        let out := is31fl3235a_set_current_scale cfg channel scale s in
        fst out = 0 -> shows c0 (snd out))
  /\ (forall channel enable, is_u8 channel ->
        let out := is31fl3235a_channel_enable cfg channel enable s in
        fst out = 0 -> shows c0 (snd out))
  /\ (forall start num enable, is_u8 start -> is_u8 num ->
        let out := is31fl3235a_channels_enable cfg start num enable s in
        fst out = 0 -> shows c0 (snd out))
  /\ (fst (is31fl3235a_update cfg s) = 0 -> shows c0 (snd (is31fl3235a_update cfg s))).
Proof.
  intros Hmirror.
  split; [intros led value Hled;
          apply (set_brightness_mirrors cfg c0 s Hmirror led value Hled) |].
  split; [intros start num buf Hs Hn;
          apply (write_channels_mirrors cfg c0 s Hmirror start num buf Hs Hn) |].
  split; [intros channel scale Hc;
          apply (set_current_scale_mirrors cfg c0 s Hmirror channel scale Hc) |].
  split; [intros channel enable Hc;
          apply (channel_enable_mirrors cfg c0 s Hmirror channel enable Hc) |].
  split; [intros start num enable Hs Hn;
          apply (channels_enable_mirrors cfg c0 s Hmirror start num enable Hs Hn) |].
  apply (update_mirrors cfg c0 s Hmirror).
Qed.

(** The zero-initialised data mirror a chip in its reset state. *)
Lemma reset_chip_mirrored (i2c : list Z) : mirrors chip_reset (sys0 i2c).
Proof.
  intros i Hi. change (Z.to_nat IS31FL3235A_NUM_CHANNELS) with 28%nat in Hi.
  cbn [sys0 data plat plat_script trace chip_run fold_left data0 pwm_cache
       ctrl_cache chip_reset staged].
  change (Z.to_nat IS31FL3235A_REG_PWM_BASE) with 5%nat.
  change (Z.to_nat IS31FL3235A_REG_CTRL_BASE) with 42%nat.
  unfold chip_regs. rewrite !lookup_replicate_2 by lia. split; reflexivity.
Qed.

Lemma caches_mirror_staging_registers_witness :
  mirrors chip_reset
    (snd (is31fl3235a_led_set_brightness cfg0 0 7 (sys0 [0; -5]))).
Proof.
  assert (H0 : is_u32 0) by (unfold is_u32; lia).
  exact (proj1 (caches_mirror_staging_registers cfg0 chip_reset (sys0 [0; -5])
                  (reset_chip_mirrored [0; -5])) 0 7 H0).
Defined.

Lemma success_shows_caches_witness :
  shows chip_reset (snd (is31fl3235a_led_set_brightness cfg0 5 200 (sys0 []))).
Proof.
  assert (H5 : is_u32 5) by (unfold is_u32; lia).
  exact (proj1 (success_shows_caches cfg0 chip_reset (sys0 [])
                  (reset_chip_mirrored [])) 5 200 H5 eq_refl).
Defined.

(** ** Staging without update *)

Lemma write_commit_invisible (cfg : is31fl3235a_cfg) (c0 : chip) (reg : Z)
    (values : list Z) (commit : is31fl3235a_data -> is31fl3235a_data) (s : system) :
  0 <= reg -> reg <> IS31FL3235A_REG_UPDATE ->
  (forall k, 0 <= k < Z.of_nat (length values) ->
     reg + k <> IS31FL3235A_REG_UPDATE /\ reg + k <> IS31FL3235A_REG_RESET) ->
  let s' := snd (write_commit cfg (reg :: values) commit s) in
  visible (chip_run c0 (trace (plat s'))) = visible (chip_run c0 (trace (plat s)))
  /\ trigger_writes (trace (plat s')) = trigger_writes (trace (plat s)).
Proof.
  intros Hreg Hnu Hplain. cbv zeta.
  assert (Htrace : trace (plat (snd (write_commit cfg (reg :: values) commit s)))
                   = trace (plat s)
                     ++ [EvI2cWrite (i2c_addr cfg) (reg :: values) (i2c_next (plat s))]).
  { unfold write_commit. cbv zeta.
    destruct (i2c_next (plat s) <? 0); apply trace_transfer. }
  rewrite Htrace, chip_run_app, trigger_writes_app, trigger_writes_cons,
    trigger_writes_nil.
  split.
  - cbn. destruct (i2c_next (plat s) <? 0); [reflexivity |].
    rewrite chip_write_bytes_plain by assumption. reflexivity.
  - cbn [writes_to]. rewrite (proj2 (Z.eqb_neq _ _) Hnu). lia.
Qed.

(** X19: the no-update variants never make a staged value visible: for
    all 32-bit arguments and whatever the transport answers, after
    [set_brightness_no_update] or [write_channels_no_update] the visible
    outputs of the chip mock and the number of trigger writes are what
    they were; hence also after any sequence of staged brightness writes,
    with the caches still mirroring the staging registers. *)
Theorem staging_is_invisible (cfg : is31fl3235a_cfg) (c0 : chip) :
  (forall s led value, is_u32 led ->
     let s' := snd (is31fl3235a_set_brightness_no_update cfg led value s) in
     visible (chip_run c0 (trace (plat s'))) = visible (chip_run c0 (trace (plat s)))
     /\ trigger_writes (trace (plat s')) = trigger_writes (trace (plat s)))
  /\ (forall s start num buf, is_u32 start -> is_u32 num ->
        let s' := snd (is31fl3235a_write_channels_no_update cfg start num buf s) in
        visible (chip_run c0 (trace (plat s'))) = visible (chip_run c0 (trace (plat s)))
        /\ trigger_writes (trace (plat s')) = trigger_writes (trace (plat s)))
  /\ (forall writes s,
        Forall (fun w => is_u32 (fst w)) writes ->
        let s' := stage_all cfg writes s in
        visible (chip_run c0 (trace (plat s'))) = visible (chip_run c0 (trace (plat s)))
        /\ trigger_writes (trace (plat s')) = trigger_writes (trace (plat s))
        /\ (mirrors c0 s -> mirrors c0 s')).
Proof.
  assert (Hone : forall s led value, is_u32 led ->
    visible (chip_run c0 (trace (plat (snd (is31fl3235a_set_brightness_no_update
                                              cfg led value s)))))
    = visible (chip_run c0 (trace (plat s)))
    /\ trigger_writes (trace (plat (snd (is31fl3235a_set_brightness_no_update
                                           cfg led value s))))
       = trigger_writes (trace (plat s))).
  { intros s led value [Hlo _].
    destruct (Z.le_gt_cases IS31FL3235A_NUM_CHANNELS led) as [Hge | Hlt].
    - destruct (channel_rejected cfg led s Hge) as (_ & Hrej & _).
      rewrite Hrej. split; reflexivity.
    - rewrite set_brightness_no_update_run by lia.
      rewrite num_channels_val in Hlt.
      apply write_commit_invisible;
        unfold IS31FL3235A_REG_PWM_BASE, IS31FL3235A_REG_UPDATE,
          IS31FL3235A_REG_RESET; cbn [length]; lia. }
  split; [exact Hone |]. split.
  - intros s start num buf Hs Hn. cbv zeta.
    destruct (Z.le_gt_cases IS31FL3235A_NUM_CHANNELS start) as [Hge | Hlt].
    { destruct (channel_rejected cfg start s Hge) as (_ & _ & _ & _ & _ & _ & Hrej).
      rewrite Hrej. split; reflexivity. }
    destruct (Z.le_gt_cases (start + num) IS31FL3235A_NUM_CHANNELS) as [Hfit | Hover].
    + destruct Hs as [Hs0 _]. destruct Hn as [Hn0 _].
      rewrite write_channels_no_update_run by lia.
      rewrite num_channels_val in *.
      apply write_commit_invisible;
        unfold IS31FL3235A_REG_PWM_BASE, IS31FL3235A_REG_UPDATE,
          IS31FL3235A_REG_RESET; rewrite ?length_take; lia.
    + destruct (write_channels_out_of_range cfg start num buf s Hs Hn) as [_ Hrej];
        [lia |].
      rewrite Hrej. split; reflexivity.
  - induction writes as [| [led value] writes IH]; intros s Hall; cbv zeta.
    + split; [reflexivity | split; [reflexivity | intros Hm; exact Hm]].
    + inversion Hall as [| ? ? Hled Hrest]; subst. cbn [fst] in Hled.
      cbn [stage_all].
      destruct (IH (snd (is31fl3235a_set_brightness_no_update cfg led value s)) Hrest)
        as (Hvis & Htrig & Hmir).
      destruct (Hone s led value Hled) as [Hvis1 Htrig1].
      split; [rewrite Hvis; exact Hvis1 |].
      split; [rewrite Htrig; exact Htrig1 |].
      intros Hm. apply Hmir.
      apply (set_brightness_no_update_mirrors cfg c0 s Hm led value Hled).
Qed.

Lemma staging_is_invisible_witness :
  visible (chip_run chip_reset
             (trace (plat (stage_all cfg0 [(0, 100); (1, 50); (2, 25)] (sys0 [])))))
  = visible chip_reset.
Proof.
  assert (Hall : Forall (fun w : Z * Z => is_u32 (fst w)) [(0, 100); (1, 50); (2, 25)]).
  { repeat constructor; cbn; unfold is_u32; lia. }
  exact (proj1 (proj2 (proj2 (staging_is_invisible cfg0 chip_reset))
                  [(0, 100); (1, 50); (2, 25)] (sys0 []) Hall)).
Defined.
